(** * MediaWiki API clients (mediawiki.py): a shallow embedding

    The two client classes [MediaWikiAPI1_19] and [MediaWikiAPI1_31] are
    embedded as state-passing programs over an explicit HTTP session.
    The platform behind the session is a parameter: a transition function
    from a server state and a request to a response and the next server
    state.  Python values (decoded JSON bodies, request parameters) are a
    small inductive type; the exceptions the methods raise are values of
    [exn]. *)

From Stdlib Require Import ZArith.
From stdpp Require Import base option list sorting strings gmap fin_maps.

#[local] Set Warnings "-register-all".

(** ** Python values *)

(** Decoded JSON bodies and request parameter values.  A JSON object is an
    association list in insertion order, as a Python [dict] keeps it; the
    decoder leaves one entry per key, and every operation below reads the
    first entry of a key. *)
Inductive value : Type :=
| VNone
| VBool (b : bool)
| VInt (n : Z)
| VStr (s : string)
| VList (items : list value)
| VTuple (items : list value)
| VDict (entries : list (string * value)).

(** The argument of an exception: either a format template with the value
    put in its [{}] hole ([template.format(arg)]) or a raw payload. *)
Inductive message : Type :=
| Formatted (template : string) (arg : value)
| Payload (payload : value).

(** The exceptions that leave a method: the two classes of the module and
    the built-in ones raised by indexing, iterating and decoding. *)
Inductive exn : Type :=
| MediaWikiAPIError (m : message)
| CanNotDelete (m : message)
| KeyError (key : string)
| TypeError
| ValueError
| AttributeError
| JSONDecodeError
| NotImplementedError.

Inductive result (A : Type) : Type :=
| Ok (a : A)
| Raise (e : exn).
Arguments Ok {A} a.
Arguments Raise {A} e.

(** ** State and exception monad *)

Definition M (S A : Type) : Type := S -> result A * S.

Definition ret {S A} (a : A) : M S A := fun s => (Ok a, s).

Definition raise {S A} (e : exn) : M S A := fun s => (Raise e, s).

Definition bind {S A B} (m : M S A) (k : A -> M S B) : M S B :=
  fun s =>
    match m s with
    | (Ok a, s') => k a s'
    | (Raise e, s') => (Raise e, s')
    end.

Definition lift_result {S A} (r : result A) : M S A := fun s => (r, s).

Definition gets {S A} (f : S -> A) : M S A := fun s => (Ok (f s), s).

Definition modify {S} (f : S -> S) : M S unit := fun s => (Ok tt, f s).

Notation "'let*' x ':=' m 'in' k" := (bind m (fun x => k))
  (at level 10, x name, m at level 100, k at level 200,
   format "'[v' 'let*'  x  ':='  m  'in' '/' k ']'").

Notation "m '>>' k" := (bind m (fun _ => k))
  (at level 90, right associativity).

(** [for x in items: body(x)] *)
Fixpoint for_each {S} (items : list value) (body : value -> M S unit) : M S unit :=
  match items with
  | [] => ret tt
  | x :: rest => body x >> for_each rest body
  end.

(** ** Operations on values *)

Fixpoint assoc (entries : list (string * value)) (k : string) : option value :=
  match entries with
  | [] => None
  | (k', v) :: rest => if String.eqb k k' then Some v else assoc rest k
  end.

(** [v[k]] for a string key [k]: [KeyError] on a dict without the key,
    [TypeError] on everything that is not a dict. *)
Definition getitem (v : value) (k : string) : result value :=
  match v with
  | VDict entries =>
      match assoc entries k with
      | Some x => Ok x
      | None => Raise (KeyError k)
      end
  | _ => Raise TypeError
  end.

Fixpoint is_prefix (p s : string) : bool :=
  match p, s with
  | EmptyString, _ => true
  | String a p', String b s' => Ascii.eqb a b && is_prefix p' s'
  | String _ _, EmptyString => false
  end.

Fixpoint is_substring (p s : string) : bool :=
  is_prefix p s ||
  match s with
  | EmptyString => false
  | String _ s' => is_substring p s'
  end.

Definition is_str (k : string) (v : value) : bool :=
  match v with
  | VStr s => String.eqb k s
  | _ => false
  end.

(** [k in v] for a string [k]: key membership on a dict, element
    membership on a list or tuple, substring test on a string, and
    [TypeError] on [None], booleans and numbers. *)
Definition contains (k : string) (v : value) : result bool :=
  match v with
  | VDict entries => Ok (bool_decide (is_Some (assoc entries k)))
  | VList items | VTuple items => Ok (existsb (is_str k) items)
  | VStr s => Ok (is_substring k s)
  | VNone | VBool _ | VInt _ => Raise TypeError
  end.

Fixpoint chars (s : string) : list value :=
  match s with
  | EmptyString => []
  | String a s' => VStr (String a EmptyString) :: chars s'
  end.

(** The elements a [for] loop ranges over. *)
Definition iterate (v : value) : result (list value) :=
  match v with
  | VList items | VTuple items => Ok items
  | VDict entries => Ok (map (fun e => VStr (fst e)) entries)
  | VStr s => Ok (chars s)
  | VNone | VBool _ | VInt _ => Raise TypeError
  end.

(** [v.values()] *)
Definition values (v : value) : result (list value) :=
  match v with
  | VDict entries => Ok (map snd entries)
  | _ => Raise AttributeError
  end.

(** [d.update(v)] on a parameter dict.  The entries of a dict [v] override
    those of [d].  Every other value is walked through as an iterable of
    key/value pairs: [None], booleans and numbers are not iterable
    ([TypeError]), and each element has to be a sequence of length two
    ([TypeError] when it is no sequence, [ValueError] for another length).
    So an empty list and an empty string change nothing, and a string with
    characters is refused.  A pair is stored under its key when the key is
    a string; a list or a dict cannot be hashed ([TypeError]).  The
    parameter dicts are [Dict[str, Any]]: a pair of a list whose key is
    [None], a boolean or a number does not fit them and is refused here as
    well. *)
Definition merged (d : gmap string value) (entries : list (string * value))
  : gmap string value :=
  foldr (fun e acc => <[fst e := snd e]> acc) d entries.

Definition update_pair (item : value) : result (string * value) :=
  match iterate item with
  | Raise _ => Raise TypeError
  | Ok [VStr k; v] => Ok (k, v)
  | Ok [_; _] => Raise TypeError
  | Ok _ => Raise ValueError
  end.

Fixpoint update_pairs (d : gmap string value) (items : list value)
  : result (gmap string value) :=
  match items with
  | [] => Ok d
  | item :: rest =>
      match update_pair item with
      | Raise e => Raise e
      | Ok (k, v) => update_pairs (<[k := v]> d) rest
      end
  end.

Definition dict_update (d : gmap string value) (v : value)
  : result (gmap string value) :=
  match v with
  | VDict entries => Ok (merged d entries)
  | _ =>
      match iterate v with
      | Raise e => Raise e
      | Ok items => update_pairs d items
      end
  end.

(** [rev.update({'title': title})] on a decoded revision. *)
Fixpoint set_entry (k : string) (x : value) (entries : list (string * value))
  : list (string * value) :=
  match entries with
  | [] => [(k, x)]
  | (k', v) :: rest =>
      if String.eqb k k' then (k, x) :: rest else (k', v) :: set_entry k x rest
  end.

Definition update_entry (v : value) (k : string) (x : value) : result value :=
  match v with
  | VDict entries => Ok (VDict (set_entry k x entries))
  | _ => Raise AttributeError
  end.

(** ** HTTP session *)

Inductive method : Type := GET | POST.

(** A request as [requests] receives it: [params=] goes to the query
    string, [data=] to the form body. *)
Record request : Type := Request {
  req_method : method;
  req_url : string;
  req_params : gmap string value;
  req_data : gmap string value
}.

(** What the methods read of a response: [r.status_code], [r.text] and
    [r.json()], which raises when the body is not JSON. *)
Record response : Type := Response {
  status_code : Z;
  text : string;
  json : option value
}.

Definition response_json (r : response) : result value :=
  match json r with
  | Some v => Ok v
  | None => Raise JSONDecodeError
  end.

(** The session owns the connection to the platform; [sent] logs the
    requests issued through it, oldest first. *)
Record Session (Server : Type) : Type := {
  server : Server;
  sent : list request
}.
Arguments server {Server} _.
Arguments sent {Server} _.

(** What the shared request code needs from a client object: its two
    URLs and its session, which a request replaces as a whole. *)
Class Client (Server S : Type) : Type := {
  api_url : S -> string;
  index_url : S -> string;
  session : S -> Session Server;
  with_session : Session Server -> S -> S;
  session_with_session : forall ses self, session (with_session ses self) = ses;
  api_url_with_session : forall ses self, api_url (with_session ses self) = api_url self
}.

Section Http.
Context {Server S : Type} `{!Client Server S}.
Variable transport : Server -> request -> response * Server.

Definition send (req : request) : M S response :=
  fun self =>
    let '(r, srv) := transport (server (session self)) req in
    (Ok r,
     with_session {| server := srv; sent := sent (session self) ++ [req] |} self).

(** [self.session.get(self.api_url, params=params)] *)
Definition session_get (params : gmap string value) : M S response :=
  fun self => send (Request GET (api_url self) params ∅) self.

(** [self.session.post(self.api_url, data=params)] *)
Definition session_post (data : gmap string value) : M S response :=
  fun self => send (Request POST (api_url self) ∅ data) self.

(** [self.session.post(self.api_url, params=params)] *)
Definition session_post_params (params : gmap string value) : M S response :=
  fun self => send (Request POST (api_url self) params ∅) self.

(** [if r.status_code != 200: raise MediaWikiAPIError('Status code is {}'...)] *)
Definition check_status (r : response) : M S unit :=
  if bool_decide (status_code r = 200%Z) then ret tt
  else raise (MediaWikiAPIError (Formatted "Status code is {}" (VInt (status_code r)))).

(** [if 'error' in data: raise MediaWikiAPIError(data['error'])] *)
Definition check_error (data : value) : M S unit :=
  let* present := lift_result (contains "error" data) in
  if present : bool then
    let* e := lift_result (getitem data "error") in
    raise (MediaWikiAPIError (Payload e))
  else ret tt.

(** [if 'warning' in data: raise MediaWikiAPIError(data['warning'])] *)
Definition check_warning (data : value) : M S unit :=
  let* present := lift_result (contains "warning" data) in
  if present : bool then
    let* w := lift_result (getitem data "warning") in
    raise (MediaWikiAPIError (Payload w))
  else ret tt.
End Http.

(** ** Generators *)

(** A running generator: the client it was called on and the items it has
    handed to its consumer so far, oldest first. *)
Record Gen (S : Type) : Type := {
  gen_self : S;
  yielded : list value
}.
Arguments gen_self {S} _.
Arguments yielded {S} _.

#[global] Instance Gen_client {Server S} `{!Client Server S} : Client Server (Gen S) := {
  api_url g := api_url (gen_self g);
  index_url g := index_url (gen_self g);
  session g := session (gen_self g);
  with_session ses g :=
    {| gen_self := with_session ses (gen_self g); yielded := yielded g |};
  session_with_session ses g := session_with_session ses (gen_self g);
  api_url_with_session ses g := api_url_with_session ses (gen_self g)
}.

Definition yield {S} (v : value) : M (Gen S) unit :=
  fun g => (Ok tt, {| gen_self := gen_self g; yielded := yielded g ++ [v] |}).

(** How a generator body stands after its consumer pulled a number of
    pages: it returned, or it is suspended before its next request. *)
Inductive completion : Type := Finished | Suspended.

Inductive ending : Type :=
| Exhausted
| StillRunning
| Raised (e : exn).

(** Drive a generator body from a client; the items stay delivered also
    when the body ends in an exception. *)
Definition consume {S} (body : M (Gen S) completion) (self : S)
  : list value * ending * S :=
  match body {| gen_self := self; yielded := [] |} with
  | (Ok Finished, g) => (yielded g, Exhausted, gen_self g)
  | (Ok Suspended, g) => (yielded g, StillRunning, gen_self g)
  | (Raise e, g) => (yielded g, Raised e, gen_self g)
  end.

(** ** The continuation loop

    The seven paged methods share one loop body; they differ in the base
    parameters, in the list they read from the response, in what they
    yield per entry and in where the next cursor is found. *)
Section Paging.
Context {Server S : Type} `{!Client Server S}.
Variable transport : Server -> request -> response * Server.
Variable params : gmap string value.
Variable emit : value -> M (Gen S) unit.
Variable next_continue : value -> result (option value).

(** From [current_params = params.copy()] to the error check. *)
Definition fetch_page (last_continue : value) : M (Gen S) value :=
  let* current_params := lift_result (dict_update params last_continue) in
  let* r := session_get transport current_params in
  check_status r >>
  let* data := lift_result (response_json r) in
  check_error data >>
  ret data.

(** [while True: ...]; [pulls] bounds the pages the consumer asks for. *)
Fixpoint paged_loop (pulls : nat) (last_continue : value) : M (Gen S) completion :=
  match pulls with
  | O => ret Suspended
  | Datatypes.S n =>
      let* data := fetch_page last_continue in
      emit data >>
      let* next := lift_result (next_continue data) in
      match next with
      | None => ret Finished
      | Some cursor => paged_loop n cursor
      end
  end.
End Paging.

(** [for page_data in data['query'][name]: yield page_data['title']] *)
Definition emit_titles {S} (name : string) (data : value) : M (Gen S) unit :=
  let* query := lift_result (getitem data "query") in
  let* pages := lift_result (getitem query name) in
  let* items := lift_result (iterate pages) in
  for_each items (fun page_data =>
    let* title := lift_result (getitem page_data "title") in
    yield title).

(** [yield {'title': image_data['title'], 'url': image_data['url']}] *)
Definition emit_images {S} (data : value) : M (Gen S) unit :=
  let* query := lift_result (getitem data "query") in
  let* images := lift_result (getitem query "allimages") in
  let* items := lift_result (iterate images) in
  for_each items (fun image_data =>
    let* title := lift_result (getitem image_data "title") in
    let* url := lift_result (getitem image_data "url") in
    yield (VDict [("title", title); ("url", url)])).

(** The nested loop of [get_deletedrevs_list]. *)
Definition emit_deletedrevs {S} (data : value) : M (Gen S) unit :=
  let* query := lift_result (getitem data "query") in
  let* deletedrevs := lift_result (getitem query "deletedrevs") in
  let* items := lift_result (iterate deletedrevs) in
  for_each items (fun deletedrev_data =>
    let* title := lift_result (getitem deletedrev_data "title") in
    let* revisions := lift_result (getitem deletedrev_data "revisions") in
    let* revs := lift_result (iterate revisions) in
    for_each revs (fun revision =>
      let* revision' := lift_result (update_entry revision "title" title) in
      yield revision')).

Definition with_optional (k : string) (o : option string)
  (params : gmap string value) : gmap string value :=
  match o with
  | Some s => <[k := VStr s]> params
  | None => params
  end.

(** ** The namespace listing

    [get_namespace_list] is the same code in both classes.  Python's [int]
    is not part of the module: [py_int] stands for it, the number a string
    denotes or the exception [int] raises on it. *)
Section Namespaces.
Context {Server S : Type} `{!Client Server S}.
Variable transport : Server -> request -> response * Server.
Variable py_int : string -> result Z.

(** [d.keys()] *)
Definition keys (v : value) : result (list string) :=
  match v with
  | VDict entries => Ok (map fst entries)
  | _ => Raise AttributeError
  end.

(** [list(filter(lambda namespace_id: namespace_id >= 0,
                 map(lambda namespace: int(namespace), keys)))]:
    the keys are converted and tested one after the other, and the first
    key [int] rejects ends the walk. *)
Fixpoint non_negative_ids (ks : list string) : result (list Z) :=
  match ks with
  | [] => Ok []
  | k :: rest =>
      match py_int k with
      | Raise e => Raise e
      | Ok namespace_id =>
          match non_negative_ids rest with
          | Raise e => Raise e
          | Ok ids => Ok (if (0 <=? namespace_id)%Z then namespace_id :: ids else ids)
          end
      end
  end.

Definition siteinfo_params : gmap string value :=
  <["action" := VStr "query"]> (
  <["meta" := VStr "siteinfo"]> (
  <["siprop" := VStr "namespaces"]> (
  <["format" := VStr "json"]> ∅))).

Definition namespace_list : M S (list Z) :=
  let params := siteinfo_params in
  let* r := session_get transport params in
  check_status r >>
  let* data := lift_result (response_json r) in
  check_error data >>
  let* query := lift_result (getitem data "query") in
  let* namespaces := lift_result (getitem query "namespaces") in
  let* ks := lift_result (keys namespaces) in
  lift_result (non_negative_ids ks).
End Namespaces.

(** ** class MediaWikiAPI1_19 *)
Module MediaWikiAPI1_19.
Section Methods.
Context {Server : Type}.
Variable transport : Server -> request -> response * Server.

(** The attributes of the object.  The token dicts are keyed by page
    title, as their annotation [Dict[str, str]] says. *)
Record t : Type := {
  self_api_url : string;
  self_index_url : string;
  self_session : Session Server;
  edit_tokens : gmap string value;
  delete_tokens : gmap string value
}.

#[global] Instance client : Client Server t := {
  api_url := self_api_url;
  index_url := self_index_url;
  session := self_session;
  with_session ses self :=
    {| self_api_url := self_api_url self;
       self_index_url := self_index_url self;
       self_session := ses;
       edit_tokens := edit_tokens self;
       delete_tokens := delete_tokens self |};
  session_with_session _ _ := eq_refl;
  api_url_with_session _ _ := eq_refl
}.

(** [__init__]; [srv] is the platform the new session talks to. *)
Definition init (url : string) (srv : Server) : t :=
  {| self_api_url := url +:+ "/api.php";
     self_index_url := url +:+ "/index.php";
     self_session := {| server := srv; sent := [] |};
     edit_tokens := ∅;
     delete_tokens := ∅ |}.

Definition update_edit_tokens (tokens : gmap string value) (self : t) : t :=
  {| self_api_url := self_api_url self;
     self_index_url := self_index_url self;
     self_session := self_session self;
     edit_tokens := tokens ∪ edit_tokens self;
     delete_tokens := delete_tokens self |}.

Definition update_delete_tokens (tokens : gmap string value) (self : t) : t :=
  {| self_api_url := self_api_url self;
     self_index_url := self_index_url self;
     self_session := self_session self;
     edit_tokens := edit_tokens self;
     delete_tokens := tokens ∪ delete_tokens self |}.

(** [if 'query-continue' not in data: break]
    [last_continue = data['query-continue'][name]] *)
Definition next_continue (name : string) (data : value) : result (option value) :=
  match contains "query-continue" data with
  | Raise e => Raise e
  | Ok false => Ok None
  | Ok true =>
      match getitem data "query-continue" with
      | Raise e => Raise e
      | Ok qc =>
          match getitem qc name with
          | Raise e => Raise e
          | Ok cursor => Ok (Some cursor)
          end
      end
  end.

Definition get_namespace_list (py_int : string -> result Z) : M t (list Z) :=
  namespace_list transport py_int.

Definition get_image_list (limit : Z) (pulls : nat) : M (Gen t) completion :=
  let params : gmap string value :=
    <["action" := VStr "query"]> (
    <["list" := VStr "allimages"]> (
    <["aidir" := VStr "ascending"]> (
    <["ailimit" := VInt limit]> (
    <["format" := VStr "json"]> ∅)))) in
  paged_loop transport params emit_images (next_continue "allimages")
    pulls (VDict []).

Definition get_page_list (namespace limit : Z) (first_page : option string)
  (redirect_filter_mode : string) (pulls : nat) : M (Gen t) completion :=
  let params : gmap string value :=
    <["action" := VStr "query"]> (
    <["list" := VStr "allpages"]> (
    <["apnamespace" := VInt namespace]> (
    <["apdir" := VStr "ascending"]> (
    <["apfilterredir" := VStr redirect_filter_mode]> (
    <["aplimit" := VInt limit]> (
    <["format" := VStr "json"]> ∅)))))) in
  let params := with_optional "apfrom" first_page params in
  paged_loop transport params (emit_titles "allpages") (next_continue "allpages")
    pulls (VDict []).

Definition get_page (title : string) : M t string :=
  raise NotImplementedError.

Definition search_pages (search_request : string) (namespace limit : Z)
  (pulls : nat) : M (Gen t) completion :=
  raise NotImplementedError.

Definition get_deletedrevs_list (namespace limit : Z) (pulls : nat)
  : M (Gen t) completion :=
  let params : gmap string value :=
    <["action" := VStr "query"]> (
    <["list" := VStr "deletedrevs"]> (
    <["drnamespace" := VInt namespace]> (
    <["drdir" := VStr "newer"]> (
    <["drlimit" := VInt limit]> (
    <["drprop" := VStr "revid|user|comment|content"]> (
    <["format" := VStr "json"]> ∅)))))) in
  paged_loop transport params emit_deletedrevs (next_continue "deletedrevs")
    pulls (VDict []).

(** The pair the [lambda] of [get_tokens] builds for one page, title
    first.  The caches are declared [Dict[str, str]]: a title that is not
    a string lies outside that type and is rejected here. *)
Definition token_entry (token_type : string) (page_data : value)
  : result (string * value) :=
  match getitem page_data "title" with
  | Raise e => Raise e
  | Ok title =>
      match getitem page_data (token_type +:+ "token") with
      | Raise e => Raise e
      | Ok token =>
          match title with
          | VStr s => Ok (s, token)
          | _ => Raise TypeError
          end
      end
  end.

(** [dict(map(lambda page_data: ..., pages))]: a later page overrides an
    earlier one of the same title. *)
Fixpoint token_dict (token_type : string) (pages : list value)
  (acc : gmap string value) : result (gmap string value) :=
  match pages with
  | [] => Ok acc
  | page_data :: rest =>
      match token_entry token_type page_data with
      | Raise e => Raise e
      | Ok (title, token) => token_dict token_type rest (<[title := token]> acc)
      end
  end.

Definition get_tokens (token_type titles : string) : M t (gmap string value) :=
  let params : gmap string value :=
    <["action" := VStr "query"]> (
    <["prop" := VStr "info"]> (
    <["titles" := VStr titles]> (
    <["intoken" := VStr token_type]> (
    <["format" := VStr "json"]> ∅)))) in
  let* r := session_post_params transport params in
  check_status r >>
  let* data := lift_result (response_json r) in
  check_error data >>
  check_warning data >>
  let* query := lift_result (getitem data "query") in
  let* pages := lift_result (getitem query "pages") in
  let* page_list := lift_result (values pages) in
  lift_result (token_dict token_type page_list ∅).

Definition cached (tokens : gmap string value) (page_name : string)
  : result value :=
  match tokens !! page_name with
  | Some token => Ok token
  | None => Raise (KeyError page_name)
  end.

Definition delete_page (page_name : string) (reason : option string) : M t unit :=
  let params : gmap string value :=
    <["action" := VStr "delete"]> (
    <["title" := VStr page_name]> (
    <["format" := VStr "json"]> ∅)) in
  let params := with_optional "reason" reason params in
  let* known := gets (fun self => bool_decide (is_Some (delete_tokens self !! page_name))) in
  (if known : bool then ret tt
   else
     let* tokens := get_tokens "delete" page_name in
     modify (update_delete_tokens tokens)) >>
  let* token := (fun self => lift_result (cached (delete_tokens self) page_name) self) in
  let params := <["token" := VTuple [token]]> params in
  let* r := session_post transport params in
  check_status r >>
  let* data := lift_result (response_json r) in
  let* present := lift_result (contains "error" data) in
  if present : bool then
    let* error := lift_result (getitem data "error") in
    let* code := lift_result (getitem error "code") in
    if is_str "cantdelete" code then
      let* info := lift_result (getitem error "info") in
      raise (CanNotDelete (Payload info))
    else raise (MediaWikiAPIError (Payload error))
  else ret tt.

Definition edit_page (page_name text : string) (summary : option string) : M t unit :=
  let params : gmap string value :=
    <["action" := VStr "edit"]> (
    <["title" := VStr page_name]> (
    <["text" := VStr text]> (
    <["format" := VStr "json"]> ∅))) in
  let params := with_optional "summary" summary params in
  let* known := gets (fun self => bool_decide (is_Some (edit_tokens self !! page_name))) in
  (if known : bool then ret tt
   else
     let* tokens := get_tokens "edit" page_name in
     modify (update_edit_tokens tokens)) >>
  let* token := (fun self => lift_result (cached (edit_tokens self) page_name) self) in
  let params := <["token" := VTuple [token]]> params in
  let* r := session_post transport params in
  check_status r >>
  let* data := lift_result (response_json r) in
  check_error data >>
  ret tt.

Definition login_params (username password : string) : gmap string value :=
  <["action" := VStr "login"]> (
  <["format" := VStr "json"]> (
  <["lgname" := VStr username]> (
  <["lgpassword" := VStr password]> ∅))).

Definition login_result (data : value) : result value :=
  match getitem data "login" with
  | Raise e => Raise e
  | Ok login => getitem login "result"
  end.

Definition api_login (username password : string) : M t unit :=
  let params1 := login_params username password in
  let* r1 := session_post transport params1 in
  check_status r1 >>
  let* data1 := lift_result (response_json r1) in
  check_error data1 >>
  check_warning data1 >>
  let* result1 := lift_result (login_result data1) in
  if is_str "Success" result1 then ret tt
  else
    let* result1 := lift_result (login_result data1) in
    if negb (is_str "NeedToken" result1) then
      let* result1 := lift_result (login_result data1) in
      raise (MediaWikiAPIError (Formatted "Login result is {}" result1))
    else
      let* login1 := lift_result (getitem data1 "login") in
      let* token := lift_result (getitem login1 "token") in
      let params2 := <["lgtoken" := token]> (login_params username password) in
      let* r2 := session_post transport params2 in
      check_status r2 >>
      let* data2 := lift_result (response_json r2) in
      check_error data2 >>
      check_warning data2 >>
      let* result2 := lift_result (login_result data2) in
      if negb (is_str "Success" result2) then
        let* result2 := lift_result (login_result data2) in
        raise (MediaWikiAPIError (Formatted "Login result is {}" result2))
      else ret tt.
End Methods.
End MediaWikiAPI1_19.

(** ** class MediaWikiAPI1_31 *)
Module MediaWikiAPI1_31.
Section Methods.
Context {Server : Type}.
Variable transport : Server -> request -> response * Server.

(** The attributes of the object; [csrf_token] is [None] until the
    first mutating call stores what the platform sent. *)
Record t : Type := {
  self_api_url : string;
  self_index_url : string;
  self_session : Session Server;
  csrf_token : value
}.

#[global] Instance client : Client Server t := {
  api_url := self_api_url;
  index_url := self_index_url;
  session := self_session;
  with_session ses self :=
    {| self_api_url := self_api_url self;
       self_index_url := self_index_url self;
       self_session := ses;
       csrf_token := csrf_token self |};
  session_with_session _ _ := eq_refl;
  api_url_with_session _ _ := eq_refl
}.

Definition init (url : string) (srv : Server) : t :=
  {| self_api_url := url +:+ "/api.php";
     self_index_url := url +:+ "/index.php";
     self_session := {| server := srv; sent := [] |};
     csrf_token := VNone |}.

Definition set_csrf_token (token : value) (self : t) : t :=
  {| self_api_url := self_api_url self;
     self_index_url := self_index_url self;
     self_session := self_session self;
     csrf_token := token |}.

Definition is_none (v : value) : bool :=
  match v with
  | VNone => true
  | _ => false
  end.

(** [if 'continue' not in data: break]
    [last_continue = data['continue']] *)
Definition next_continue (data : value) : result (option value) :=
  match contains "continue" data with
  | Raise e => Raise e
  | Ok false => Ok None
  | Ok true =>
      match getitem data "continue" with
      | Raise e => Raise e
      | Ok cursor => Ok (Some cursor)
      end
  end.

Definition get_namespace_list (py_int : string -> result Z) : M t (list Z) :=
  namespace_list transport py_int.

Definition get_image_list (limit : Z) (pulls : nat) : M (Gen t) completion :=
  let params : gmap string value :=
    <["action" := VStr "query"]> (
    <["list" := VStr "allimages"]> (
    <["aidir" := VStr "ascending"]> (
    <["ailimit" := VInt limit]> (
    <["format" := VStr "json"]> ∅)))) in
  paged_loop transport params emit_images next_continue pulls (VDict []).

Definition get_page_list (namespace limit : Z) (first_page : option string)
  (redirect_filter_mode : string) (pulls : nat) : M (Gen t) completion :=
  let params : gmap string value :=
    <["action" := VStr "query"]> (
    <["list" := VStr "allpages"]> (
    <["apnamespace" := VInt namespace]> (
    <["apdir" := VStr "ascending"]> (
    <["apfilterredir" := VStr redirect_filter_mode]> (
    <["aplimit" := VInt limit]> (
    <["format" := VStr "json"]> ∅)))))) in
  let params := with_optional "apfrom" first_page params in
  paged_loop transport params (emit_titles "allpages") next_continue
    pulls (VDict []).

Definition get_page (title : string) : M t string :=
  let params : gmap string value :=
    <["action" := VStr "raw"]> (
    <["title" := VStr title]> ∅) in
  let* r := (fun self => send transport (Request GET (index_url self) params ∅) self) in
  check_status r >>
  ret (text r).

Definition search_pages (search_request : string) (namespace limit : Z)
  (pulls : nat) : M (Gen t) completion :=
  let params : gmap string value :=
    <["action" := VStr "query"]> (
    <["list" := VStr "search"]> (
    <["srnamespace" := VInt namespace]> (
    <["srlimit" := VInt limit]> (
    <["format" := VStr "json"]> (
    <["srsearch" := VStr search_request]> (
    <["srwhat" := VStr "text"]> ∅)))))) in
  paged_loop transport params (emit_titles "search") next_continue
    pulls (VDict []).

Definition get_deletedrevs_list (namespace limit : Z) (pulls : nat)
  : M (Gen t) completion :=
  let params : gmap string value :=
    <["action" := VStr "query"]> (
    <["list" := VStr "deletedrevs"]> (
    <["drnamespace" := VInt namespace]> (
    <["drdir" := VStr "newer"]> (
    <["drlimit" := VInt limit]> (
    <["drprop" := VStr "revid|user|comment|content"]> (
    <["format" := VStr "json"]> ∅)))))) in
  paged_loop transport params emit_deletedrevs next_continue pulls (VDict []).

Definition token_params (token_type : string) : gmap string value :=
  <["action" := VStr "query"]> (
  <["meta" := VStr "tokens"]> (
  <["type" := VStr token_type]> (
  <["format" := VStr "json"]> ∅))).

(** No error check between [r.json()] and the lookup of the token. *)
Definition get_token (token_type : string) : M t value :=
  let params := token_params token_type in
  let* r := session_get transport params in
  check_status r >>
  let* data := lift_result (response_json r) in
  let* query := lift_result (getitem data "query") in
  let* tokens := lift_result (getitem query "tokens") in
  let* token := lift_result (getitem tokens (token_type +:+ "token")) in
  ret token.

(** [if self.csrf_token is None: self.csrf_token = self.get_token('csrf')] *)
Definition ensure_csrf_token : M t unit :=
  let* unset := gets (fun self => is_none (csrf_token self)) in
  if unset : bool then
    let* token := get_token "csrf" in
    modify (set_csrf_token token)
  else ret tt.

Definition delete_page (page_name : string) (reason : option string) : M t unit :=
  ensure_csrf_token >>
  let* token := gets csrf_token in
  let params : gmap string value :=
    <["action" := VStr "delete"]> (
    <["title" := VStr page_name]> (
    <["token" := token]> (
    <["format" := VStr "json"]> ∅))) in
  let params := with_optional "reason" reason params in
  let* r := session_post transport params in
  check_status r >>
  let* data := lift_result (response_json r) in
  check_error data >>
  ret tt.

Definition edit_page (page_name text : string) (summary : option string) : M t unit :=
  ensure_csrf_token >>
  let* token := gets csrf_token in
  let params : gmap string value :=
    <["action" := VStr "edit"]> (
    <["title" := VStr page_name]> (
    <["text" := VStr text]> (
    <["token" := token]> (
    <["format" := VStr "json"]> ∅)))) in
  let params := with_optional "summary" summary params in
  let* r := session_post transport params in
  check_status r >>
  let* data := lift_result (response_json r) in
  check_error data >>
  ret tt.

Definition api_login (username password : string) : M t unit :=
  let* token := get_token "login" in
  let params : gmap string value :=
    <["action" := VStr "login"]> (
    <["format" := VStr "json"]> (
    <["lgname" := VStr username]> (
    <["lgpassword" := VStr password]> (
    <["lgtoken" := token]> ∅)))) in
  let* r := session_post transport params in
  check_status r >>
  let* data := lift_result (response_json r) in
  check_error data >>
  ret tt.
End Methods.
End MediaWikiAPI1_31.

(** ** Callers, observations and test doubles *)

(** The error kinds of the specification, read off the exception that
    leaves a method: a status message is a transport error, a login result
    message an authentication error, a raw payload an API error. *)
Inductive error_kind : Type :=
| TransportError
| ApiError
| DeletionDenied
| AuthenticationError
| UnsupportedOperation
| BuiltinError.

Definition classify (e : exn) : error_kind :=
  match e with
  | MediaWikiAPIError (Formatted template _) =>
      if String.eqb template "Status code is {}" then TransportError
      else if String.eqb template "Login result is {}" then AuthenticationError
      else ApiError
  | MediaWikiAPIError (Payload _) => ApiError
  | CanNotDelete _ => DeletionDenied
  | NotImplementedError => UnsupportedOperation
  | KeyError _ | TypeError | ValueError | AttributeError | JSONDecodeError =>
      BuiltinError
  end.

(** A mutating call of a caller's script. *)
Inductive call : Type :=
| EditPage (page_name text : string) (summary : option string)
| DeletePage (page_name : string) (reason : option string).

Definition legacy_call {Server} (transport : Server -> request -> response * Server)
  (c : call) : M (MediaWikiAPI1_19.t) unit :=
  match c with
  | EditPage page_name text summary =>
      MediaWikiAPI1_19.edit_page transport page_name text summary
  | DeletePage page_name reason =>
      MediaWikiAPI1_19.delete_page transport page_name reason
  end.

Definition modern_call {Server} (transport : Server -> request -> response * Server)
  (c : call) : M (MediaWikiAPI1_31.t) unit :=
  match c with
  | EditPage page_name text summary =>
      MediaWikiAPI1_31.edit_page transport page_name text summary
  | DeletePage page_name reason =>
      MediaWikiAPI1_31.delete_page transport page_name reason
  end.

(** A caller that makes the calls one after the other on one client and
    goes on after a call that raised. *)
Fixpoint run_calls {S} (perform : call -> M S unit) (calls : list call) (self : S)
  : list (result unit) * S :=
  match calls with
  | [] => ([], self)
  | c :: rest =>
      let '(r, self1) := perform c self in
      let '(rs, self2) := run_calls perform rest self1 in
      (r :: rs, self2)
  end.

(** The requests issued between two states of a client. *)
Definition issued {Server S} `{!Client Server S} (before after : S) : list request :=
  drop (length (sent (session before))) (sent (session after)).

(** The token query of [MediaWikiAPI1_19.get_tokens]. *)
Definition tokens_request (url token_type titles : string) : request :=
  Request POST url
    (<["action" := VStr "query"]> (
     <["prop" := VStr "info"]> (
     <["titles" := VStr titles]> (
     <["intoken" := VStr token_type]> (
     <["format" := VStr "json"]> ∅))))) ∅.

(** The token query of [MediaWikiAPI1_31.get_token]. *)
Definition token_request (url token_type : string) : request :=
  Request GET url
    (<["action" := VStr "query"]> (
     <["meta" := VStr "tokens"]> (
     <["type" := VStr token_type]> (
     <["format" := VStr "json"]> ∅)))) ∅.

Definition has_param (k : string) (req : request) : bool :=
  bool_decide (is_Some (req_params req !! k)).

Definition param_is (k v : string) (req : request) : bool :=
  match req_params req !! k with
  | Some x => is_str v x
  | None => false
  end.

(** Requests that ask the platform for a token. *)
Definition is_tokens_query (req : request) : bool := has_param "intoken" req.

Definition is_csrf_fetch (req : request) : bool :=
  param_is "meta" "tokens" req && param_is "type" "csrf" req.

(** The number of requests that serve [n] items in pages of [l]. *)
Definition ceil_div (n l : nat) : nat := (n + l - 1) / l.

(** Shapes of responses. *)
Definition decodes_to (r : response) (data : value) : Prop :=
  status_code r = 200%Z /\ json r = Some data.

Definition accepted (r : response) (data : value) : Prop :=
  decodes_to r data /\ contains "error" data = Ok false.

Definition login_reply (r : response) (login result : value) : Prop :=
  exists data,
    accepted r data /\ contains "warning" data = Ok false /\
    getitem data "login" = Ok login /\ getitem login "result" = Ok result.

Definition tokens_reply (token_type title : string) (token : value)
  (r : response) : Prop :=
  exists data query id page_data,
    accepted r data /\ contains "warning" data = Ok false /\
    getitem data "query" = Ok query /\
    getitem query "pages" = Ok (VDict [(id, page_data)]) /\
    getitem page_data "title" = Ok (VStr title) /\
    getitem page_data (token_type +:+ "token") = Ok token.

Definition token_reply (token_type : string) (token : value) (r : response) : Prop :=
  exists data query tokens,
    decodes_to r data /\
    getitem data "query" = Ok query /\
    getitem query "tokens" = Ok tokens /\
    getitem tokens (token_type +:+ "token") = Ok token.

(** A platform that answers from a script, one response per request, and
    with status 500 once the script is used up. *)
Definition scripted (script : list response) (req : request)
  : response * list response :=
  match script with
  | [] => (Response 500 "" None, [])
  | r :: rest => (r, rest)
  end.

Definition ok_json (v : value) : response := Response 200 "" (Some v).

(** A platform without state that hands out a token for the title and the
    token type named in a token query, and an empty object otherwise. *)
Definition token_desk (_ : unit) (req : request) : response * unit :=
  match req_params req !! "intoken", req_params req !! "titles" with
  | Some (VStr token_type), Some (VStr title) =>
      (ok_json (VDict [("query", VDict [("pages", VDict [("1",
         VDict [("title", VStr title);
                (token_type +:+ "token", VStr ("token-of-" +:+ title))])])])]),
       tt)
  | _, _ => (ok_json (VDict []), tt)
  end.

(** A transport answers every token query of the legacy client with one
    page entry, the one of the title asked for. *)
Definition serves_tokens {Server} (transport : Server -> request -> response * Server)
  : Prop :=
  forall srv url token_type title,
    exists token,
      tokens_reply token_type title token
        (fst (transport srv (tokens_request url token_type title))).

(** ** The platform side of a page listing

    The platform is not part of the client.  This is the listing the
    pagination property is stated against: the wiki keeps its titles in
    ascending order and serves [aplimit] of them per request, from the
    title named by the cursor on; it adds a cursor to the response exactly
    when titles remain.  The legacy dialect continues with [apfrom] under
    [query-continue][allpages], the modern one with [apcontinue] under
    [continue]. *)
Module Wiki.
Definition str_param (k : string) (req : request) : option string :=
  match req_params req !! k with
  | Some (VStr s) => Some s
  | _ => None
  end.

Definition limit_param (req : request) : nat :=
  match req_params req !! "aplimit" with
  | Some (VInt n) => Z.to_nat n
  | _ => 10
  end.

Definition from (titles : list string) (start : option string) : list string :=
  match start with
  | Some s => List.filter (String.leb s) titles
  | None => titles
  end.

Definition page_entry (title : string) : value :=
  VDict [("ns", VInt 0); ("title", VStr title)].

Definition legacy_continue (more : list string) : list (string * value) :=
  match more with
  | [] => []
  | t :: _ => [("query-continue", VDict [("allpages", VDict [("apfrom", VStr t)])])]
  end.

Definition modern_continue (more : list string) : list (string * value) :=
  match more with
  | [] => []
  | t :: _ => [("continue", VDict [("apcontinue", VStr t); ("continue", VStr "-||")])]
  end.

Definition body (continuation : list string -> list (string * value))
  (listing : list string) (limit : nat) : value :=
  VDict (
    ("query", VDict [("allpages", VList (map page_entry (take limit listing)))])
    :: continuation (drop limit listing)).

Definition reply (continuation : list string -> list (string * value))
  (listing : list string) (limit : nat) : response :=
  ok_json (body continuation listing limit).

Definition legacy (titles : list string) (req : request) : response * list string :=
  (reply legacy_continue (from titles (str_param "apfrom" req)) (limit_param req),
   titles).

Definition modern (titles : list string) (req : request) : response * list string :=
  let start :=
    match str_param "apcontinue" req with
    | Some c => Some c
    | None => str_param "apfrom" req
    end in
  (reply modern_continue (from titles start) (limit_param req), titles).

(** Titles in strictly ascending lexical order. *)
Definition ascending (titles : list string) : Prop :=
  StronglySorted (fun a b => String.ltb a b = true) titles.
End Wiki.

(** What a consumer of [get_page_list] sees of a wiki with [titles] when it
    pulls [pulls] pages of [limit] titles: the items, how the generator
    ended and the number of requests. *)
Definition legacy_listing (titles : list string) (limit : Z) (pulls : nat)
  : list value * ending * nat :=
  let '(items, e, self) :=
    consume (MediaWikiAPI1_19.get_page_list Wiki.legacy 0 limit None "all" pulls)
            (MediaWikiAPI1_19.init "https://wiki" titles) in
  (items, e, length (sent (session self))).

Definition modern_listing (titles : list string) (limit : Z) (pulls : nat)
  : list value * ending * nat :=
  let '(items, e, self) :=
    consume (MediaWikiAPI1_31.get_page_list Wiki.modern 0 limit None "all" pulls)
            (MediaWikiAPI1_31.init "https://wiki" titles) in
  (items, e, length (sent (session self))).


(** ** Responses used in the examples *)

Definition csrf_token_body : value :=
  VDict [("batchcomplete", VStr "");
         ("query", VDict [("tokens", VDict [("csrftoken", VStr "5f3a+")])])].

Definition login_token_body : value :=
  VDict [("batchcomplete", VStr "");
         ("query", VDict [("tokens", VDict [("logintoken", VStr "9c1e+")])])].

Definition delete_tokens_body (title : string) : value :=
  VDict [("query", VDict [("pages", VDict [("7",
    VDict [("pageid", VInt 7); ("ns", VInt 0); ("title", VStr title);
           ("deletetoken", VStr "d41d+")])])])].

Definition cantdelete_error : value :=
  VDict [("code", VStr "cantdelete");
         ("info", VStr "Could not delete the page or file specified")].

Definition permission_error : value :=
  VDict [("code", VStr "permissiondenied");
         ("info", VStr "You are not allowed to do this")].

Definition error_body (error : value) : value := VDict [("error", error)].

Definition login_warning : value :=
  VDict [("main", VDict [("*", VStr "lgpassword is deprecated")])].

Definition warned_login_body (result : string) : value :=
  VDict [("warning", login_warning);
         ("login", VDict [("result", VStr result)])].

Definition login_body (result : string) : value :=
  VDict [("login", VDict [("result", VStr result)])].

Definition need_token_body (token : string) : value :=
  VDict [("login", VDict [("result", VStr "NeedToken"); ("token", VStr token)])].

(** The request of one loop iteration: the base parameters with the
    entries of the cursor put over them. *)
Definition page_request {Server S} `{!Client Server S} (params : gmap string value)
  (self : S) (cursor : list (string * value)) : request :=
  Request GET (api_url self) (merged params cursor) ∅.

(** The base parameters of [get_page_list] without a first page. *)
Definition page_list_params (namespace limit : Z) (mode : string) : gmap string value :=
  <["action" := VStr "query"]> (
  <["list" := VStr "allpages"]> (
  <["apnamespace" := VInt namespace]> (
  <["apdir" := VStr "ascending"]> (
  <["apfilterredir" := VStr mode]> (
  <["aplimit" := VInt limit]> (
  <["format" := VStr "json"]> ∅)))))).

(** The cursors of the two dialects that name the title [t]. *)
Definition legacy_cursor (t : string) : list (string * value) :=
  [("apfrom", VStr t)].

Definition modern_cursor (t : string) : list (string * value) :=
  [("apcontinue", VStr t); ("continue", VStr "-||")].

(** The cursor the loop holds when [rest] of [titles] is still to be listed:
    none before the first request, afterwards the one naming the head of
    [rest]. *)
Definition at_cursor (titles : list string)
  (cursor_of : string -> list (string * value))
  (cursor : list (string * value)) (rest : list string) : Prop :=
  (cursor = [] /\ rest = titles) \/
  (exists t rest', rest = t :: rest' /\ cursor = cursor_of t /\
                   exists pre, titles = pre ++ rest).

(** The pagination property with the request count as the specification
    words it: some number of pulls delivers all [titles], in order, ends
    the generator, and takes [ceil_div (length titles) limit] requests. *)
Definition listing_as_claimed
  (listing : list string -> Z -> nat -> list value * ending * nat)
  (titles : list string) (limit : Z) : Prop :=
  exists pulls,
    listing titles limit pulls
    = (map VStr titles, Exhausted, ceil_div (length titles) (Z.to_nat limit)).

Definition edit_success_body : value :=
  VDict [("edit", VDict [("result", VStr "Success")])].

(** The client after [req] went out: the platform moved on and the
    request is logged. *)
Definition posted {Server S} `{!Client Server S}
  (transport : Server -> request -> response * Server) (self : S) (req : request) : S :=
  with_session
    {| server := snd (transport (server (session self)) req);
       sent := sent (session self) ++ [req] |} self.

(** The number of constructors of a value. *)
Fixpoint size (v : value) : nat :=
  match v with
  | VList items | VTuple items => S (list_sum (map size items))
  | VDict entries => S (list_sum (map (fun e => size (snd e)) entries))
  | _ => 1
  end.

(** The mutation requests of the legacy client for a given token. *)
Definition legacy_edit_request (url page_name text : string) (summary : option string)
  (token : value) : request :=
  Request POST url ∅
    (<["token" := VTuple [token]]> (
     with_optional "summary" summary (
     <["action" := VStr "edit"]> (
     <["title" := VStr page_name]> (
     <["text" := VStr text]> (
     <["format" := VStr "json"]> ∅)))))).

Definition legacy_delete_request (url page_name : string) (reason : option string)
  (token : value) : request :=
  Request POST url ∅
    (<["token" := VTuple [token]]> (
     with_optional "reason" reason (
     <["action" := VStr "delete"]> (
     <["title" := VStr page_name]> (
     <["format" := VStr "json"]> ∅))))).

(** The mutation requests of the modern client for a given token. *)
Definition modern_edit_request (url page_name text : string) (summary : option string)
  (token : value) : request :=
  Request POST url ∅
    (with_optional "summary" summary (
     <["action" := VStr "edit"]> (
     <["title" := VStr page_name]> (
     <["text" := VStr text]> (
     <["token" := token]> (
     <["format" := VStr "json"]> ∅)))))).

Definition modern_delete_request (url page_name : string) (reason : option string)
  (token : value) : request :=
  Request POST url ∅
    (with_optional "reason" reason (
     <["action" := VStr "delete"]> (
     <["title" := VStr page_name]> (
     <["token" := token]> (
     <["format" := VStr "json"]> ∅))))).

(** The request a mutating call of the modern client sends with [token]. *)
Definition modern_mutation (url : string) (token : value) (c : call) : request :=
  match c with
  | EditPage page_name text summary =>
      modern_edit_request url page_name text summary token
  | DeletePage page_name reason =>
      modern_delete_request url page_name reason token
  end.

(** The number of CSRF token queries among the requests that a run of
    mutating calls on the modern client issues. *)
Definition csrf_fetches {Server} (transport : Server -> request -> response * Server)
  (calls : list call) (self : MediaWikiAPI1_31.t) : nat :=
  length (List.filter is_csrf_fetch
            (issued self (snd (run_calls (modern_call transport) calls self)))).

(** The platform answers the next request with [r], whatever is asked. *)
Definition answers {Server} (transport : Server -> request -> response * Server)
  (srv : Server) (r : response) : Prop :=
  forall req, fst (transport srv req) = r.

(** A revision with the title of its page written into it. *)
Definition titled (title : value) (revision : list (string * value)) : value :=
  VDict (set_entry "title" title revision).

(** What [get_deletedrevs_list] yields for pages given as a title and the
    entries of each deleted revision. *)
Definition deleted_revisions (pages : list (value * list (list (string * value))))
  : list value :=
  concat (map (fun page => map (titled (fst page)) (snd page)) pages).

(** What [get_image_list] yields for images given as title and url. *)
Definition image_records (images : list (value * value)) : list value :=
  map (fun image => VDict [("title", fst image); ("url", snd image)]) images.

(** ** The paged operations *)

(** The paged operations of the clients, with their arguments. *)
Inductive paged_operation : Type :=
| ImageList (limit : Z)
| PageList (namespace limit : Z) (first_page : option string)
    (redirect_filter_mode : string)
| SearchPages (search_request : string) (namespace limit : Z)
| DeletedrevsList (namespace limit : Z).

Definition legacy_paged {Server} (transport : Server -> request -> response * Server)
  (op : paged_operation) (pulls : nat) : M (Gen MediaWikiAPI1_19.t) completion :=
  match op with
  | ImageList limit => MediaWikiAPI1_19.get_image_list transport limit pulls
  | PageList namespace limit first_page redirect_filter_mode =>
      MediaWikiAPI1_19.get_page_list transport namespace limit first_page
        redirect_filter_mode pulls
  | SearchPages search_request namespace limit =>
      MediaWikiAPI1_19.search_pages search_request namespace limit pulls
  | DeletedrevsList namespace limit =>
      MediaWikiAPI1_19.get_deletedrevs_list transport namespace limit pulls
  end.

Definition modern_paged {Server} (transport : Server -> request -> response * Server)
  (op : paged_operation) (pulls : nat) : M (Gen MediaWikiAPI1_31.t) completion :=
  match op with
  | ImageList limit => MediaWikiAPI1_31.get_image_list transport limit pulls
  | PageList namespace limit first_page redirect_filter_mode =>
      MediaWikiAPI1_31.get_page_list transport namespace limit first_page
        redirect_filter_mode pulls
  | SearchPages search_request namespace limit =>
      MediaWikiAPI1_31.search_pages transport search_request namespace limit pulls
  | DeletedrevsList namespace limit =>
      MediaWikiAPI1_31.get_deletedrevs_list transport namespace limit pulls
  end.

(** The legacy client has no paged search: its [search_pages] raises
    [NotImplementedError]. *)
Definition paged_on_legacy (op : paged_operation) : Prop :=
  match op with
  | SearchPages _ _ _ => False
  | _ => True
  end.

(** The list an operation reads under [query]; on the legacy client its
    cursor is the entry of that name under [query-continue]. *)
Definition list_name (op : paged_operation) : string :=
  match op with
  | ImageList _ => "allimages"
  | PageList _ _ _ _ => "allpages"
  | SearchPages _ _ _ => "search"
  | DeletedrevsList _ _ => "deletedrevs"
  end.

(** The parameters an operation starts from. *)
Definition base_params (op : paged_operation) : gmap string value :=
  match op with
  | ImageList limit =>
      <["action" := VStr "query"]> (
      <["list" := VStr "allimages"]> (
      <["aidir" := VStr "ascending"]> (
      <["ailimit" := VInt limit]> (
      <["format" := VStr "json"]> ∅))))
  | PageList namespace limit first_page redirect_filter_mode =>
      with_optional "apfrom" first_page (
      <["action" := VStr "query"]> (
      <["list" := VStr "allpages"]> (
      <["apnamespace" := VInt namespace]> (
      <["apdir" := VStr "ascending"]> (
      <["apfilterredir" := VStr redirect_filter_mode]> (
      <["aplimit" := VInt limit]> (
      <["format" := VStr "json"]> ∅)))))))
  | SearchPages search_request namespace limit =>
      <["action" := VStr "query"]> (
      <["list" := VStr "search"]> (
      <["srnamespace" := VInt namespace]> (
      <["srlimit" := VInt limit]> (
      <["format" := VStr "json"]> (
      <["srsearch" := VStr search_request]> (
      <["srwhat" := VStr "text"]> ∅))))))
  | DeletedrevsList namespace limit =>
      <["action" := VStr "query"]> (
      <["list" := VStr "deletedrevs"]> (
      <["drnamespace" := VInt namespace]> (
      <["drdir" := VStr "newer"]> (
      <["drlimit" := VInt limit]> (
      <["drprop" := VStr "revid|user|comment|content"]> (
      <["format" := VStr "json"]> ∅))))))
  end.

(** The request of an operation that holds a cursor with the given
    entries: the entries of the cursor, and under every other key the
    parameters of the operation. *)
Definition listing_request (url : string) (op : paged_operation)
  (cursor : list (string * value)) : request :=
  Request GET url (list_to_map cursor ∪ base_params op) ∅.

(** The items an operation yields for a decoded page. *)
Definition page_items (op : paged_operation) (data : value) (items : list value)
  : Prop :=
  exists query entries,
    getitem data "query" = Ok query /\
    getitem query (list_name op) = Ok (VList entries) /\
    match op with
    | ImageList _ =>
        exists images,
          Forall2 (fun entry image =>
                     getitem entry "title" = Ok (fst image) /\
                     getitem entry "url" = Ok (snd image)) entries images /\
          items = image_records images
    | PageList _ _ _ _ | SearchPages _ _ _ =>
        Forall2 (fun entry title => getitem entry "title" = Ok title) entries items
    | DeletedrevsList _ _ =>
        exists deleted,
          Forall2 (fun entry page =>
                     getitem entry "title" = Ok (fst page) /\
                     getitem entry "revisions" = Ok (VList (map VDict (snd page))))
                  entries deleted /\
          items = deleted_revisions deleted
    end.

(** A page that is followed by another one: its decoded body, the items
    the operation yields for it and the entries of its cursor. *)
Record served_page : Type := {
  page_body : value;
  page_yield : list value;
  page_cursor : list (string * value)
}.

(** Where the two dialects put the cursor of a page. *)
Definition legacy_continuation (op : paged_operation) (data cursor : value) : Prop :=
  exists qc,
    getitem data "query-continue" = Ok qc /\ getitem qc (list_name op) = Ok cursor.

Definition modern_continuation (data cursor : value) : Prop :=
  getitem data "continue" = Ok cursor.

(** How a legacy listing ends on a page without cursor: it returns when
    [query-continue] is missing, and the lookup raises when
    [query-continue] is there without an entry for the list. *)
Definition legacy_stop (op : paged_operation) (data : value) (e : ending) : Prop :=
  (contains "query-continue" data = Ok false /\ e = Exhausted) \/
  (exists qc err,
     getitem data "query-continue" = Ok qc /\
     getitem qc (list_name op) = Raise err /\ e = Raised err).

(** The platform, asked [reqs] one after the other from the state [srv],
    answers each with status 200 and a body without error field, and the
    decoded bodies are [bodies] in this order. *)
Fixpoint answers_in_turn {Server} (transport : Server -> request -> response * Server)
  (srv : Server) (reqs : list request) (bodies : list value) : Prop :=
  match reqs, bodies with
  | [], [] => True
  | req :: reqs', data :: bodies' =>
      accepted (fst (transport srv req)) data /\
      answers_in_turn transport (snd (transport srv req)) reqs' bodies'
  | _, _ => False
  end.

(** The continuation property as the specification words it, read on the
    first response of a listing that may go on: a second request is
    issued exactly when the decoded response holds the continuation
    field. *)
Definition continues_as_claimed (field : string) (data : value) (requests : nat)
  : Prop :=
  contains field data = Ok true <-> 2 <= requests.

(** What an operation does with one decoded page. *)
Definition emit_of {S} (op : paged_operation) : value -> M (Gen S) unit :=
  match op with
  | ImageList _ => emit_images
  | PageList _ _ _ _ | SearchPages _ _ _ => emit_titles (list_name op)
  | DeletedrevsList _ _ => emit_deletedrevs
  end.

(** ** Further requests and stand-ins *)

(** The request of [get_namespace_list]. *)
Definition siteinfo_request (url : string) : request :=
  Request GET url
    (<["action" := VStr "query"]> (
     <["meta" := VStr "siteinfo"]> (
     <["siprop" := VStr "namespaces"]> (
     <["format" := VStr "json"]> ∅)))) ∅.

(** A stand-in for [int] in the examples: it reads plain decimal numerals
    with an optional minus sign and answers every other string with the
    exception [failure]. *)
Definition digit (a : Ascii.ascii) : option Z :=
  let n := Ascii.nat_of_ascii a in
  if (48 <=? n) && (n <=? 57) then Some (Z.of_nat (n - 48)) else None.

Fixpoint digits (s : string) (acc : Z) : option Z :=
  match s with
  | EmptyString => Some acc
  | String a rest =>
      match digit a with
      | Some d => digits rest (10 * acc + d)%Z
      | None => None
      end
  end.

Definition decimal (failure : exn) (s : string) : result Z :=
  match s with
  | EmptyString => Raise failure
  | String a rest =>
      if Ascii.eqb a (Ascii.ascii_of_nat 45) then
        match rest, digits rest 0 with
        | String _ _, Some n => Ok (- n)%Z
        | _, _ => Raise failure
        end
      else
        match digits s 0 with
        | Some n => Ok n
        | None => Raise failure
        end
  end.

(** A platform that answers every request with the same response. *)
Definition always (r : response) (_ : unit) (req : request) : response * unit :=
  (r, tt).
(** The cursor the loop holds when [rest] is still to be listed of a
    listing that begins with [start]. *)
Definition at_cursor_from (titles start : list string)
  (cursor_of : string -> list (string * value))
  (cursor : list (string * value)) (rest : list string) : Prop :=
  (cursor = [] /\ rest = start) \/
  (exists t rest', rest = t :: rest' /\ cursor = cursor_of t /\
                   exists pre, titles = pre ++ rest).
(** The login request of [MediaWikiAPI1_31.api_login]. *)
Definition modern_login_request (url username password : string) (token : value)
  : request :=
  Request POST url ∅
    (<["action" := VStr "login"]> (
     <["format" := VStr "json"]> (
     <["lgname" := VStr username]> (
     <["lgpassword" := VStr password]> (
     <["lgtoken" := token]> ∅))))).

(** The request of [MediaWikiAPI1_31.get_page]. *)
Definition raw_page_request (url title : string) : request :=
  Request GET url
    (<["action" := VStr "raw"]> (<["title" := VStr title]> ∅)) ∅.

(** How a method ends on an answer that it checks for status and error
    only. *)
Definition checked (r : response) : result unit :=
  if bool_decide (status_code r = 200%Z) then
    match json r with
    | None => Raise JSONDecodeError
    | Some data =>
        match contains "error" data with
        | Raise e => Raise e
        | Ok false => Ok tt
        | Ok true =>
            match getitem data "error" with
            | Ok error => Raise (MediaWikiAPIError (Payload error))
            | Raise e => Raise e
            end
        end
    end
  else Raise (MediaWikiAPIError (Formatted "Status code is {}" (VInt (status_code r)))).
(** What a login attempt of the legacy client makes of an answer before it
    reads the login result: the decoded body, or the exception of the
    status, error and warning checks. *)
Definition login_checked (r : response) : result value :=
  if bool_decide (status_code r = 200%Z) then
    match json r with
    | None => Raise JSONDecodeError
    | Some data =>
        match contains "error" data with
        | Raise e => Raise e
        | Ok true =>
            match getitem data "error" with
            | Ok error => Raise (MediaWikiAPIError (Payload error))
            | Raise e => Raise e
            end
        | Ok false =>
            match contains "warning" data with
            | Raise e => Raise e
            | Ok true =>
                match getitem data "warning" with
                | Ok warning => Raise (MediaWikiAPIError (Payload warning))
                | Raise e => Raise e
                end
            | Ok false => Ok data
            end
        end
    end
  else Raise (MediaWikiAPIError (Formatted "Status code is {}" (VInt (status_code r)))).

(** The two login requests of the legacy client: the credentials, and the
    credentials with the token of the first answer. *)
Definition legacy_login_request (url username password : string) : request :=
  Request POST url ∅
    (<["action" := VStr "login"]> (
     <["format" := VStr "json"]> (
     <["lgname" := VStr username]> (
     <["lgpassword" := VStr password]> ∅)))).

Definition legacy_login_retry (url username password : string) (token : value)
  : request :=
  Request POST url ∅
    (<["lgtoken" := token]> (
     <["action" := VStr "login"]> (
     <["format" := VStr "json"]> (
     <["lgname" := VStr username]> (
     <["lgpassword" := VStr password]> ∅))))).

(** Answers used in the examples of the further properties. *)
Definition namespaces_body : value :=
  VDict [("batchcomplete", VStr "");
         ("query", VDict [("namespaces",
            VDict [("-2", VDict [("id", VInt (-2))]);
                   ("-1", VDict [("id", VInt (-1))]);
                   ("0", VDict [("id", VInt 0)]);
                   ("1", VDict [("id", VInt 1)]);
                   ("14", VDict [("id", VInt 14)])])])].

Definition named_namespaces_body : value :=
  VDict [("query", VDict [("namespaces",
            VDict [("0", VDict []); ("talk", VDict []); ("-1", VDict [])])])].

Definition pages_body (items : list value) (continuation : list (string * value))
  : value :=
  VDict (("query", VDict [("allpages", VList items)]) :: continuation).

Definition images_body : value :=
  VDict [("query", VDict [("allimages",
    VList [VDict [("name", VStr "A.png"); ("title", VStr "File:A.png");
                  ("url", VStr "https://wiki/images/A.png"); ("ns", VInt 6)];
           VDict [("name", VStr "B.png"); ("title", VStr "File:B.png");
                  ("url", VStr "https://wiki/images/B.png"); ("ns", VInt 6)]])])].

Definition deletedrevs_body : value :=
  VDict [("query", VDict [("deletedrevs",
    VList [VDict [("title", VStr "Old page"); ("ns", VInt 0);
                  ("revisions",
                   VList [VDict [("revid", VInt 11); ("user", VStr "Ann");
                                 ("comment", VStr "first")];
                          VDict [("revid", VInt 12); ("user", VStr "Bob");
                                 ("title", VStr "stale")]])]])])].

Definition search_body : value :=
  VDict [("batchcomplete", VStr "");
         ("query", VDict [("search",
            VList [VDict [("ns", VInt 0); ("title", VStr "Rocq")];
                   VDict [("ns", VInt 0); ("title", VStr "Proof")]])])].

Definition two_tokens_body : value :=
  VDict [("query", VDict [("pages", VDict [
    ("7", VDict [("title", VStr "A"); ("edittoken", VStr "aaa+")]);
    ("9", VDict [("title", VStr "B"); ("edittoken", VStr "bbb+")])])])].

Definition renamed_token_body : value :=
  VDict [("query", VDict [("pages", VDict [
    ("7", VDict [("title", VStr "Main Page"); ("edittoken", VStr "aaa+")])])])].

Definition warned_tokens_body : value :=
  VDict [("warning", login_warning);
         ("query", VDict [("pages", VDict [
            ("7", VDict [("title", VStr "A"); ("edittoken", VStr "aaa+")])])])].

Definition edit_failure_body : value :=
  VDict [("edit", VDict [("result", VStr "Failure")])].

(** Pages used in the examples of the continuation loop. *)
Definition failing_page_with_cursor : value :=
  VDict [("error", permission_error); ("continue", VDict (modern_cursor "B"))].

Definition legacy_failing_page_with_cursor : value :=
  VDict [("error", permission_error);
         ("query-continue", VDict [("allpages", VDict (legacy_cursor "B"))])].

Definition page_with_number_cursor : value :=
  pages_body [Wiki.page_entry "A"] [("continue", VInt 5)].

Definition page_with_untitled_entry : value :=
  pages_body [Wiki.page_entry "A"; VDict [("ns", VInt 0)]]
    [("continue", VDict (modern_cursor "B"))].

Definition legacy_first_of_two : served_page :=
  {| page_body := pages_body [Wiki.page_entry "A"; Wiki.page_entry "B"]
                    [("query-continue", VDict [("allpages", VDict (legacy_cursor "C"))])];
     page_yield := [VStr "A"; VStr "B"];
     page_cursor := legacy_cursor "C" |}.

Definition modern_first_of_two : served_page :=
  {| page_body := pages_body [Wiki.page_entry "A"; Wiki.page_entry "B"]
                    [("continue", VDict (modern_cursor "C"))];
     page_yield := [VStr "A"; VStr "B"];
     page_cursor := modern_cursor "C" |}.

Definition second_of_two : value := pages_body [Wiki.page_entry "C"] [].

(** A page of A and B whose cursor points back to A. *)
Definition stuck_body : value :=
  pages_body [VDict [("title", VStr "A")]; VDict [("title", VStr "B")]]
    [("continue", VDict [("apcontinue", VStr "A"); ("continue", VStr "-||")])].

(** * Properties *)

Section Monad_lemmas.
Context {S A B : Type}.
Implicit Types (m : M S A) (k : A -> M S B).

Lemma bind_ok m k s a s' : m s = (Ok a, s') -> bind m k s = k a s'.
Proof. intros H. unfold bind. by rewrite H. Qed.

Lemma bind_raise m k s e s' : m s = (Raise e, s') -> bind m k s = (Raise e, s').
Proof. intros H. unfold bind. by rewrite H. Qed.
End Monad_lemmas.

Lemma bind_lift_ok {S A B} (r : result A) (k : A -> M S B) a s :
  r = Ok a -> bind (lift_result r) k s = k a s.
Proof. by intros ->. Qed.

Lemma bind_lift_raise {S A B} (r : result A) (k : A -> M S B) e s :
  r = Raise e -> bind (lift_result r) k s = (Raise e, s).
Proof. by intros ->. Qed.

Lemma bind_gets {S A B} (f : S -> A) (k : A -> M S B) s :
  bind (gets f) k s = k (f s) s.
Proof. reflexivity. Qed.

Lemma is_str_true k v : is_str k v = true <-> v = VStr k.
Proof.
  destruct v; simpl; try (split; [discriminate | intros; discriminate]).
  rewrite String.eqb_eq. split; [by intros -> | by intros [= ->]].
Qed.

Lemma is_str_false k v : v <> VStr k -> is_str k v = false.
Proof.
  intros H. destruct (is_str k v) eqn:E; [|done]. by apply is_str_true in E.
Qed.

Lemma issued_app {Server S} `{!Client Server S} (before after : S) reqs :
  sent (session after) = sent (session before) ++ reqs ->
  issued before after = reqs.
Proof. intros H. unfold issued. rewrite H. by rewrite drop_app_length. Qed.

(** ** The modern client and its CSRF token *)
Section Modern_token.
Context {Server : Type}.
Variable transport : Server -> request -> response * Server.
Import MediaWikiAPI1_31.
Implicit Types self : @MediaWikiAPI1_31.t Server.

(** Whatever [get_token] returns, it has sent its one query and touched
    nothing else of the client. *)
Lemma get_token_state token_type self r self' :
  get_token transport token_type self = (r, self') ->
  self' = with_session
    {| server := snd (transport (server (session self))
                       (token_request (api_url self) token_type));
       sent := sent (session self) ++ [token_request (api_url self) token_type] |}
    self.
Proof.
  unfold get_token, session_get, send, bind, check_status, lift_result, ret,
    raise, token_request.
  destruct (transport _ _) as [resp srv]; simpl.
  repeat case_match; intros; simplify_eq; done.
Qed.

Lemma ensure_csrf_token_raise self e self' :
  csrf_token self = VNone ->
  get_token transport "csrf" self = (Raise e, self') ->
  ensure_csrf_token transport self = (Raise e, self').
Proof.
  intros Hnone Hfetch. unfold ensure_csrf_token, gets. unfold bind at 1.
  rewrite Hnone. simpl. by apply bind_raise.
Qed.

(** C10. On the modern client the CSRF token is fetched before the mutation
    request is built: when the client has no token yet and the fetch
    raises, [edit_page] and [delete_page] raise the same exception, the
    token query is the only request they issued, and [csrf_token] is still
    [None]. *)
Theorem modern_token_failure_sends_no_mutation self e self' :
  csrf_token self = VNone ->
  get_token transport "csrf" self = (Raise e, self') ->
  (forall page_name text summary,
      edit_page transport page_name text summary self = (Raise e, self')) /\
  (forall page_name reason,
      delete_page transport page_name reason self = (Raise e, self')) /\
  csrf_token self' = VNone /\
  issued self self' = [token_request (api_url self) "csrf"].
Proof.
  intros Hnone Hfetch.
  pose proof (ensure_csrf_token_raise _ _ _ Hnone Hfetch) as Hensure.
  split; [|split; [|split]].
  - intros. unfold edit_page. by apply bind_raise.
  - intros. unfold delete_page. by apply bind_raise.
  - apply get_token_state in Hfetch. by subst.
  - apply get_token_state in Hfetch. apply issued_app. by subst.
Qed.
End Modern_token.

(** A platform that is down: the token query gets status 500, the edit
    raises the transport error and only the token query went out. *)
Lemma modern_token_failure_witness :
  let self := MediaWikiAPI1_31.init "https://wiki" [] in
  let e := MediaWikiAPIError (Formatted "Status code is {}" (VInt 500)) in
  fst (MediaWikiAPI1_31.edit_page scripted "A" "text" None self) = Raise e /\
  issued self (snd (MediaWikiAPI1_31.edit_page scripted "A" "text" None self))
    = [token_request "https://wiki/api.php" "csrf"].
Proof.
  intros self e.
  destruct (modern_token_failure_sends_no_mutation scripted self e
              (snd (MediaWikiAPI1_31.get_token scripted "csrf" self))
              eq_refl eq_refl) as (Hedit & _ & _ & Hissued).
  rewrite Hedit. split; [reflexivity | exact Hissued].
Defined.

(** ** The legacy login handshake *)
Section Legacy_login.
Context {Server : Type}.
Variable transport : Server -> request -> response * Server.
Import MediaWikiAPI1_19.
Implicit Types self : @MediaWikiAPI1_19.t Server.

(** One login attempt up to the login result. *)
Lemma login_attempt_checked self r srv params (k : value -> M t unit) :
  transport (server (session self)) (Request POST (api_url self) ∅ params) = (r, srv) ->
  (let* r := session_post transport params in
   check_status r >>
   let* data := lift_result (response_json r) in
   check_error data >>
   check_warning data >>
   k data) self
  = match login_checked r with
    | Ok data =>
        k data (with_session
          {| server := srv;
             sent := sent (session self) ++ [Request POST (api_url self) ∅ params] |} self)
    | Raise e =>
        (Raise e, with_session
          {| server := srv;
             sent := sent (session self) ++ [Request POST (api_url self) ∅ params] |} self)
    end.
Proof.
  intros Ht.
  unfold login_checked, session_post, send, check_status, check_error, check_warning,
    response_json, lift_result, ret, raise, bind.
  rewrite Ht.
  destruct (bool_decide (status_code r = 200%Z)); [|done].
  destruct (json r) as [data|]; [|done].
  destruct (contains "error" data) as [[]|]; [by destruct (getitem data "error")| |done].
  destruct (contains "warning" data) as [[]|]; [by destruct (getitem data "warning")|done|done].
Qed.

(** What is left of a login attempt once its answer is read: the login
    result decides, and the requests so far stay as they are. *)
Lemma login_requests self username password :
  let request1 := legacy_login_request (api_url self) username password in
  let final := snd (api_login transport username password self) in
  issued self final = [request1] \/
  exists token,
    issued self final
    = [request1; legacy_login_retry (api_url self) username password token].
Proof.
  intros request1 final. subst final. unfold api_login. cbv zeta.
  destruct (transport (server (session self)) request1) as [r1 srv1] eqn:Ht1.
  rewrite (login_attempt_checked _ _ _ _ _ Ht1).
  destruct (login_checked r1) as [data1|e1];
    [cbv beta|left; apply issued_app; reflexivity].
  set (self1 := with_session _ self).
  assert (sent (session self1) = sent (session self) ++ [request1]) as Hsent1
    by reflexivity.
  destruct (login_result data1) as [result1|e];
    [rewrite !(bind_lift_ok (Ok result1) _ _ _ eq_refl)
    |rewrite (bind_lift_raise (Raise e) _ _ _ eq_refl); left; by apply issued_app].
  destruct (is_str "Success" result1); [left; by apply issued_app|].
  rewrite !(bind_lift_ok (Ok result1) _ _ _ eq_refl).
  destruct (negb (is_str "NeedToken" result1)).
  { rewrite !(bind_lift_ok (Ok result1) _ _ _ eq_refl). left. by apply issued_app. }
  destruct (getitem data1 "login") as [login1|e];
    [rewrite (bind_lift_ok (Ok login1) _ _ _ eq_refl)
    |rewrite (bind_lift_raise (Raise e) _ _ _ eq_refl); left; by apply issued_app].
  destruct (getitem login1 "token") as [token|e];
    [rewrite (bind_lift_ok (Ok token) _ _ _ eq_refl)
    |rewrite (bind_lift_raise (Raise e) _ _ _ eq_refl); left; by apply issued_app].
  right. exists token.
  destruct (transport (server (session self1))
              (legacy_login_retry (api_url self1) username password token))
    as [r2 srv2] eqn:Ht2.
  rewrite (login_attempt_checked self1 r2 srv2
             (<["lgtoken" := token]> (login_params username password)) _ Ht2).
  apply issued_app.
  destruct (login_checked r2) as [data2|e2];
    [cbv beta|cbn [snd]; rewrite session_with_session; cbn [sent]; rewrite Hsent1;
      by rewrite <- app_assoc].
  destruct (login_result data2) as [result2|e];
    [rewrite !(bind_lift_ok (Ok result2) _ _ _ eq_refl)
    |rewrite (bind_lift_raise (Raise e) _ _ _ eq_refl); cbn [snd];
     rewrite session_with_session; cbn [sent]; rewrite Hsent1;
     by rewrite <- app_assoc].
  destruct (negb (is_str "Success" result2));
    [rewrite !(bind_lift_ok (Ok result2) _ _ _ eq_refl)|];
    cbn [snd raise ret]; rewrite session_with_session; cbn [sent]; rewrite Hsent1;
    by rewrite <- app_assoc.
Qed.

(** C6. The legacy login handshake.  The first request carries the
    credentials.  When it is answered with a login result (status 200, no
    error, no warning): [Success] ends the login after this one request; a
    result other than [Success] and [NeedToken] raises the authentication
    error carrying that result, again after one request; [NeedToken] leads
    to exactly one second request, which resends the credentials together
    with the token of the first answer, and its result decides: [Success]
    returns, anything else raises the authentication error carrying the
    second result.  Whatever the platform answers, the login sends the
    first request alone or the first and one such second request: there
    is no third attempt. *)
Theorem legacy_login_handshake self username password :
  let url := api_url self in
  let request1 := legacy_login_request url username password in
  let run := api_login transport username password self in
  (forall r1 srv1 login1 result1,
     let self1 := with_session
       {| server := srv1; sent := sent (session self) ++ [request1] |} self in
     transport (server (session self)) request1 = (r1, srv1) ->
     login_reply r1 login1 result1 ->
     (result1 = VStr "Success" -> run = (Ok tt, self1)) /\
     (result1 <> VStr "Success" -> result1 <> VStr "NeedToken" ->
      exists e,
        run = (Raise e, self1) /\
        e = MediaWikiAPIError (Formatted "Login result is {}" result1) /\
        classify e = AuthenticationError) /\
     (result1 = VStr "NeedToken" ->
      forall token r2 srv2 login2 result2,
        let request2 := legacy_login_retry url username password token in
        let self2 := with_session
          {| server := srv2; sent := sent (session self) ++ [request1; request2] |}
          self in
        getitem login1 "token" = Ok token ->
        transport srv1 request2 = (r2, srv2) ->
        login_reply r2 login2 result2 ->
        (result2 = VStr "Success" -> run = (Ok tt, self2)) /\
        (result2 <> VStr "Success" ->
         exists e,
           run = (Raise e, self2) /\
           e = MediaWikiAPIError (Formatted "Login result is {}" result2) /\
           classify e = AuthenticationError))) /\
  (issued self (snd run) = [request1] \/
   exists token,
     issued self (snd run) = [request1; legacy_login_retry url username password token]) /\
  (forall token,
     let request2 := legacy_login_retry url username password token in
     req_method request1 = POST /\ req_method request2 = POST /\
     req_data request1 !! "lgname" = Some (VStr username) /\
     req_data request1 !! "lgpassword" = Some (VStr password) /\
     req_data request1 !! "lgtoken" = None /\
     req_data request2 !! "lgname" = Some (VStr username) /\
     req_data request2 !! "lgpassword" = Some (VStr password) /\
     req_data request2 !! "lgtoken" = Some token).
Proof.
  intros url request1 run. split; [|split].
  - intros r1 srv1 login1 result1 self1 Ht1 (data1 & Hacc1 & Hw1 & Hl1 & Hr1).
    assert (login_result data1 = Ok result1) as Hres1.
    { unfold login_result. by rewrite Hl1. }
    assert (login_checked r1 = Ok data1) as Hc1.
    { destruct Hacc1 as [[Hs Hj] He]. unfold login_checked.
      by rewrite Hs, Hj, He, Hw1. }
    subst run. split; [|split].
    + intros ->. unfold api_login. cbv zeta.
      rewrite (login_attempt_checked _ _ _ _ _ Ht1), Hc1.
      by rewrite (bind_lift_ok _ _ _ _ Hres1).
    + intros Hns Hnt. eexists. split; [|split; reflexivity].
      unfold api_login. cbv zeta.
      rewrite (login_attempt_checked _ _ _ _ _ Ht1), Hc1.
      rewrite (bind_lift_ok _ _ _ _ Hres1), (is_str_false _ _ Hns).
      rewrite (bind_lift_ok _ _ _ _ Hres1), (is_str_false _ _ Hnt).
      cbv iota beta delta [negb].
      by rewrite (bind_lift_ok _ _ _ _ Hres1).
    + intros -> token r2 srv2 login2 result2 request2 self2 Htok Ht2
        (data2 & Hacc2 & Hw2 & Hl2 & Hr2).
      assert (login_result data2 = Ok result2) as Hres2.
      { unfold login_result. by rewrite Hl2. }
      assert (login_checked r2 = Ok data2) as Hc2.
      { destruct Hacc2 as [[Hs Hj] He]. unfold login_checked.
        by rewrite Hs, Hj, He, Hw2. }
      assert (api_login transport username password self
              = (if is_str "Success" result2 then Ok tt
                 else Raise (MediaWikiAPIError (Formatted "Login result is {}" result2)),
                 self2)) as Hrun.
      { unfold api_login. cbv zeta.
        rewrite (login_attempt_checked _ _ _ _ _ Ht1), Hc1.
        rewrite (bind_lift_ok _ _ _ _ Hres1).
        change (is_str "Success" (VStr "NeedToken")) with false. cbv iota.
        rewrite (bind_lift_ok _ _ _ _ Hres1).
        change (is_str "NeedToken" (VStr "NeedToken")) with true.
        cbv iota beta delta [negb].
        rewrite (bind_lift_ok _ _ _ _ Hl1), (bind_lift_ok _ _ _ _ Htok).
        rewrite (login_attempt_checked self1 r2 srv2
                   (<["lgtoken" := token]> (login_params username password)) _ Ht2).
        rewrite Hc2.
        rewrite (bind_lift_ok _ _ _ _ Hres2).
        destruct (is_str "Success" result2); simpl.
        all: try rewrite (bind_lift_ok _ _ _ _ Hres2).
        all: unfold self2, ret, raise; simpl; rewrite <- app_assoc; reflexivity. }
      rewrite Hrun. split.
      * intros ->. reflexivity.
      * intros Hns. rewrite (is_str_false _ _ Hns). eexists. by repeat split.
  - apply login_requests.
  - intros token request2. repeat split.
Qed.
End Legacy_login.

(** The platform asks for a token and accepts the second attempt, which
    carries the name, the password and that token. *)
Lemma legacy_login_handshake_witness :
  let self := MediaWikiAPI1_19.init "https://wiki"
                [ok_json (need_token_body "8e2b+"); ok_json (login_body "Success")] in
  let run := MediaWikiAPI1_19.api_login scripted "bot" "secret" self in
  fst run = Ok tt /\
  sent (session (snd run))
  = [Request POST "https://wiki/api.php" ∅
       (<["action" := VStr "login"]> (<["format" := VStr "json"]> (
        <["lgname" := VStr "bot"]> (<["lgpassword" := VStr "secret"]> ∅))));
     Request POST "https://wiki/api.php" ∅
       (<["lgtoken" := VStr "8e2b+"]> (
        <["action" := VStr "login"]> (<["format" := VStr "json"]> (
        <["lgname" := VStr "bot"]> (<["lgpassword" := VStr "secret"]> ∅)))))].
Proof.
  intros self run.
  assert (login_reply (ok_json (need_token_body "8e2b+"))
            (VDict [("result", VStr "NeedToken"); ("token", VStr "8e2b+")])
            (VStr "NeedToken")) as Hreply1.
  { exists (need_token_body "8e2b+"). repeat split; reflexivity. }
  assert (login_reply (ok_json (login_body "Success"))
            (VDict [("result", VStr "Success")]) (VStr "Success")) as Hreply2.
  { exists (login_body "Success"). repeat split; reflexivity. }
  destruct (legacy_login_handshake scripted self "bot" "secret") as (Hsteps & _ & _).
  destruct (Hsteps _ _ _ _ eq_refl Hreply1) as (_ & _ & Hneed).
  destruct (Hneed eq_refl (VStr "8e2b+") _ _ _ _ eq_refl eq_refl Hreply2) as [Hok _].
  unfold run. rewrite (Hok eq_refl). split; reflexivity.
Defined.

(** ** Token reuse on the modern client *)

Lemma run_calls_cons {S} (perform : call -> M S unit) c calls (s : S) :
  snd (run_calls perform (c :: calls) s)
  = snd (run_calls perform calls (snd (perform c s))).
Proof.
  simpl. destruct (perform c s) as [r s1]. simpl.
  by destruct (run_calls perform calls s1).
Qed.

Section Modern_reuse.
Context {Server : Type}.
Variable transport : Server -> request -> response * Server.
Import MediaWikiAPI1_31.
Implicit Types self : @MediaWikiAPI1_31.t Server.

Lemma post_and_check self data :
  snd ((let* r := session_post transport data in
        check_status r >>
        let* data := lift_result (response_json r) in
        check_error data >> ret tt) self)
  = posted transport self (Request POST (api_url self) ∅ data).
Proof.
  unfold posted, session_post, send, check_status, check_error,
    lift_result, ret, raise, bind.
  destruct (transport _ _) as [resp srv]; simpl.
  repeat case_match; simplify_eq; done.
Qed.

Lemma get_token_ok self token_type token r srv :
  transport (server (session self)) (token_request (api_url self) token_type) = (r, srv) ->
  token_reply token_type token r ->
  get_token transport token_type self
  = (Ok token, with_session
       {| server := srv;
          sent := sent (session self) ++ [token_request (api_url self) token_type] |} self).
Proof.
  intros Ht (data & query & tokens & [Hs Hj] & Hq & Hts & Htok).
  unfold get_token, session_get, send. unfold bind at 1.
  change (Request GET (api_url self) (token_params token_type) ∅)
    with (token_request (api_url self) token_type).
  rewrite Ht. unfold check_status, response_json.
  rewrite Hs, Hj. simpl.
  unfold bind, lift_result, ret. by rewrite Hq, Hts, Htok.
Qed.

Lemma ensure_csrf_token_cached self :
  csrf_token self <> VNone -> ensure_csrf_token transport self = (Ok tt, self).
Proof.
  intros H. unfold ensure_csrf_token, gets, bind.
  destruct (csrf_token self); done.
Qed.

Lemma modern_call_with_token self c :
  csrf_token self <> VNone ->
  snd (modern_call transport c self)
  = posted transport self (modern_mutation (api_url self) (csrf_token self) c).
Proof.
  intros H. destruct c as [page_name text summary | page_name reason]; unfold modern_call.
  - unfold edit_page. rewrite (bind_ok _ _ _ _ _ (ensure_csrf_token_cached _ H)).
    rewrite bind_gets. cbv zeta. apply post_and_check.
  - unfold delete_page. rewrite (bind_ok _ _ _ _ _ (ensure_csrf_token_cached _ H)).
    rewrite bind_gets. cbv zeta. apply post_and_check.
Qed.

Lemma run_calls_with_token calls : forall self,
  csrf_token self <> VNone ->
  let final := snd (run_calls (modern_call transport) calls self) in
  sent (session final)
  = sent (session self) ++ map (modern_mutation (api_url self) (csrf_token self)) calls /\
  csrf_token final = csrf_token self.
Proof.
  induction calls as [|c calls IH]; intros self H.
  - simpl. by rewrite app_nil_r.
  - cbv zeta. rewrite run_calls_cons, (modern_call_with_token _ _ H).
    destruct (IH (posted transport self
                    (modern_mutation (api_url self) (csrf_token self) c)))
      as [Hsent Htoken]; [exact H|].
    rewrite Hsent, Htoken. split; [|done].
    unfold posted at 1 2. simpl. by rewrite <- app_assoc.
Qed.

Lemma mutation_is_no_fetch url token c : is_csrf_fetch (modern_mutation url token c) = false.
Proof. by destruct c. Qed.

Lemma mutations_without_fetch url token calls :
  List.filter is_csrf_fetch (map (modern_mutation url token) calls) = [].
Proof.
  induction calls as [|c calls IH]; [done|]. simpl.
  by rewrite mutation_is_no_fetch.
Qed.

Lemma modern_call_fetching self c r srv token :
  csrf_token self = VNone ->
  transport (server (session self)) (token_request (api_url self) "csrf") = (r, srv) ->
  token_reply "csrf" token r ->
  snd (modern_call transport c self)
  = posted transport (set_csrf_token token (with_session
      {| server := srv;
         sent := sent (session self) ++ [token_request (api_url self) "csrf"] |} self))
      (modern_mutation (api_url self) token c).
Proof.
  intros Hnone Ht Hreply.
  pose proof (get_token_ok _ _ _ _ _ Ht Hreply) as Hget.
  assert (ensure_csrf_token transport self
          = (Ok tt, set_csrf_token token (with_session
               {| server := srv;
                  sent := sent (session self) ++ [token_request (api_url self) "csrf"] |}
               self))) as Hensure.
  { unfold ensure_csrf_token, gets. unfold bind at 1. rewrite Hnone. simpl.
    by rewrite (bind_ok _ _ _ _ _ Hget). }
  destruct c as [page_name text summary | page_name reason]; unfold modern_call.
  - unfold edit_page. rewrite (bind_ok _ _ _ _ _ Hensure).
    rewrite bind_gets. cbv zeta. apply post_and_check.
  - unfold delete_page. rewrite (bind_ok _ _ _ _ _ Hensure).
    rewrite bind_gets. cbv zeta. apply post_and_check.
Qed.

(** C7, for a session whose first token query is answered with a token.
    A client without a token makes a non-empty sequence of [edit_page] and
    [delete_page] calls, and the platform answers the token query of the
    first call with a token (not [null]).  Then the requests of the whole
    run are that one token query followed by one mutation request per
    call, in the order of the calls, and every one of them, the first
    included, carries the token of that answer: there is exactly one CSRF
    token query in total, and the token stays cached. *)
Theorem modern_token_reuse self calls r srv token :
  calls <> [] ->
  csrf_token self = VNone ->
  transport (server (session self)) (token_request (api_url self) "csrf") = (r, srv) ->
  token_reply "csrf" token r ->
  token <> VNone ->
  let final := snd (run_calls (modern_call transport) calls self) in
  issued self final
  = token_request (api_url self) "csrf"
    :: map (modern_mutation (api_url self) token) calls /\
  csrf_fetches transport calls self = 1 /\
  (forall c, c ∈ calls ->
     req_data (modern_mutation (api_url self) token c) !! "token" = Some token) /\
  csrf_token final = token.
Proof.
  intros Hcalls Hnone Ht Hreply Htoken final.
  destruct calls as [|c calls]; [done|].
  assert (issued self final
          = token_request (api_url self) "csrf"
            :: map (modern_mutation (api_url self) token) (c :: calls)
          /\ csrf_token final = token) as [Hissued Hfinal].
  { subst final. rewrite run_calls_cons.
    rewrite (modern_call_fetching self c r srv token Hnone Ht Hreply).
    set (self1 := posted transport _ _).
    destruct (run_calls_with_token calls self1 Htoken) as [Hsent Htok].
    split; [|exact Htok].
    apply issued_app. rewrite Hsent. subst self1. unfold posted. simpl.
    by rewrite <- !app_assoc. }
  split; [exact Hissued|]. split; [|split; [|exact Hfinal]].
  - unfold csrf_fetches. fold final. rewrite Hissued. simpl.
    rewrite mutation_is_no_fetch.
    by rewrite mutations_without_fetch.
  - intros [page_name text summary | page_name reason] _; simpl.
    + unfold modern_edit_request. simpl. destruct summary; simpl.
      * rewrite lookup_insert_ne by done. by repeat (rewrite lookup_insert_ne by done);
          rewrite lookup_insert_eq.
      * by repeat (rewrite lookup_insert_ne by done); rewrite lookup_insert_eq.
    + unfold modern_delete_request. simpl. destruct reason; simpl.
      * rewrite lookup_insert_ne by done. by repeat (rewrite lookup_insert_ne by done);
          rewrite lookup_insert_eq.
      * by repeat (rewrite lookup_insert_ne by done); rewrite lookup_insert_eq.
Qed.
End Modern_reuse.

(** C7 as stated fails when the first token query fails: the call raises,
    the token stays unset, and the next call asks again.  Two edits, a
    platform that is down for the first request: two CSRF token queries. *)
Lemma modern_token_refetch_counterexample :
  let self := MediaWikiAPI1_31.init "https://wiki"
                [Response 500 "" None; ok_json csrf_token_body;
                 ok_json edit_success_body] in
  let calls := [EditPage "A" "first" None; EditPage "B" "second" None] in
  csrf_fetches scripted calls self <> 1 /\
  issued self (snd (run_calls (modern_call scripted) calls self))
  = [token_request "https://wiki/api.php" "csrf";
     token_request "https://wiki/api.php" "csrf";
     modern_edit_request "https://wiki/api.php" "B" "second" None (VStr "5f3a+")].
Proof.
  intros self calls. split.
  - vm_compute. discriminate.
  - reflexivity.
Qed.

(** Two edits in a row: one token query, then the two edit requests with
    the token of its answer. *)
Lemma modern_token_reuse_witness :
  let self := MediaWikiAPI1_31.init "https://wiki"
                [ok_json csrf_token_body; ok_json edit_success_body;
                 ok_json edit_success_body] in
  let calls := [EditPage "A" "first" None; EditPage "B" "second" None] in
  let final := snd (run_calls (modern_call scripted) calls self) in
  csrf_fetches scripted calls self = 1 /\
  sent (session final)
  = [token_request "https://wiki/api.php" "csrf";
     modern_edit_request "https://wiki/api.php" "A" "first" None (VStr "5f3a+");
     modern_edit_request "https://wiki/api.php" "B" "second" None (VStr "5f3a+")] /\
  MediaWikiAPI1_31.csrf_token final = VStr "5f3a+".
Proof.
  intros self calls final.
  assert (token_reply "csrf" (VStr "5f3a+") (ok_json csrf_token_body)) as Hreply.
  { do 3 eexists. repeat split; reflexivity. }
  destruct (modern_token_reuse scripted self calls _ _ (VStr "5f3a+")
              ltac:(discriminate) eq_refl eq_refl Hreply ltac:(discriminate))
    as (Hissued & Hone & _ & Htoken).
  split; [exact Hone|]. split; [exact Hissued | exact Htoken].
Defined.

(** ** Page tokens on the legacy client *)

Lemma tuple_is_not_its_element v : VTuple [v] <> v.
Proof. intros H. apply (f_equal size) in H. simpl in H. lia. Qed.

Section Legacy_tokens.
Context {Server : Type}.
Variable transport : Server -> request -> response * Server.
Import MediaWikiAPI1_19.
Implicit Types self : @MediaWikiAPI1_19.t Server.

Lemma get_tokens_state token_type titles self r self' :
  get_tokens transport token_type titles self = (r, self') ->
  self' = posted transport self (tokens_request (api_url self) token_type titles).
Proof.
  unfold get_tokens, posted, session_post_params, send, check_status, check_error,
    check_warning, lift_result, ret, raise, bind, tokens_request.
  destruct (transport _ _) as [resp srv]; simpl.
  repeat case_match; intros; simplify_eq; done.
Qed.

Lemma get_tokens_ok token_type title token self r srv :
  transport (server (session self)) (tokens_request (api_url self) token_type title) = (r, srv) ->
  tokens_reply token_type title token r ->
  get_tokens transport token_type title self
  = (Ok {[title := token]},
     posted transport self (tokens_request (api_url self) token_type title)).
Proof.
  intros Ht (data & query & id & page_data & [[Hs Hj] He] & Hw & Hq & Hp & Htitle & Htok).
  unfold get_tokens, session_post_params, send. unfold bind at 1.
  change (Request POST (api_url self) _ ∅)
    with (tokens_request (api_url self) token_type title).
  unfold posted. rewrite Ht. unfold check_status, check_error, check_warning, response_json.
  rewrite Hs, Hj. simpl bool_decide. cbv iota.
  unfold bind, lift_result, ret. rewrite He, Hw, Hq, Hp. simpl.
  unfold token_entry. rewrite Htitle, Htok. reflexivity.
Qed.

Lemma edit_post self page_name text summary token :
  snd ((let* r := session_post transport
          (<["token" := VTuple [token]]> (
           with_optional "summary" summary (
           <["action" := VStr "edit"]> (
           <["title" := VStr page_name]> (
           <["text" := VStr text]> (
           <["format" := VStr "json"]> ∅)))))) in
        check_status r >>
        let* data := lift_result (response_json r) in
        check_error data >> ret tt) self)
  = posted transport self
      (legacy_edit_request (api_url self) page_name text summary token).
Proof.
  unfold posted, session_post, send, check_status, check_error,
    lift_result, ret, raise, bind, legacy_edit_request.
  destruct (transport _ _) as [resp srv]; simpl.
  repeat case_match; simplify_eq; done.
Qed.

Lemma edit_page_cached self page_name text summary token :
  edit_tokens self !! page_name = Some token ->
  snd (edit_page transport page_name text summary self)
  = posted transport self
      (legacy_edit_request (api_url self) page_name text summary token).
Proof.
  intros H. unfold edit_page. cbv zeta. rewrite bind_gets, H.
  rewrite bool_decide_eq_true_2 by eauto.
  unfold ret at 1. unfold bind at 1.
  unfold bind at 1. unfold lift_result at 1, cached. rewrite H.
  apply edit_post.
Qed.

Lemma delete_post self page_name reason token :
  snd ((let* r := session_post transport
          (<["token" := VTuple [token]]> (
           with_optional "reason" reason (
           <["action" := VStr "delete"]> (
           <["title" := VStr page_name]> (
           <["format" := VStr "json"]> ∅))))) in
        check_status r >>
        let* data := lift_result (response_json r) in
        let* present := lift_result (contains "error" data) in
        if present : bool then
          let* error := lift_result (getitem data "error") in
          let* code := lift_result (getitem error "code") in
          if is_str "cantdelete" code then
            let* info := lift_result (getitem error "info") in
            raise (CanNotDelete (Payload info))
          else raise (MediaWikiAPIError (Payload error))
        else ret tt) self)
  = posted transport self
      (legacy_delete_request (api_url self) page_name reason token).
Proof.
  unfold posted, session_post, send, check_status,
    lift_result, ret, raise, bind, legacy_delete_request.
  destruct (transport _ _) as [resp srv]; simpl.
  repeat case_match; simplify_eq; done.
Qed.

Lemma delete_page_cached self page_name reason token :
  delete_tokens self !! page_name = Some token ->
  snd (delete_page transport page_name reason self)
  = posted transport self
      (legacy_delete_request (api_url self) page_name reason token).
Proof.
  intros H. unfold delete_page. cbv zeta. rewrite bind_gets, H.
  rewrite bool_decide_eq_true_2 by eauto.
  unfold ret at 1. unfold bind at 1.
  unfold bind at 1. unfold lift_result at 1, cached. rewrite H.
  apply delete_post.
Qed.

(** The token stage of an uncached call. *)
Lemma fetch_stage (known : bool) token_type page_name self
  (store : gmap string value -> t -> t) :
  known = false ->
  (if known then ret tt
   else let* tokens := get_tokens transport token_type page_name in
        modify (store tokens)) self
  = match get_tokens transport token_type page_name self with
    | (Ok tokens, self1) => (Ok tt, store tokens self1)
    | (Raise e, self1) => (Raise e, self1)
    end.
Proof. intros ->. unfold bind, modify. by repeat case_match. Qed.

(** The three ways an uncached [edit_page] can go. *)
Lemma edit_page_uncached self page_name text summary :
  edit_tokens self !! page_name = None ->
  let query := tokens_request (api_url self) "edit" page_name in
  let self1 := posted transport self query in
  let self' := snd (edit_page transport page_name text summary self) in
  self' = self1 \/
  (exists tokens, self' = update_edit_tokens tokens self1 /\
                  edit_tokens self' !! page_name = None) \/
  (exists tokens token,
     (tokens ∪ edit_tokens self) !! page_name = Some token /\
     fst (get_tokens transport "edit" page_name self) = Ok tokens /\
     self' = posted transport (update_edit_tokens tokens self1)
               (legacy_edit_request (api_url self) page_name text summary token)).
Proof.
  intros H query self1 self'. subst self'. unfold edit_page. cbv zeta.
  rewrite bind_gets, H.
  destruct (get_tokens transport "edit" page_name self) as [[tokens|e] s1] eqn:Hget;
    pose proof (get_tokens_state _ _ _ _ _ Hget) as ->; fold query; fold self1.
  - erewrite bind_ok; cycle 1.
    { rewrite fetch_stage, Hget by (apply bool_decide_eq_false_2; by intros [? ?]).
      reflexivity. }
    fold query; fold self1.
    destruct (edit_tokens (update_edit_tokens tokens self1) !! page_name) as [token|] eqn:Hc.
    + right; right. exists tokens, token. split; [exact Hc|]. split; [done|].
      erewrite bind_ok; cycle 1.
      { unfold lift_result, cached. rewrite Hc. reflexivity. }
      rewrite edit_post. reflexivity.
    + right; left. exists tokens.
      erewrite bind_raise; cycle 1.
      { unfold lift_result, cached. rewrite Hc. reflexivity. }
      split; [done|exact Hc].
  - left. erewrite bind_raise; [reflexivity|].
    rewrite fetch_stage, Hget by (apply bool_decide_eq_false_2; by intros [? ?]).
    reflexivity.
Qed.

Lemma edit_page_fetched self page_name text summary r srv token :
  edit_tokens self !! page_name = None ->
  transport (server (session self)) (tokens_request (api_url self) "edit" page_name)
    = (r, srv) ->
  tokens_reply "edit" page_name token r ->
  snd (edit_page transport page_name text summary self)
  = posted transport
      (update_edit_tokens {[page_name := token]}
         (posted transport self (tokens_request (api_url self) "edit" page_name)))
      (legacy_edit_request (api_url self) page_name text summary token).
Proof.
  intros H Ht Hreply.
  pose proof (get_tokens_ok _ _ _ _ _ _ Ht Hreply) as Hget.
  unfold edit_page. cbv zeta. rewrite bind_gets, H.
  erewrite bind_ok; cycle 1.
  { rewrite fetch_stage, Hget by (apply bool_decide_eq_false_2; by intros [? ?]).
    reflexivity. }
  erewrite bind_ok; cycle 1.
  { unfold lift_result, cached. simpl edit_tokens.
    rewrite lookup_union_l', lookup_singleton_eq
      by (rewrite lookup_singleton_eq; eauto). reflexivity. }
  rewrite edit_post. reflexivity.
Qed.

(** The three ways an uncached [delete_page] can go. *)
Lemma delete_page_uncached self page_name reason :
  delete_tokens self !! page_name = None ->
  let query := tokens_request (api_url self) "delete" page_name in
  let self1 := posted transport self query in
  let self' := snd (delete_page transport page_name reason self) in
  self' = self1 \/
  (exists tokens, self' = update_delete_tokens tokens self1 /\
                  delete_tokens self' !! page_name = None) \/
  (exists tokens token,
     (tokens ∪ delete_tokens self) !! page_name = Some token /\
     fst (get_tokens transport "delete" page_name self) = Ok tokens /\
     self' = posted transport (update_delete_tokens tokens self1)
               (legacy_delete_request (api_url self) page_name reason token)).
Proof.
  intros H query self1 self'. subst self'. unfold delete_page. cbv zeta.
  rewrite bind_gets, H.
  destruct (get_tokens transport "delete" page_name self) as [[tokens|e] s1] eqn:Hget;
    pose proof (get_tokens_state _ _ _ _ _ Hget) as ->; fold query; fold self1.
  - erewrite bind_ok; cycle 1.
    { rewrite fetch_stage, Hget by (apply bool_decide_eq_false_2; by intros [? ?]).
      reflexivity. }
    fold query; fold self1.
    destruct (delete_tokens (update_delete_tokens tokens self1) !! page_name) as [token|] eqn:Hc.
    + right; right. exists tokens, token. split; [exact Hc|]. split; [done|].
      erewrite bind_ok; cycle 1.
      { unfold lift_result, cached. rewrite Hc. reflexivity. }
      rewrite delete_post. reflexivity.
    + right; left. exists tokens.
      erewrite bind_raise; cycle 1.
      { unfold lift_result, cached. rewrite Hc. reflexivity. }
      split; [done|exact Hc].
  - left. erewrite bind_raise; [reflexivity|].
    rewrite fetch_stage, Hget by (apply bool_decide_eq_false_2; by intros [? ?]).
    reflexivity.
Qed.

Lemma delete_page_fetched self page_name reason r srv token :
  delete_tokens self !! page_name = None ->
  transport (server (session self)) (tokens_request (api_url self) "delete" page_name)
    = (r, srv) ->
  tokens_reply "delete" page_name token r ->
  snd (delete_page transport page_name reason self)
  = posted transport
      (update_delete_tokens {[page_name := token]}
         (posted transport self (tokens_request (api_url self) "delete" page_name)))
      (legacy_delete_request (api_url self) page_name reason token).
Proof.
  intros H Ht Hreply.
  pose proof (get_tokens_ok _ _ _ _ _ _ Ht Hreply) as Hget.
  unfold delete_page. cbv zeta. rewrite bind_gets, H.
  erewrite bind_ok; cycle 1.
  { rewrite fetch_stage, Hget by (apply bool_decide_eq_false_2; by intros [? ?]).
    reflexivity. }
  erewrite bind_ok; cycle 1.
  { unfold lift_result, cached. simpl delete_tokens.
    rewrite lookup_union_l', lookup_singleton_eq
      by (rewrite lookup_singleton_eq; eauto). reflexivity. }
  rewrite delete_post. reflexivity.
Qed.

Lemma edit_token_scoping self a b text1 text2 text3 summary1 summary2 summary3 :
  serves_tokens transport ->
  a <> b ->
  edit_tokens self !! a = None ->
  edit_tokens self !! b = None ->
  exists token_a token_b,
    issued self (snd (run_calls (legacy_call transport)
                   [EditPage a text1 summary1; EditPage b text2 summary2;
                    EditPage a text3 summary3] self))
    = [tokens_request (api_url self) "edit" a;
       legacy_edit_request (api_url self) a text1 summary1 token_a;
       tokens_request (api_url self) "edit" b;
       legacy_edit_request (api_url self) b text2 summary2 token_b;
       legacy_edit_request (api_url self) a text3 summary3 token_a].
Proof.
  intros Hserve Hab Ha Hb.
  rewrite !run_calls_cons. unfold run_calls. unfold legacy_call.
  destruct (Hserve (server (session self)) (api_url self) "edit" a) as [token_a Hra].
  rewrite (edit_page_fetched self a text1 summary1 _ _ token_a Ha
             (surjective_pairing _) Hra).
  set (self1 := posted transport (update_edit_tokens _ _) _).
  assert (edit_tokens self1 !! b = None) as Hb1.
  { subst self1. simpl. rewrite lookup_union_r by (by rewrite lookup_singleton_ne). done. }
  assert (edit_tokens self1 !! a = Some token_a) as Ha1.
  { subst self1. simpl. rewrite lookup_union_l' by (rewrite lookup_singleton_eq; eauto).
    by rewrite lookup_singleton_eq. }
  destruct (Hserve (server (session self1)) (api_url self1) "edit" b) as [token_b Hrb].
  rewrite (edit_page_fetched self1 b text2 summary2 _ _ token_b Hb1
             (surjective_pairing _) Hrb).
  set (self2 := posted transport (update_edit_tokens _ _) _).
  assert (edit_tokens self2 !! a = Some token_a) as Ha2.
  { subst self2. simpl. rewrite lookup_union_r by (by rewrite lookup_singleton_ne). done. }
  rewrite (edit_page_cached self2 a text3 summary3 token_a Ha2).
  exists token_a, token_b. apply issued_app. simpl.
  rewrite <- !app_assoc. reflexivity.
Qed.

Lemma delete_token_scoping self a b reason1 reason2 reason3 :
  serves_tokens transport ->
  a <> b ->
  delete_tokens self !! a = None ->
  delete_tokens self !! b = None ->
  exists token_a token_b,
    issued self (snd (run_calls (legacy_call transport)
                   [DeletePage a reason1; DeletePage b reason2;
                    DeletePage a reason3] self))
    = [tokens_request (api_url self) "delete" a;
       legacy_delete_request (api_url self) a reason1 token_a;
       tokens_request (api_url self) "delete" b;
       legacy_delete_request (api_url self) b reason2 token_b;
       legacy_delete_request (api_url self) a reason3 token_a].
Proof.
  intros Hserve Hab Ha Hb.
  rewrite !run_calls_cons. unfold run_calls. unfold legacy_call.
  destruct (Hserve (server (session self)) (api_url self) "delete" a) as [token_a Hra].
  rewrite (delete_page_fetched self a reason1 _ _ token_a Ha
             (surjective_pairing _) Hra).
  set (self1 := posted transport (update_delete_tokens _ _) _).
  assert (delete_tokens self1 !! b = None) as Hb1.
  { subst self1. simpl. rewrite lookup_union_r by (by rewrite lookup_singleton_ne). done. }
  assert (delete_tokens self1 !! a = Some token_a) as Ha1.
  { subst self1. simpl. rewrite lookup_union_l' by (rewrite lookup_singleton_eq; eauto).
    by rewrite lookup_singleton_eq. }
  destruct (Hserve (server (session self1)) (api_url self1) "delete" b) as [token_b Hrb].
  rewrite (delete_page_fetched self1 b reason2 _ _ token_b Hb1
             (surjective_pairing _) Hrb).
  set (self2 := posted transport (update_delete_tokens _ _) _).
  assert (delete_tokens self2 !! a = Some token_a) as Ha2.
  { subst self2. simpl. rewrite lookup_union_r by (by rewrite lookup_singleton_ne). done. }
  rewrite (delete_page_cached self2 a reason3 token_a Ha2).
  exists token_a, token_b. apply issued_app. simpl.
  rewrite <- !app_assoc. reflexivity.
Qed.


Lemma request_token_edit url page_name text summary token :
  req_data (legacy_edit_request url page_name text summary token) !! "token"
  = Some (VTuple [token]).
Proof. unfold legacy_edit_request. simpl. apply lookup_insert_eq. Qed.

Lemma request_token_delete url page_name reason token :
  req_data (legacy_delete_request url page_name reason token) !! "token"
  = Some (VTuple [token]).
Proof. unfold legacy_delete_request. simpl. apply lookup_insert_eq. Qed.

Lemma edit_requests_wrapped self page_name text summary req :
  let after := snd (edit_page transport page_name text summary self) in
  req ∈ issued self after -> req_data req <> ∅ ->
  exists token,
    edit_tokens after !! page_name = Some token /\
    req = legacy_edit_request (api_url self) page_name text summary token.
Proof.
  intros after Hin Hbody. subst after.
  destruct (edit_tokens self !! page_name) as [token|] eqn:Hc.
  - rewrite (edit_page_cached _ _ _ _ _ Hc) in *.
    erewrite issued_app in Hin by reflexivity.
    apply list_elem_of_singleton in Hin as ->. by exists token.
  - destruct (edit_page_uncached self page_name text summary Hc)
      as [Hs | [(tokens & Hs & _) | (tokens & token & Hl & _ & Hs)]];
      rewrite Hs in *.
    + erewrite issued_app in Hin by reflexivity.
      apply list_elem_of_singleton in Hin as ->. done.
    + erewrite issued_app in Hin by reflexivity.
      apply list_elem_of_singleton in Hin as ->. done.
    + erewrite issued_app in Hin by (simpl; rewrite <- app_assoc; reflexivity).
      apply elem_of_cons in Hin as [-> | Hin]; [done|].
      apply list_elem_of_singleton in Hin as ->. by exists token.
Qed.

Lemma delete_requests_wrapped self page_name reason req :
  let after := snd (delete_page transport page_name reason self) in
  req ∈ issued self after -> req_data req <> ∅ ->
  exists token,
    delete_tokens after !! page_name = Some token /\
    req = legacy_delete_request (api_url self) page_name reason token.
Proof.
  intros after Hin Hbody. subst after.
  destruct (delete_tokens self !! page_name) as [token|] eqn:Hc.
  - rewrite (delete_page_cached _ _ _ _ Hc) in *.
    erewrite issued_app in Hin by reflexivity.
    apply list_elem_of_singleton in Hin as ->. by exists token.
  - destruct (delete_page_uncached self page_name reason Hc)
      as [Hs | [(tokens & Hs & _) | (tokens & token & Hl & _ & Hs)]];
      rewrite Hs in *.
    + erewrite issued_app in Hin by reflexivity.
      apply list_elem_of_singleton in Hin as ->. done.
    + erewrite issued_app in Hin by reflexivity.
      apply list_elem_of_singleton in Hin as ->. done.
    + erewrite issued_app in Hin by (simpl; rewrite <- app_assoc; reflexivity).
      apply elem_of_cons in Hin as [-> | Hin]; [done|].
      apply list_elem_of_singleton in Hin as ->. by exists token.
Qed.

(** C9. The legacy [edit_page] and [delete_page] send their token inside a
    one-element tuple.  With a token cached for the page the call issues
    one request, the POST whose [token] parameter is the tuple around the
    cached token; without one, on a token answer for the page, it issues
    the token query and then that POST with the tuple around the token it
    has just fetched and cached.  No call issues any other request with a
    form body, and the tuple is never the token itself. *)
Theorem legacy_token_is_wrapped self page_name text summary reason :
  let url := api_url self in
  let after_edit := snd (edit_page transport page_name text summary self) in
  let after_delete := snd (delete_page transport page_name reason self) in
  (forall token,
     edit_tokens self !! page_name = Some token ->
     issued self after_edit = [legacy_edit_request url page_name text summary token]) /\
  (forall token,
     delete_tokens self !! page_name = Some token ->
     issued self after_delete = [legacy_delete_request url page_name reason token]) /\
  (forall token r srv,
     edit_tokens self !! page_name = None ->
     transport (server (session self)) (tokens_request url "edit" page_name) = (r, srv) ->
     tokens_reply "edit" page_name token r ->
     edit_tokens after_edit !! page_name = Some token /\
     issued self after_edit
     = [tokens_request url "edit" page_name;
        legacy_edit_request url page_name text summary token]) /\
  (forall token r srv,
     delete_tokens self !! page_name = None ->
     transport (server (session self)) (tokens_request url "delete" page_name) = (r, srv) ->
     tokens_reply "delete" page_name token r ->
     delete_tokens after_delete !! page_name = Some token /\
     issued self after_delete
     = [tokens_request url "delete" page_name;
        legacy_delete_request url page_name reason token]) /\
  (forall req, req ∈ issued self after_edit -> req_data req <> ∅ ->
     exists token,
       edit_tokens after_edit !! page_name = Some token /\
       req = legacy_edit_request url page_name text summary token) /\
  (forall req, req ∈ issued self after_delete -> req_data req <> ∅ ->
     exists token,
       delete_tokens after_delete !! page_name = Some token /\
       req = legacy_delete_request url page_name reason token) /\
  (forall token,
     let edit := legacy_edit_request url page_name text summary token in
     let delete := legacy_delete_request url page_name reason token in
     req_method edit = POST /\ req_method delete = POST /\
     req_data edit !! "token" = Some (VTuple [token]) /\
     req_data delete !! "token" = Some (VTuple [token]) /\
     VTuple [token] <> token).
Proof.
  intros url after_edit after_delete. subst after_edit after_delete.
  split; [|split; [|split; [|split; [|split; [|split]]]]].
  - intros token Hc. rewrite (edit_page_cached _ _ _ _ _ Hc).
    by apply issued_app.
  - intros token Hc. rewrite (delete_page_cached _ _ _ _ Hc).
    by apply issued_app.
  - intros token r srv Hc Ht Hreply.
    rewrite (edit_page_fetched _ _ _ _ _ _ _ Hc Ht Hreply). split.
    + simpl. rewrite lookup_union_l' by (rewrite lookup_singleton_eq; eauto).
      by rewrite lookup_singleton_eq.
    + apply issued_app. simpl. by rewrite <- app_assoc.
  - intros token r srv Hc Ht Hreply.
    rewrite (delete_page_fetched _ _ _ _ _ _ Hc Ht Hreply). split.
    + simpl. rewrite lookup_union_l' by (rewrite lookup_singleton_eq; eauto).
      by rewrite lookup_singleton_eq.
    + apply issued_app. simpl. by rewrite <- app_assoc.
  - apply edit_requests_wrapped.
  - apply delete_requests_wrapped.
  - intros token edit delete. subst edit delete.
    split; [done|]. split; [done|].
    split; [apply request_token_edit|].
    split; [apply request_token_delete | apply tuple_is_not_its_element].
Qed.
End Legacy_tokens.

Lemma length_append (s1 s2 : string) :
  String.length (s1 +:+ s2) = String.length s1 + String.length s2.
Proof. induction s1 as [|c s1 IH]; simpl; [done | by rewrite IH]. Qed.

Lemma token_desk_serves_tokens : serves_tokens token_desk.
Proof.
  intros [] url token_type title. exists (VStr ("token-of-" +:+ title)).
  assert (String.eqb "title" (token_type +:+ "token") = false) as Hne.
  { apply String.eqb_neq. intros H. pose proof (f_equal String.length H) as Hlen.
    rewrite length_append in Hlen. simpl in Hlen.
    destruct token_type; [discriminate | simpl in Hlen; lia]. }
  unfold tokens_reply, token_desk, tokens_request. simpl.
  eexists _, _, "1", (VDict [("title", VStr title); (token_type +:+ "token", _)]).
  repeat split; try reflexivity.
  simpl. rewrite String.eqb_sym, Hne, String.eqb_refl. reflexivity.
Qed.


(** A first edit and a first delete of A: each sends its token query and
    then the POST with the tuple around the token of the answer. *)
Lemma legacy_token_is_wrapped_witness :
  let self := MediaWikiAPI1_19.init "https://wiki" tt in
  let url := "https://wiki/api.php" in
  sent (session (snd (MediaWikiAPI1_19.edit_page token_desk "A" "text" None self)))
  = [tokens_request url "edit" "A";
     Request POST url ∅
       (<["token" := VTuple [VStr "token-of-A"]]> (
        <["action" := VStr "edit"]> (<["title" := VStr "A"]> (
        <["text" := VStr "text"]> (<["format" := VStr "json"]> ∅)))))] /\
  sent (session (snd (MediaWikiAPI1_19.delete_page token_desk "A" (Some "spam") self)))
  = [tokens_request url "delete" "A";
     Request POST url ∅
       (<["token" := VTuple [VStr "token-of-A"]]> (
        <["reason" := VStr "spam"]> (
        <["action" := VStr "delete"]> (<["title" := VStr "A"]> (
        <["format" := VStr "json"]> ∅)))))].
Proof.
  intros self url.
  destruct (legacy_token_is_wrapped token_desk self "A" "text" None (Some "spam"))
    as (_ & _ & Hedit & Hdelete & _).
  assert (forall token_type,
            token_type = "edit" \/ token_type = "delete" ->
            tokens_reply token_type "A" (VStr "token-of-A")
              (fst (token_desk tt (tokens_request url token_type "A")))) as Hreply.
  { intros token_type Htype.
    exists (VDict [("query", VDict [("pages", VDict [("1",
              VDict [("title", VStr "A");
                     (token_type +:+ "token", VStr "token-of-A")])])])]),
      (VDict [("pages", VDict [("1",
              VDict [("title", VStr "A");
                     (token_type +:+ "token", VStr "token-of-A")])])]),
      "1",
      (VDict [("title", VStr "A"); (token_type +:+ "token", VStr "token-of-A")]).
    destruct Htype as [-> | ->]; repeat split; reflexivity. }
  split.
  - exact (proj2 (Hedit (VStr "token-of-A") _ tt eq_refl eq_refl (Hreply "edit" (or_introl eq_refl)))).
  - exact (proj2 (Hdelete (VStr "token-of-A") _ tt eq_refl eq_refl (Hreply "delete" (or_intror eq_refl)))).
Defined.

(** ** Paging *)

(** ** Facts about strings in order *)
Lemma leb_refl (s : string) : String.leb s s = true.
Proof.
  pose proof (reflexivity (R := String.le) s) as H. unfold String.le in H.
  by apply Is_true_true.
Qed.

Lemma ltb_leb (s t : string) : String.ltb s t = true -> String.leb s t = true.
Proof. unfold String.ltb, String.leb. by destruct (String.compare s t). Qed.

Lemma ltb_not_leb (s t : string) : String.ltb s t = true -> String.leb t s = false.
Proof.
  unfold String.ltb, String.leb. rewrite (String.compare_antisym t s).
  by destruct (String.compare s t).
Qed.

Lemma from_cursor pre t post :
  Wiki.ascending (pre ++ t :: post) ->
  Wiki.from (pre ++ t :: post) (Some t) = t :: post.
Proof.
  unfold Wiki.ascending, Wiki.from. intros Hsorted.
  apply StronglySorted_app in Hsorted as (Hcross & _ & Htail).
  apply StronglySorted_cons in Htail as [Hpost _].
  rewrite List.filter_app.
  assert (Forall (fun x => String.ltb x t = true) pre) as Hpre.
  { apply Forall_forall. intros x Hx. apply Hcross; [done | left]. }
  assert (List.filter (String.leb t) pre = []) as ->.
  { clear -Hpre. induction Hpre as [|x pre Hx _ IH]; [done|]. simpl.
    by rewrite (ltb_not_leb _ _ Hx). }
  simpl. rewrite leb_refl. f_equal.
  clear -Hpost. induction Hpost as [|y post Hy _ IH]; [done|]. simpl.
  by rewrite (ltb_leb _ _ Hy), IH.
Qed.

Lemma merged_lookup params entries k v :
  assoc entries k = Some v -> merged params entries !! k = Some v.
Proof.
  induction entries as [|[k' v'] entries IH]; simpl; [done|].
  destruct (String.eqb k k') eqn:E.
  - apply String.eqb_eq in E as ->. intros [= ->]. apply lookup_insert_eq.
  - apply String.eqb_neq in E. intros H. rewrite lookup_insert_ne by done. auto.
Qed.

Lemma merged_lookup_other params entries k :
  assoc entries k = None -> merged params entries !! k = params !! k.
Proof.
  induction entries as [|[k' v'] entries IH]; simpl; [done|].
  destruct (String.eqb k k') eqn:E; [done|].
  apply String.eqb_neq in E. intros H. rewrite lookup_insert_ne by done. auto.
Qed.

Section Paging_facts.
Context {Server C : Type} `{!Client Server C}.
Variable transport : Server -> request -> response * Server.
Variable params : gmap string value.
Variable emit : value -> M (Gen C) unit.
Variable next_continue : value -> result (option value).
Implicit Types g : Gen C.

Lemma fetch_page_ok cursor g r srv data :
  transport (server (session g)) (page_request params g cursor) = (r, srv) ->
  accepted r data ->
  fetch_page transport params (VDict cursor) g
  = (Ok data, posted transport g (page_request params g cursor)).
Proof.
  intros Ht [[Hs Hj] He].
  unfold fetch_page, posted, session_get, send, check_status, check_error,
    dict_update, response_json, lift_result, ret, raise, bind.
  fold (page_request params g cursor). rewrite Ht, Hs, Hj. simpl. rewrite He. reflexivity.
Qed.

Lemma paged_loop_step n lc g :
  paged_loop transport params emit next_continue (S n) lc g
  = (let* data := fetch_page transport params lc in
     emit data >>
     let* next := lift_result (next_continue data) in
     match next with
     | None => ret Finished
     | Some cursor => paged_loop transport params emit next_continue n cursor
     end) g.
Proof. reflexivity. Qed.

Lemma sent_posted g req :
  sent (session (posted transport g req)) = sent (session g) ++ [req].
Proof. unfold posted. by rewrite session_with_session. Qed.

Lemma api_url_posted g req : api_url (posted transport g req) = api_url g.
Proof. unfold posted. by rewrite api_url_with_session. Qed.

End Paging_facts.

Lemma getitem_contains data k v : getitem data k = Ok v -> contains k data = Ok true.
Proof.
  destruct data; simpl; try discriminate.
  destruct (assoc entries k); [|discriminate]. intros _.
  by rewrite bool_decide_eq_true_2 by eauto.
Qed.

Lemma legacy_next_present name data qc next :
  getitem data "query-continue" = Ok qc -> getitem qc name = Ok next ->
  MediaWikiAPI1_19.next_continue name data = Ok (Some next).
Proof.
  intros Hqc Hnext. unfold MediaWikiAPI1_19.next_continue.
  by rewrite (getitem_contains _ _ _ Hqc), Hqc, Hnext.
Qed.

Lemma modern_next_present data next :
  getitem data "continue" = Ok next ->
  MediaWikiAPI1_31.next_continue data = Ok (Some next).
Proof.
  intros H. unfold MediaWikiAPI1_31.next_continue.
  by rewrite (getitem_contains _ _ _ H), H.
Qed.

(** ** What a page yields *)

Lemma assoc_set_entry k x entries : assoc (set_entry k x entries) k = Some x.
Proof.
  induction entries as [|[k' v] entries IH]; simpl.
  - by rewrite String.eqb_refl.
  - destruct (String.eqb k k') eqn:E; simpl.
    + by rewrite String.eqb_refl.
    + by rewrite E.
Qed.

Lemma assoc_set_entry_other k x entries k' :
  k' <> k -> assoc (set_entry k x entries) k' = assoc entries k'.
Proof.
  intros Hne. induction entries as [|[k0 v] entries IH]; simpl.
  - by rewrite (proj2 (String.eqb_neq k' k)).
  - destruct (String.eqb k k0) eqn:E; simpl.
    + apply String.eqb_eq in E as <-. by rewrite (proj2 (String.eqb_neq k' k)).
    + by rewrite IH.
Qed.

Lemma yield_revisions {C} title (revs : list (list (string * value))) : forall g : Gen C,
  for_each (map VDict revs)
    (fun revision =>
       let* revision' := lift_result (update_entry revision "title" title) in
       yield revision') g
  = (Ok tt, {| gen_self := gen_self g;
               yielded := yielded g ++ map (titled title) revs |}).
Proof.
  induction revs as [|rev revs IH]; intros g; simpl.
  - rewrite app_nil_r. by destruct g.
  - unfold bind at 1. unfold bind at 1. simpl. rewrite IH. simpl.
    by rewrite <- app_assoc.
Qed.

Lemma yield_deleted {C} (items : list value) pages :
  Forall2 (fun item page =>
             getitem item "title" = Ok (fst page) /\
             getitem item "revisions" = Ok (VList (map VDict (snd page))))
          items pages ->
  forall g : Gen C,
    for_each items
      (fun deletedrev_data =>
         let* title := lift_result (getitem deletedrev_data "title") in
         let* revisions := lift_result (getitem deletedrev_data "revisions") in
         let* revs := lift_result (iterate revisions) in
         for_each revs (fun revision =>
           let* revision' := lift_result (update_entry revision "title" title) in
           yield revision')) g
    = (Ok tt, {| gen_self := gen_self g;
                 yielded := yielded g ++ deleted_revisions pages |}).
Proof.
  induction 1 as [|item page items pages [Ht Hr] _ IH]; intros g; simpl.
  - unfold deleted_revisions. simpl. rewrite app_nil_r. by destruct g.
  - unfold bind at 1.
    rewrite (bind_lift_ok _ _ _ _ Ht), (bind_lift_ok _ _ _ _ Hr).
    rewrite (bind_lift_ok (iterate (VList (map VDict (snd page)))) _ _ _ eq_refl).
    rewrite yield_revisions, IH. unfold deleted_revisions. simpl.
    by rewrite <- app_assoc.
Qed.

Lemma emit_deletedrevs_pages {C} (data query : value) items pages (g : Gen C) :
  getitem data "query" = Ok query ->
  getitem query "deletedrevs" = Ok (VList items) ->
  Forall2 (fun item page =>
             getitem item "title" = Ok (fst page) /\
             getitem item "revisions" = Ok (VList (map VDict (snd page))))
          items pages ->
  emit_deletedrevs data g
  = (Ok tt, {| gen_self := gen_self g;
               yielded := yielded g ++ deleted_revisions pages |}) /\
  (forall title revision,
     getitem (titled title revision) "title" = Ok title /\
     (forall k, k <> "title" ->
                getitem (titled title revision) k = getitem (VDict revision) k)).
Proof.
  intros Hq Hd Hitems. split.
  - unfold emit_deletedrevs.
    rewrite (bind_lift_ok _ _ _ _ Hq), (bind_lift_ok _ _ _ _ Hd).
    rewrite (bind_lift_ok (iterate (VList items)) _ _ _ eq_refl).
    by apply yield_deleted.
  - intros title revision. unfold titled. simpl. split.
    + by rewrite assoc_set_entry.
    + intros k Hk. by rewrite assoc_set_entry_other.
Qed.

Lemma yield_images {C} (items : list value) images :
  Forall2 (fun item image =>
             getitem item "title" = Ok (fst image) /\
             getitem item "url" = Ok (snd image)) items images ->
  forall g : Gen C,
    for_each items
      (fun image_data =>
         let* title := lift_result (getitem image_data "title") in
         let* url := lift_result (getitem image_data "url") in
         yield (VDict [("title", title); ("url", url)])) g
    = (Ok tt, {| gen_self := gen_self g;
                 yielded := yielded g ++ image_records images |}).
Proof.
  induction 1 as [|item image items images [Ht Hu] _ IH]; intros g; simpl.
  - rewrite app_nil_r. by destruct g.
  - unfold bind at 1.
    rewrite (bind_lift_ok _ _ _ _ Ht), (bind_lift_ok _ _ _ _ Hu).
    unfold yield at 1. rewrite IH. simpl. by rewrite <- app_assoc.
Qed.

Lemma emit_images_records {C} (data query : value) items images (g : Gen C) :
  getitem data "query" = Ok query ->
  getitem query "allimages" = Ok (VList items) ->
  Forall2 (fun item image =>
             getitem item "title" = Ok (fst image) /\
             getitem item "url" = Ok (snd image)) items images ->
  emit_images data g
  = (Ok tt, {| gen_self := gen_self g; yielded := yielded g ++ image_records images |}).
Proof.
  intros Hq Hd Hitems. unfold emit_images.
  rewrite (bind_lift_ok _ _ _ _ Hq), (bind_lift_ok _ _ _ _ Hd).
  rewrite (bind_lift_ok (iterate (VList items)) _ _ _ eq_refl).
  by apply yield_images.
Qed.

Lemma yield_all_titles {C} (items titles : list value) :
  Forall2 (fun item title => getitem item "title" = Ok title) items titles ->
  forall g : Gen C,
    for_each items
      (fun page_data =>
         let* title := lift_result (getitem page_data "title") in yield title) g
    = (Ok tt, {| gen_self := gen_self g; yielded := yielded g ++ titles |}).
Proof.
  induction 1 as [|item title items titles Hitem _ IH]; intros g; simpl.
  - rewrite app_nil_r. by destruct g.
  - unfold bind at 1. rewrite (bind_lift_ok _ _ _ _ Hitem).
    unfold yield at 1. rewrite IH. simpl. by rewrite <- app_assoc.
Qed.

Lemma legacy_next_none name data :
  contains "query-continue" data = Ok false ->
  MediaWikiAPI1_19.next_continue name data = Ok None.
Proof. intros H. unfold MediaWikiAPI1_19.next_continue. by rewrite H. Qed.

Lemma modern_next_none data :
  contains "continue" data = Ok false ->
  MediaWikiAPI1_31.next_continue data = Ok None.
Proof. intros H. unfold MediaWikiAPI1_31.next_continue. by rewrite H. Qed.

Section Continuation.
Context {Server C : Type} `{!Client Server C}.
Variable transport : Server -> request -> response * Server.
Variable params : gmap string value.
Variable emit : value -> M (Gen C) unit.
Implicit Types g : Gen C.

Lemma loop_finishes next_continue n cursor g r srv data g2 :
  transport (server (session g)) (page_request params g cursor) = (r, srv) ->
  accepted r data ->
  emit data (posted transport g (page_request params g cursor)) = (Ok tt, g2) ->
  next_continue data = Ok None ->
  paged_loop transport params emit next_continue (S n) (VDict cursor) g
  = (Ok Finished, g2).
Proof.
  intros Ht Hacc Hemit Hnext.
  rewrite paged_loop_step.
  rewrite (bind_ok _ _ _ _ _ (fetch_page_ok _ _ _ _ _ _ _ Ht Hacc)).
  rewrite (bind_ok _ _ _ _ _ Hemit).
  by rewrite (bind_lift_ok _ _ _ _ Hnext).
Qed.

End Continuation.

(** ** The continuation loop of the paged operations *)

Lemma merged_union params entries : merged params entries = list_to_map entries ∪ params.
Proof.
  induction entries as [|[k v] entries IH]; simpl.
  - by rewrite (left_id_L ∅ (∪)).
  - by rewrite IH, insert_union_l.
Qed.

Lemma listing_request_params url op cursor k :
  req_params (listing_request url op cursor) !! k
  = match assoc cursor k with
    | Some v => Some v
    | None => base_params op !! k
    end.
Proof.
  unfold listing_request. simpl. rewrite <- merged_union.
  destruct (assoc cursor k) as [v|] eqn:E.
  - by apply merged_lookup.
  - by apply merged_lookup_other.
Qed.

Lemma emit_titles_items {C} name (data query : value) entries items (g : Gen C) :
  getitem data "query" = Ok query ->
  getitem query name = Ok (VList entries) ->
  Forall2 (fun entry title => getitem entry "title" = Ok title) entries items ->
  emit_titles name data g
  = (Ok tt, {| gen_self := gen_self g; yielded := yielded g ++ items |}).
Proof.
  intros Hq Hl Hitems. unfold emit_titles.
  rewrite (bind_lift_ok _ _ _ _ Hq), (bind_lift_ok _ _ _ _ Hl).
  rewrite (bind_lift_ok (iterate (VList entries)) _ _ _ eq_refl).
  by apply yield_all_titles.
Qed.

Lemma emit_page_items {C} op data items (g : Gen C) :
  page_items op data items ->
  emit_of op data g
  = (Ok tt, {| gen_self := gen_self g; yielded := yielded g ++ items |}).
Proof.
  intros (query & entries & Hq & Hl & Hitems).
  destruct op; simpl in *.
  - destruct Hitems as (images & Himages & ->). by eapply emit_images_records.
  - by eapply emit_titles_items.
  - by eapply emit_titles_items.
  - destruct Hitems as (deleted & Hdeleted & ->).
    by eapply emit_deletedrevs_pages.
Qed.

Lemma legacy_paged_loop {Server} (transport : Server -> request -> response * Server)
  op pulls :
  paged_on_legacy op ->
  legacy_paged transport op pulls
  = paged_loop transport (base_params op) (emit_of op)
      (MediaWikiAPI1_19.next_continue (list_name op)) pulls (VDict []).
Proof. by destruct op. Qed.

Lemma modern_paged_loop {Server} (transport : Server -> request -> response * Server)
  op pulls :
  modern_paged transport op pulls
  = paged_loop transport (base_params op) (emit_of op)
      MediaWikiAPI1_31.next_continue pulls (VDict []).
Proof. by destruct op. Qed.

Lemma legacy_stop_next op data e :
  legacy_stop op data e ->
  (MediaWikiAPI1_19.next_continue (list_name op) data = Ok None /\ e = Exhausted) \/
  (exists err, MediaWikiAPI1_19.next_continue (list_name op) data = Raise err /\
               e = Raised err).
Proof.
  unfold MediaWikiAPI1_19.next_continue.
  intros [[-> ->] | (qc & err & Hqc & Hname & ->)]; [by left|].
  right. exists err. by rewrite (getitem_contains _ _ _ Hqc), Hqc, Hname.
Qed.

Section Paged_run.
Context {Server C : Type} `{!Client Server C}.
Variable transport : Server -> request -> response * Server.
Variable op : paged_operation.
Variable next_continue : value -> result (option value).
Variable url : string.
Variables (last : value) (last_items : list value) (stop : result completion).
Implicit Types g : Gen C.

Hypothesis last_page : page_items op last last_items.
Hypothesis last_next :
  (next_continue last = Ok None /\ stop = Ok Finished) \/
  (exists err, next_continue last = Raise err /\ stop = Raise err).

Lemma page_request_listing g cursor :
  api_url g = url ->
  page_request (base_params op) g cursor = listing_request url op cursor.
Proof. intros <-. unfold page_request, listing_request. by rewrite merged_union. Qed.

(** The loop from any cursor on: it sends one request per page it is asked
    for, each with the cursor of the page before, and stops at the page
    without cursor. *)
Lemma paged_run pages : forall pulls cursor g,
  api_url g = url ->
  Forall (fun p => page_items op (page_body p) (page_yield p)) pages ->
  Forall (fun p => next_continue (page_body p) = Ok (Some (VDict (page_cursor p))))
         pages ->
  answers_in_turn transport (server (session g))
    (map (listing_request url op) (cursor :: map page_cursor pages))
    (map page_body pages ++ [last]) ->
  exists g',
    paged_loop transport (base_params op) (emit_of op) next_continue pulls
      (VDict cursor) g
    = (if length pages <? pulls then stop else Ok Suspended, g') /\
    yielded g'
    = yielded g ++ concat (take pulls (map page_yield pages ++ [last_items])) /\
    sent (session g')
    = sent (session g)
      ++ take pulls (map (listing_request url op) (cursor :: map page_cursor pages)).
Proof.
  induction pages as [|p pages IH]; intros pulls cursor g Hurl Hitems Hnext Hanswers.
  - destruct pulls as [|n].
    + exists g. simpl. by rewrite !app_nil_r.
    + simpl in Hanswers. destruct Hanswers as [Hacc _].
      rewrite <- (page_request_listing g cursor Hurl) in Hacc.
      rewrite paged_loop_step.
      rewrite (bind_ok _ _ _ _ _
                 (fetch_page_ok transport _ _ _ _ _ _ (surjective_pairing _) Hacc)).
      rewrite (bind_ok _ _ _ _ _ (emit_page_items op last last_items _ last_page)).
      destruct last_next as [[Hn ->] | (err & Hn & ->)];
        [rewrite (bind_lift_ok _ _ _ _ Hn) | rewrite (bind_lift_raise _ _ _ _ Hn)];
        (eexists; split; [reflexivity|]; split;
         [simpl; rewrite take_nil; simpl; by rewrite app_nil_r
         |simpl; rewrite take_nil, <- (page_request_listing g cursor Hurl);
          apply (sent_posted transport)]).
  - destruct pulls as [|n].
    + exists g. simpl. by rewrite !app_nil_r.
    + apply Forall_cons in Hitems as [Hp Hitems].
      apply Forall_cons in Hnext as [Hc Hnext].
      simpl in Hanswers. destruct Hanswers as [Hacc Hrest].
      rewrite <- (page_request_listing g cursor Hurl) in Hacc, Hrest.
      rewrite paged_loop_step.
      rewrite (bind_ok _ _ _ _ _
                 (fetch_page_ok transport _ _ _ _ _ _ (surjective_pairing _) Hacc)).
      rewrite (bind_ok _ _ _ _ _ (emit_page_items op _ _ _ Hp)).
      rewrite (bind_lift_ok _ _ _ _ Hc).
      set (g1 := posted transport g (page_request (base_params op) g cursor)).
      set (g2 := {| gen_self := gen_self g1; yielded := yielded g1 ++ page_yield p |}).
      destruct (IH n (page_cursor p) g2) as (g' & Hrun & Hyield & Hsent);
        [| done | done | |].
      { change (api_url g2) with (api_url g1). subst g1.
        by rewrite (api_url_posted transport). }
      { change (session g2) with (session g1). subst g1. unfold posted.
        by rewrite session_with_session. }
      exists g'. split; [exact Hrun|]. split.
      * rewrite Hyield. simpl. by rewrite <- app_assoc.
      * rewrite Hsent.
        change (session g2) with (session g1). subst g1.
        rewrite (sent_posted transport), (page_request_listing g cursor Hurl).
        simpl. by rewrite <- app_assoc.
Qed.
End Paged_run.




(** ** Listing a wiki page by page *)

Lemma ceil_div_small n l : 1 <= l -> n <= l -> Nat.max 1 (ceil_div n l) = 1.
Proof.
  intros Hl Hn. unfold ceil_div.
  assert ((n + l - 1) / l < 2); [|lia].
  apply Nat.Div0.div_lt_upper_bound. lia.
Qed.

Lemma ceil_div_step n l :
  1 <= l -> l < n ->
  Nat.max 1 (ceil_div n l) = S (Nat.max 1 (ceil_div (n - l) l)).
Proof.
  intros Hl Hn. unfold ceil_div.
  replace (n + l - 1) with ((n - l + l - 1) + 1 * l) by lia.
  rewrite Nat.div_add by lia.
  assert (1 <= (n - l + l - 1) / l); [|lia].
  apply Nat.div_le_lower_bound; lia.
Qed.

Lemma ceil_div_positive n l : 1 <= l -> 1 <= n -> Nat.max 1 (ceil_div n l) = ceil_div n l.
Proof.
  intros Hl Hn. unfold ceil_div.
  assert (1 <= (n + l - 1) / l); [|lia].
  apply Nat.div_le_lower_bound; lia.
Qed.

Lemma yield_titles {C} (titles : list string) : forall g : Gen C,
  for_each (map Wiki.page_entry titles)
    (fun page_data =>
       let* title := lift_result (getitem page_data "title") in yield title) g
  = (Ok tt, {| gen_self := gen_self g; yielded := yielded g ++ map VStr titles |}).
Proof.
  induction titles as [|t titles IH]; intros g; simpl.
  - rewrite app_nil_r. by destruct g.
  - unfold bind at 1. unfold bind at 1. simpl. rewrite IH. simpl.
    by rewrite <- app_assoc.
Qed.

Lemma emit_titles_body {C} continuation listing limit (g : Gen C) :
  emit_titles "allpages" (Wiki.body continuation listing limit) g
  = (Ok tt, {| gen_self := gen_self g;
               yielded := yielded g ++ map VStr (take limit listing) |}).
Proof. unfold emit_titles, bind. simpl. apply yield_titles. Qed.

Section Listing.
Context {C : Type} `{!Client (list string) C}.
Variable transport : list string -> request -> response * list string.
Variable params : gmap string value.
Variable next_continue : value -> result (option value).
Variable continuation : list string -> list (string * value).
Variable cursor_of : string -> list (string * value).
Variable titles : list string.
Variable limit : nat.
Implicit Types g : Gen C.

Hypothesis first_page_reply : forall g,
  transport titles (page_request params g [])
  = (Wiki.reply continuation titles limit, titles).
Hypothesis next_page_reply : forall g t,
  transport titles (page_request params g (cursor_of t))
  = (Wiki.reply continuation (Wiki.from titles (Some t)) limit, titles).
Hypothesis next_of_body : forall listing,
  next_continue (Wiki.body continuation listing limit)
  = Ok (match drop limit listing with
        | [] => None
        | t :: _ => Some (VDict (cursor_of t))
        end).
Hypothesis body_without_error : forall listing,
  contains "error" (Wiki.body continuation listing limit) = Ok false.
Hypothesis titles_ascending : Wiki.ascending titles.
Hypothesis limit_positive : 1 <= limit.

Lemma reply_at_cursor cursor rest g :
  at_cursor titles cursor_of cursor rest ->
  transport titles (page_request params g cursor)
  = (Wiki.reply continuation rest limit, titles).
Proof.
  intros [[-> ->] | (t & rest' & -> & -> & pre & Hpre)]; [apply first_page_reply|].
  rewrite next_page_reply. do 2 f_equal.
  revert titles_ascending. rewrite Hpre. apply from_cursor.
Qed.

Lemma listing_loop pulls : forall rest cursor g,
  server (session g) = titles ->
  at_cursor titles cursor_of cursor rest ->
  Nat.max 1 (ceil_div (length rest) limit) <= pulls ->
  exists g',
    paged_loop transport params (emit_titles "allpages") next_continue pulls
      (VDict cursor) g = (Ok Finished, g') /\
    yielded g' = yielded g ++ map VStr rest /\
    length (sent (session g'))
    = length (sent (session g)) + Nat.max 1 (ceil_div (length rest) limit).
Proof.
  induction pulls as [|pulls IH]; intros rest cursor g Hsrv Hcur Hpulls; [lia|].
  pose proof (reply_at_cursor cursor rest g Hcur) as Ht. rewrite <- Hsrv in Ht at 1.
  assert (accepted (Wiki.reply continuation rest limit)
            (Wiki.body continuation rest limit)) as Hacc.
  { repeat split. apply body_without_error. }
  rewrite paged_loop_step.
  rewrite (bind_ok _ _ _ _ _ (fetch_page_ok _ _ _ _ _ _ _ Ht Hacc)).
  rewrite (bind_ok _ _ _ _ _ (emit_titles_body _ _ _ _)).
  rewrite (bind_lift_ok _ _ _ _ (next_of_body rest)).
  set (g2 := {| gen_self := gen_self (posted transport g _); yielded := _ |}).
  assert (sent (session g2) = sent (session g) ++ [page_request params g cursor]) as Hsent.
  { subst g2. apply (sent_posted transport). }
  destruct (drop limit rest) as [|t more] eqn:Hdrop.
  - apply drop_nil_inv in Hdrop.
    exists g2. split; [done|]. split.
    + subst g2. simpl. by rewrite take_ge.
    + rewrite Hsent, length_app, ceil_div_small by done. done.
  - assert (limit < length rest) as Hlong.
    { destruct (decide (limit < length rest)); [done|].
      rewrite drop_ge in Hdrop by lia. done. }
    destruct (IH (t :: more) (cursor_of t) g2) as (g' & Hloop & Hyield & Hlen).
    + change (server (session (posted transport g (page_request params g cursor)))
              = titles).
      unfold posted. by rewrite session_with_session, Ht.
    + right. exists t, more. split; [done|]. split; [done|].
      destruct Hcur as [[_ ->] | (_ & _ & _ & _ & pre & ->)].
      * exists (take limit titles). by rewrite <- Hdrop, take_drop.
      * exists (pre ++ take limit rest). by rewrite <- Hdrop, <- app_assoc, take_drop.
    + rewrite <- Hdrop, length_drop.
      rewrite ceil_div_step in Hpulls by done. lia.
    + exists g'. split; [done|]. split.
      * rewrite Hyield. subst g2. cbn [yielded].
        by rewrite <- app_assoc, <- map_app, <- Hdrop, take_drop.
      * rewrite Hlen, Hsent, length_app, <- Hdrop, length_drop,
          (ceil_div_step (length rest)) by done.
        simpl. lia.
Qed.
End Listing.

Lemma legacy_first_page_reply {C} `{!Client (list string) C} titles namespace limit mode (g : C) :
  Wiki.legacy titles (page_request (page_list_params namespace limit mode) g [])
  = (Wiki.reply Wiki.legacy_continue titles (Z.to_nat limit), titles).
Proof. reflexivity. Qed.

Lemma legacy_next_page_reply {C} `{!Client (list string) C} titles namespace limit mode (g : C) t :
  Wiki.legacy titles (page_request (page_list_params namespace limit mode) g (legacy_cursor t))
  = (Wiki.reply Wiki.legacy_continue (Wiki.from titles (Some t)) (Z.to_nat limit), titles).
Proof. reflexivity. Qed.

Lemma modern_first_page_reply {C} `{!Client (list string) C} titles namespace limit mode (g : C) :
  Wiki.modern titles (page_request (page_list_params namespace limit mode) g [])
  = (Wiki.reply Wiki.modern_continue titles (Z.to_nat limit), titles).
Proof. reflexivity. Qed.

Lemma modern_next_page_reply {C} `{!Client (list string) C} titles namespace limit mode (g : C) t :
  Wiki.modern titles (page_request (page_list_params namespace limit mode) g (modern_cursor t))
  = (Wiki.reply Wiki.modern_continue (Wiki.from titles (Some t)) (Z.to_nat limit), titles).
Proof. reflexivity. Qed.

Lemma legacy_next_of_body listing limit :
  MediaWikiAPI1_19.next_continue "allpages" (Wiki.body Wiki.legacy_continue listing limit)
  = Ok (match drop limit listing with
        | [] => None
        | t :: _ => Some (VDict (legacy_cursor t))
        end).
Proof. unfold Wiki.body. by destruct (drop limit listing). Qed.

Lemma modern_next_of_body listing limit :
  MediaWikiAPI1_31.next_continue (Wiki.body Wiki.modern_continue listing limit)
  = Ok (match drop limit listing with
        | [] => None
        | t :: _ => Some (VDict (modern_cursor t))
        end).
Proof. unfold Wiki.body. by destruct (drop limit listing). Qed.

Lemma legacy_body_without_error listing limit :
  contains "error" (Wiki.body Wiki.legacy_continue listing limit) = Ok false.
Proof. unfold Wiki.body. by destruct (drop limit listing). Qed.

Lemma modern_body_without_error listing limit :
  contains "error" (Wiki.body Wiki.modern_continue listing limit) = Ok false.
Proof. unfold Wiki.body. by destruct (drop limit listing). Qed.

(** C1, with the request count of the empty wiki put right.  Against a wiki that serves its titles in strictly
    ascending order, for a page size of at least one: the consumer of
    [get_page_list] receives exactly the titles of the wiki, each once and
    in ascending order, and the generator is exhausted after
    [max 1 (ceil_div N limit)] requests, on the legacy and on the modern
    client alike.  For a wiki with at least one title that number is
    [ceil_div N limit]. *)
Theorem pagination_complete titles limit pulls :
  Wiki.ascending titles ->
  (1 <= limit)%Z ->
  let requests := Nat.max 1 (ceil_div (length titles) (Z.to_nat limit)) in
  requests <= pulls ->
  legacy_listing titles limit pulls = (map VStr titles, Exhausted, requests) /\
  modern_listing titles limit pulls = (map VStr titles, Exhausted, requests) /\
  (titles <> [] -> requests = ceil_div (length titles) (Z.to_nat limit)).
Proof.
  intros Hasc Hlimit requests Hpulls.
  assert (1 <= Z.to_nat limit) as Hl by lia.
  split; [|split].
  - unfold legacy_listing, consume, MediaWikiAPI1_19.get_page_list. cbv zeta.
    unfold with_optional.
    destruct (listing_loop (Client0 := MediaWikiAPI1_19.client) Wiki.legacy (page_list_params 0 limit "all")
                (MediaWikiAPI1_19.next_continue "allpages")
                Wiki.legacy_continue legacy_cursor titles (Z.to_nat limit)
                (fun g => legacy_first_page_reply titles 0 limit "all" g)
                (fun g t => legacy_next_page_reply titles 0 limit "all" g t)
                (fun listing => legacy_next_of_body listing (Z.to_nat limit))
                (fun listing => legacy_body_without_error listing (Z.to_nat limit))
                Hasc Hl pulls titles []
                {| gen_self := MediaWikiAPI1_19.init "https://wiki" titles;
                   yielded := [] |}
                ltac:(reflexivity) (or_introl (conj eq_refl eq_refl)) Hpulls)
      as (g' & Hloop & Hyield & Hlen).
    unfold page_list_params in Hloop. rewrite Hloop.
    change (session (gen_self g')) with (session g').
    by rewrite Hyield, Hlen.
  - unfold modern_listing, consume, MediaWikiAPI1_31.get_page_list. cbv zeta.
    unfold with_optional.
    destruct (listing_loop (Client0 := MediaWikiAPI1_31.client) Wiki.modern (page_list_params 0 limit "all")
                MediaWikiAPI1_31.next_continue
                Wiki.modern_continue modern_cursor titles (Z.to_nat limit)
                (fun g => modern_first_page_reply titles 0 limit "all" g)
                (fun g t => modern_next_page_reply titles 0 limit "all" g t)
                (fun listing => modern_next_of_body listing (Z.to_nat limit))
                (fun listing => modern_body_without_error listing (Z.to_nat limit))
                Hasc Hl pulls titles []
                {| gen_self := MediaWikiAPI1_31.init "https://wiki" titles;
                   yielded := [] |}
                ltac:(reflexivity) (or_introl (conj eq_refl eq_refl)) Hpulls)
      as (g' & Hloop & Hyield & Hlen).
    unfold page_list_params in Hloop. rewrite Hloop.
    change (session (gen_self g')) with (session g').
    by rewrite Hyield, Hlen.
  - intros Hne. apply ceil_div_positive; [done|]. destruct titles; [done | simpl; lia].
Qed.

(** C1 as stated fails on the wiki without pages: the loop sends its first
    request before it knows that there is nothing to list, so no number of
    pulls ends the listing of zero titles after zero requests. *)
Lemma pagination_empty_wiki_counterexample :
  ~ listing_as_claimed legacy_listing [] 2 /\ ~ listing_as_claimed modern_listing [] 2.
Proof.
  split; intros [pulls H]; destruct pulls; vm_compute in H; discriminate.
Qed.

Lemma five_titles_ascending : Wiki.ascending ["A"; "B"; "C"; "D"; "E"].
Proof. unfold Wiki.ascending. repeat constructor. Qed.

(** Five titles in pages of two: three requests, A to E in order. *)
Lemma pagination_complete_witness :
  let observed := ([VStr "A"; VStr "B"; VStr "C"; VStr "D"; VStr "E"], Exhausted, 3) in
  legacy_listing ["A"; "B"; "C"; "D"; "E"] 2 3 = observed /\
  modern_listing ["A"; "B"; "C"; "D"; "E"] 2 3 = observed.
Proof.
  intros observed.
  destruct (pagination_complete ["A"; "B"; "C"; "D"; "E"] 2 3
              five_titles_ascending ltac:(lia) ltac:(vm_compute; lia))
    as (Hlegacy & Hmodern & _).
  split; [exact Hlegacy | exact Hmodern].
Defined.

(** ** Error classification: the two clients on the same answer *)

Section Same_answer.
Context {Server : Type}.
Variable transport : Server -> request -> response * Server.

Lemma send_answer {C} `{!Client Server C} (self : C) req r :
  answers transport (server (session self)) r ->
  send transport req self = (Ok r, posted transport self req).
Proof.
  intros H. unfold send, posted. specialize (H req).
  destruct (transport _ req) as [r' srv]. simpl in H. by subst r'.
Qed.

(** A delete answered with an error: the legacy client tells
    [cantdelete] from the other codes. *)
Lemma legacy_delete_error self page_name reason token r data error code :
  MediaWikiAPI1_19.delete_tokens self !! page_name = Some token ->
  answers transport (server (session self)) r ->
  decodes_to r data ->
  getitem data "error" = Ok error ->
  getitem error "code" = Ok code ->
  fst (MediaWikiAPI1_19.delete_page transport page_name reason self)
  = if is_str "cantdelete" code then
      match getitem error "info" with
      | Ok info => Raise (CanNotDelete (Payload info))
      | Raise e => Raise e
      end
    else Raise (MediaWikiAPIError (Payload error)).
Proof.
  intros Hcached Hr [Hs Hj] Herror Hcode.
  unfold MediaWikiAPI1_19.delete_page. cbv zeta. rewrite bind_gets, Hcached.
  rewrite bool_decide_eq_true_2 by eauto.
  erewrite bind_ok by reflexivity.
  erewrite bind_ok; cycle 1.
  { unfold lift_result, MediaWikiAPI1_19.cached. rewrite Hcached. reflexivity. }
  unfold session_post. erewrite bind_ok by (by apply send_answer).
  unfold check_status, response_json. rewrite Hs, Hj. simpl bool_decide. cbv iota.
  erewrite bind_ok by reflexivity.
  rewrite (bind_lift_ok _ _ _ _ eq_refl).
  rewrite (bind_lift_ok _ _ _ _ (getitem_contains _ _ _ Herror)).
  rewrite (bind_lift_ok _ _ _ _ Herror), (bind_lift_ok _ _ _ _ Hcode).
  destruct (is_str "cantdelete" code); [|reflexivity].
  unfold bind, lift_result. by destruct (getitem error "info").
Qed.

(** The modern client raises the plain error for every code. *)
Lemma modern_delete_error self page_name reason r data error :
  MediaWikiAPI1_31.csrf_token self <> VNone ->
  answers transport (server (session self)) r ->
  decodes_to r data ->
  getitem data "error" = Ok error ->
  fst (MediaWikiAPI1_31.delete_page transport page_name reason self)
  = Raise (MediaWikiAPIError (Payload error)).
Proof.
  intros Hcached Hr [Hs Hj] Herror.
  unfold MediaWikiAPI1_31.delete_page.
  rewrite (bind_ok _ _ _ _ _ (ensure_csrf_token_cached transport _ Hcached)).
  rewrite bind_gets. cbv zeta.
  unfold session_post. erewrite bind_ok by (by apply send_answer).
  unfold check_status, response_json. rewrite Hs, Hj. simpl bool_decide. cbv iota.
  erewrite bind_ok by reflexivity.
  rewrite (bind_lift_ok _ _ _ _ eq_refl).
  unfold check_error.
  erewrite bind_raise; [reflexivity|].
  rewrite (bind_lift_ok _ _ _ _ (getitem_contains _ _ _ Herror)).
  by rewrite (bind_lift_ok _ _ _ _ Herror).
Qed.

(** A token query answered without [query]: [get_token] fails on the
    lookup, whatever else the body holds. *)
Lemma modern_get_token_without_query self token_type r data e :
  answers transport (server (session self)) r ->
  decodes_to r data ->
  getitem data "query" = Raise e ->
  fst (MediaWikiAPI1_31.get_token transport token_type self) = Raise e.
Proof.
  intros Hr [Hs Hj] Hquery.
  unfold MediaWikiAPI1_31.get_token, session_get.
  erewrite bind_ok by (by apply send_answer).
  unfold check_status, response_json. rewrite Hs, Hj. simpl bool_decide. cbv iota.
  erewrite bind_ok by reflexivity.
  rewrite (bind_lift_ok _ _ _ _ eq_refl).
  by rewrite (bind_lift_raise _ _ _ _ Hquery).
Qed.

(** The same answer with an error field makes the legacy [get_tokens]
    raise the API error. *)
Lemma legacy_get_tokens_error self token_type titles r data error :
  answers transport (server (session self)) r ->
  decodes_to r data ->
  getitem data "error" = Ok error ->
  fst (MediaWikiAPI1_19.get_tokens transport token_type titles self)
  = Raise (MediaWikiAPIError (Payload error)).
Proof.
  intros Hr [Hs Hj] Herror.
  unfold MediaWikiAPI1_19.get_tokens, session_post_params. cbv zeta.
  erewrite bind_ok by (by apply send_answer).
  unfold check_status, response_json. rewrite Hs, Hj. simpl bool_decide. cbv iota.
  erewrite bind_ok by reflexivity.
  rewrite (bind_lift_ok _ _ _ _ eq_refl).
  unfold check_error.
  erewrite bind_raise; [reflexivity|].
  rewrite (bind_lift_ok _ _ _ _ (getitem_contains _ _ _ Herror)).
  by rewrite (bind_lift_ok _ _ _ _ Herror).
Qed.

(** Once the login token is there, the modern [api_login] returns on
    every answer without an error field: it reads neither a warning nor
    the login result. *)
Lemma modern_login_reads_error_only self username password r1 srv1 token r data :
  transport (server (session self)) (token_request (api_url self) "login") = (r1, srv1) ->
  token_reply "login" token r1 ->
  answers transport srv1 r ->
  accepted r data ->
  fst (MediaWikiAPI1_31.api_login transport username password self) = Ok tt.
Proof.
  intros Ht Htoken Hr [[Hs Hj] He].
  unfold MediaWikiAPI1_31.api_login.
  rewrite (bind_ok _ _ _ _ _ (get_token_ok transport _ _ _ _ _ Ht Htoken)). cbv zeta.
  unfold session_post. erewrite bind_ok by (by apply send_answer).
  unfold check_status, response_json. rewrite Hs, Hj. simpl bool_decide. cbv iota.
  erewrite bind_ok by reflexivity.
  rewrite (bind_lift_ok _ _ _ _ eq_refl).
  unfold check_error. erewrite bind_ok; [reflexivity|].
  by rewrite (bind_lift_ok _ _ _ _ He).
Qed.
End Same_answer.

(** ** The same answers, evaluated *)

(** C5. A token query answered with a platform error.  The legacy client
    raises the API error from [get_tokens]; the modern client does not look
    for the error field in [get_token] and fails on the missing [query]
    key, so its [edit_page] and [delete_page] end in a [KeyError]. *)
Theorem modern_token_error_is_not_api_error :
  let reply := ok_json (error_body permission_error) in
  fst (MediaWikiAPI1_19.edit_page scripted "A" "text" None
         (MediaWikiAPI1_19.init "https://wiki" [reply]))
    = Raise (MediaWikiAPIError (Payload permission_error)) /\
  fst (MediaWikiAPI1_31.edit_page scripted "A" "text" None
         (MediaWikiAPI1_31.init "https://wiki" [reply]))
    = Raise (KeyError "query") /\
  fst (MediaWikiAPI1_31.delete_page scripted "A" None
         (MediaWikiAPI1_31.init "https://wiki" [reply]))
    = Raise (KeyError "query") /\
  classify (KeyError "query") = BuiltinError.
Proof. repeat split; vm_compute; reflexivity. Qed.

(** C3. A delete answered with the error code [cantdelete].  The legacy
    client raises [CanNotDelete] with the info text; the modern client has
    no such case and raises the plain API error. *)
Theorem modern_cantdelete_is_plain_api_error :
  let denied := ok_json (error_body cantdelete_error) in
  fst (MediaWikiAPI1_19.delete_page scripted "A" None
         (MediaWikiAPI1_19.init "https://wiki"
            [ok_json (delete_tokens_body "A"); denied]))
    = Raise (CanNotDelete
               (Payload (VStr "Could not delete the page or file specified"))) /\
  fst (MediaWikiAPI1_31.delete_page scripted "A" None
         (MediaWikiAPI1_31.init "https://wiki" [ok_json csrf_token_body; denied]))
    = Raise (MediaWikiAPIError (Payload cantdelete_error)) /\
  classify (MediaWikiAPIError (Payload cantdelete_error)) = ApiError.
Proof. repeat split; vm_compute; reflexivity. Qed.

(** C4. A login answered with a warning and no error.  The legacy client
    raises the API error with the warning; the modern client checks the
    error field only and returns as after a successful login. *)
Theorem modern_login_accepts_warning :
  fst (MediaWikiAPI1_19.api_login scripted "bot" "secret"
         (MediaWikiAPI1_19.init "https://wiki"
            [ok_json (warned_login_body "Success")]))
    = Raise (MediaWikiAPIError (Payload login_warning)) /\
  fst (MediaWikiAPI1_31.api_login scripted "bot" "secret"
         (MediaWikiAPI1_31.init "https://wiki"
            [ok_json login_token_body; ok_json (warned_login_body "Success")]))
    = Ok tt.
Proof. repeat split; vm_compute; reflexivity. Qed.

(** * Further properties *)

(** ** The namespace listing *)

Section Namespace_facts.
Context {Server C : Type} `{!Client Server C}.
Variable transport : Server -> request -> response * Server.
Variable py_int : string -> result Z.
Implicit Types self : C.

Lemma non_negative_ids_sound ks ids :
  non_negative_ids py_int ks = Ok ids -> Forall (Z.le 0) ids.
Proof.
  revert ids. induction ks as [|k ks IH]; simpl; intros ids.
  - intros [= <-]. constructor.
  - destruct (py_int k) as [n|]; [|discriminate].
    destruct (non_negative_ids py_int ks) as [ids'|]; [|discriminate].
    intros [= <-]. destruct (Z.leb_spec 0 n); auto.
Qed.

Lemma non_negative_ids_parsed ks parsed :
  Forall2 (fun k n => py_int k = Ok n) ks parsed ->
  non_negative_ids py_int ks = Ok (List.filter (Z.leb 0) parsed).
Proof.
  induction 1 as [|k n ks parsed Hk _ IH]; simpl; [done|].
  rewrite Hk, IH. by destruct (0 <=? n)%Z.
Qed.

Lemma non_negative_ids_rejected good k rest e :
  Forall (fun k' => exists n, py_int k' = Ok n) good ->
  py_int k = Raise e ->
  non_negative_ids py_int (good ++ k :: rest) = Raise e.
Proof.
  intros Hgood Hk. induction Hgood as [|k' good [n Hn] _ IH]; simpl.
  - by rewrite Hk.
  - by rewrite Hn, IH.
Qed.

Lemma namespace_list_state self :
  snd (namespace_list transport py_int self)
  = posted transport self (siteinfo_request (api_url self)).
Proof.
  unfold namespace_list, posted, siteinfo_request, session_get, send, check_status,
    check_error, lift_result, ret, raise, bind.
  destruct (transport _ _) as [resp srv]; simpl.
  repeat case_match; simplify_eq; done.
Qed.

Lemma namespace_list_ok self ids self' :
  namespace_list transport py_int self = (Ok ids, self') ->
  Forall (Z.le 0) ids /\ issued self self' = [siteinfo_request (api_url self)].
Proof.
  intros Hrun. split.
  - revert Hrun.
    unfold namespace_list, session_get, send, check_status,
      check_error, lift_result, ret, raise, bind.
    destruct (transport _ _) as [resp srv]; simpl.
    repeat case_match; intros; simplify_eq; eauto using non_negative_ids_sound.
  - pose proof (namespace_list_state self) as Hstate. rewrite Hrun in Hstate.
    simpl in Hstate. subst self'. apply issued_app. unfold posted.
    by rewrite session_with_session.
Qed.

Lemma namespace_list_reply self r srv data query entries :
  transport (server (session self)) (siteinfo_request (api_url self)) = (r, srv) ->
  accepted r data ->
  getitem data "query" = Ok query ->
  getitem query "namespaces" = Ok (VDict entries) ->
  namespace_list transport py_int self
  = (non_negative_ids py_int (map fst entries),
     posted transport self (siteinfo_request (api_url self))).
Proof.
  intros Ht [[Hs Hj] He] Hq Hn.
  unfold namespace_list, session_get, send. cbv zeta. unfold bind at 1.
  change (Request GET (api_url self) siteinfo_params ∅)
    with (siteinfo_request (api_url self)).
  unfold posted. rewrite Ht.
  unfold check_status, check_error, response_json. rewrite Hs, Hj. simpl bool_decide.
  cbv iota. unfold bind, lift_result, ret. rewrite He, Hq, Hn. simpl.
  reflexivity.
Qed.
End Namespace_facts.

(** X1. Whenever [get_namespace_list] returns, on either client, every id
    in the list is at least zero and the one siteinfo query is the only
    request it made. *)
Theorem namespace_ids_never_negative {Server} (transport : Server -> request -> response * Server)
  (py_int : string -> result Z) :
  (forall (self self' : MediaWikiAPI1_19.t) ids,
     MediaWikiAPI1_19.get_namespace_list transport py_int self = (Ok ids, self') ->
     Forall (Z.le 0) ids /\ issued self self' = [siteinfo_request (api_url self)]) /\
  (forall (self self' : MediaWikiAPI1_31.t) ids,
     MediaWikiAPI1_31.get_namespace_list transport py_int self = (Ok ids, self') ->
     Forall (Z.le 0) ids /\ issued self self' = [siteinfo_request (api_url self)]).
Proof. split; intros self self' ids; apply namespace_list_ok. Qed.

Lemma namespace_list_answer {Server C} `{!Client Server C}
  (transport : Server -> request -> response * Server) py_int (self : C)
  r data query entries :
  answers transport (server (session self)) r ->
  accepted r data ->
  getitem data "query" = Ok query ->
  getitem query "namespaces" = Ok (VDict entries) ->
  fst (namespace_list transport py_int self)
  = non_negative_ids py_int (map fst entries).
Proof.
  intros Hr Hacc Hq Hn.
  erewrite namespace_list_reply; eauto.
  rewrite <- (Hr (siteinfo_request (api_url self))). apply surjective_pairing.
Qed.

(** X2. On an answer whose [query][namespaces] is an object with keys that
    [int] reads, [get_namespace_list] returns the numbers of the keys that
    are not negative, in the order of the object, on both clients. *)
Theorem namespace_list_keeps_order {Server}
  (transport : Server -> request -> response * Server) py_int
  r data query entries parsed :
  accepted r data ->
  getitem data "query" = Ok query ->
  getitem query "namespaces" = Ok (VDict entries) ->
  Forall2 (fun k n => py_int k = Ok n) (map fst entries) parsed ->
  (forall self : MediaWikiAPI1_19.t,
     answers transport (server (session self)) r ->
     fst (MediaWikiAPI1_19.get_namespace_list transport py_int self)
     = Ok (List.filter (Z.leb 0) parsed)) /\
  (forall self : MediaWikiAPI1_31.t,
     answers transport (server (session self)) r ->
     fst (MediaWikiAPI1_31.get_namespace_list transport py_int self)
     = Ok (List.filter (Z.leb 0) parsed)).
Proof.
  intros Hacc Hq Hn Hparsed. split; intros self Hr.
  - unfold MediaWikiAPI1_19.get_namespace_list.
    rewrite (namespace_list_answer _ _ _ _ _ _ _ Hr Hacc Hq Hn).
    by apply non_negative_ids_parsed.
  - unfold MediaWikiAPI1_31.get_namespace_list.
    rewrite (namespace_list_answer _ _ _ _ _ _ _ Hr Hacc Hq Hn).
    by apply non_negative_ids_parsed.
Qed.

(** X3. A namespace key that [int] rejects makes [get_namespace_list] raise
    the exception of [int] for the first such key: no partial list comes
    back, whatever the keys after it are. *)
Theorem namespace_key_rejected_by_int {Server}
  (transport : Server -> request -> response * Server) py_int
  r data query good k v rest e :
  accepted r data ->
  getitem data "query" = Ok query ->
  getitem query "namespaces" = Ok (VDict (good ++ (k, v) :: rest)) ->
  Forall (fun entry => exists n, py_int (fst entry) = Ok n) good ->
  py_int k = Raise e ->
  (forall self : MediaWikiAPI1_19.t,
     answers transport (server (session self)) r ->
     fst (MediaWikiAPI1_19.get_namespace_list transport py_int self) = Raise e) /\
  (forall self : MediaWikiAPI1_31.t,
     answers transport (server (session self)) r ->
     fst (MediaWikiAPI1_31.get_namespace_list transport py_int self) = Raise e).
Proof.
  intros Hacc Hq Hn Hgood Hk.
  assert (non_negative_ids py_int (map fst (good ++ (k, v) :: rest)) = Raise e) as Hids.
  { rewrite map_app. simpl. apply non_negative_ids_rejected; [|done].
    by apply Forall_fmap. }
  split; intros self Hr.
  - unfold MediaWikiAPI1_19.get_namespace_list.
    by rewrite (namespace_list_answer _ _ _ _ _ _ _ Hr Hacc Hq Hn).
  - unfold MediaWikiAPI1_31.get_namespace_list.
    by rewrite (namespace_list_answer _ _ _ _ _ _ _ Hr Hacc Hq Hn).
Qed.

(** ** Failing pages *)

Section Failing_page.
Context {Server C : Type} `{!Client Server C}.
Variable transport : Server -> request -> response * Server.
Variable params : gmap string value.
Variable emit : value -> M (Gen C) unit.
Variable next_continue : value -> result (option value).
Implicit Types g : Gen C.

Lemma fetch_page_status cursor g r srv :
  transport (server (session g)) (page_request params g cursor) = (r, srv) ->
  status_code r <> 200%Z ->
  fetch_page transport params (VDict cursor) g
  = (Raise (MediaWikiAPIError (Formatted "Status code is {}" (VInt (status_code r)))),
     posted transport g (page_request params g cursor)).
Proof.
  intros Ht Hs.
  unfold fetch_page, posted, session_get, send, check_status, dict_update,
    lift_result, ret, raise, bind.
  fold (page_request params g cursor). rewrite Ht.
  by rewrite bool_decide_eq_false_2.
Qed.

Lemma fetch_page_error cursor g r srv data error :
  transport (server (session g)) (page_request params g cursor) = (r, srv) ->
  decodes_to r data ->
  getitem data "error" = Ok error ->
  fetch_page transport params (VDict cursor) g
  = (Raise (MediaWikiAPIError (Payload error)),
     posted transport g (page_request params g cursor)).
Proof.
  intros Ht [Hs Hj] He.
  unfold fetch_page, posted, session_get, send, check_status, check_error, dict_update,
    response_json, lift_result, ret, raise, bind.
  fold (page_request params g cursor). rewrite Ht, Hs, Hj. simpl.
  by rewrite (getitem_contains _ _ _ He), He.
Qed.

(** X4. A page request answered with a status other than 200, or with a
    body that carries an error field, ends every paged listing there: the
    loop raises the status error, respectively the API error with the
    error payload (also when the body holds a cursor), the items yielded
    before stay delivered, and the failed request is the last one. *)
Theorem failed_page_ends_listing n cursor g r srv :
  let request := page_request params g cursor in
  let run := paged_loop transport params emit next_continue (S n) (VDict cursor) g in
  transport (server (session g)) request = (r, srv) ->
  (status_code r <> 200%Z ->
   run = (Raise (MediaWikiAPIError
                   (Formatted "Status code is {}" (VInt (status_code r)))),
          posted transport g request)) /\
  (forall data error,
     decodes_to r data -> getitem data "error" = Ok error ->
     run = (Raise (MediaWikiAPIError (Payload error)), posted transport g request)) /\
  yielded (posted transport g request) = yielded g /\
  issued g (posted transport g request) = [request].
Proof.
  intros request run Ht. subst run. split; [|split; [|split]].
  - intros Hs. rewrite paged_loop_step.
    by rewrite (bind_raise _ _ _ _ _ (fetch_page_status _ _ _ _ Ht Hs)).
  - intros data error Hd He. rewrite paged_loop_step.
    by rewrite (bind_raise _ _ _ _ _ (fetch_page_error _ _ _ _ _ _ Ht Hd He)).
  - reflexivity.
  - apply issued_app. apply sent_posted.
Qed.
End Failing_page.

(** Items of a page up to an entry without a title. *)
Lemma yield_titles_until {C} (good : list value) (titles : list value) bad rest e :
  Forall2 (fun item title => getitem item "title" = Ok title) good titles ->
  getitem bad "title" = Raise e ->
  forall g : Gen C,
    for_each (good ++ bad :: rest)
      (fun page_data =>
         let* title := lift_result (getitem page_data "title") in yield title) g
    = (Raise e, {| gen_self := gen_self g; yielded := yielded g ++ titles |}).
Proof.
  intros Hgood Hbad. induction Hgood as [|item title good titles Hitem _ IH]; intros g; simpl.
  - unfold bind, lift_result. rewrite Hbad, app_nil_r. by destruct g.
  - unfold bind at 1. unfold bind at 1, lift_result at 1. rewrite Hitem.
    unfold yield at 1. rewrite IH. simpl. by rewrite <- app_assoc.
Qed.

(** X5. A page of titles with an entry that has no title: the titles of
    the entries before it are yielded, then the lookup error is raised and
    the listing ends without a further request. *)
Theorem entry_without_title_ends_listing {Server C} `{!Client Server C}
  (transport : Server -> request -> response * Server) (params : gmap string value)
  (next_continue : value -> result (option value))
  name n cursor (g : Gen C) r srv data query good titles bad rest e :
  let request := page_request params g cursor in
  transport (server (session g)) request = (r, srv) ->
  accepted r data ->
  getitem data "query" = Ok query ->
  getitem query name = Ok (VList (good ++ bad :: rest)) ->
  Forall2 (fun item title => getitem item "title" = Ok title) good titles ->
  getitem bad "title" = Raise e ->
  paged_loop transport params (emit_titles name) next_continue (S n) (VDict cursor) g
  = (Raise e,
     {| gen_self := gen_self (posted transport g request);
        yielded := yielded g ++ titles |}).
Proof.
  intros request Ht Hacc Hq Hl Hgood Hbad.
  rewrite paged_loop_step.
  rewrite (bind_ok _ _ _ _ _ (fetch_page_ok _ _ _ _ _ _ _ Ht Hacc)).
  erewrite bind_raise; [reflexivity|].
  unfold emit_titles.
  rewrite (bind_lift_ok _ _ _ _ Hq), (bind_lift_ok _ _ _ _ Hl).
  rewrite (bind_lift_ok (iterate (VList (good ++ bad :: rest))) _ _ _ eq_refl).
  by rewrite (yield_titles_until _ _ _ _ _ Hgood Hbad).
Qed.

(** ** Listings that fit one page *)
Section One_page.
Context {Server C : Type} `{!Client Server C}.
Variable transport : Server -> request -> response * Server.
Variable params : gmap string value.
Variable emit : value -> M (Gen C) unit.
Variable next_continue : value -> result (option value).

Lemma one_page_listing n (self : C) r data items :
  answers transport (server (session self)) r ->
  accepted r data ->
  (forall g : Gen C,
     emit data g = (Ok tt, {| gen_self := gen_self g; yielded := yielded g ++ items |})) ->
  next_continue data = Ok None ->
  let run := consume (paged_loop transport params emit next_continue (S n) (VDict [])) self in
  fst run = (items, Exhausted) /\ length (issued self (snd run)) = 1.
Proof.
  intros Hr Hacc Hemit Hnext run. subst run. unfold consume.
  set (g := {| gen_self := self; yielded := [] |}).
  assert (transport (server (session g)) (page_request params g [])
          = (r, snd (transport (server (session g)) (page_request params g [])))) as Ht.
  { rewrite <- (Hr (page_request params g [])). apply surjective_pairing. }
  rewrite (loop_finishes transport params emit next_continue n [] g _ _ _ _
             Ht Hacc (Hemit _) Hnext).
  simpl. split; [done|].
  erewrite issued_app; [|unfold posted; by rewrite session_with_session]. done.
Qed.
End One_page.

(** X6. [get_image_list] on an answer without cursor: one request, and
    for every image of the answer, in order, a dict of exactly its title
    and its url; other fields of the image are dropped. *)
Theorem image_list_yields_title_and_url {Server}
  (transport : Server -> request -> response * Server)
  limit n r data query items images :
  accepted r data ->
  getitem data "query" = Ok query ->
  getitem query "allimages" = Ok (VList items) ->
  Forall2 (fun item image =>
             getitem item "title" = Ok (fst image) /\
             getitem item "url" = Ok (snd image)) items images ->
  (forall self : MediaWikiAPI1_19.t,
     answers transport (server (session self)) r ->
     contains "query-continue" data = Ok false ->
     let run := consume (MediaWikiAPI1_19.get_image_list transport limit (S n)) self in
     fst run = (image_records images, Exhausted) /\ length (issued self (snd run)) = 1) /\
  (forall self : MediaWikiAPI1_31.t,
     answers transport (server (session self)) r ->
     contains "continue" data = Ok false ->
     let run := consume (MediaWikiAPI1_31.get_image_list transport limit (S n)) self in
     fst run = (image_records images, Exhausted) /\ length (issued self (snd run)) = 1).
Proof.
  intros Hacc Hq Hi Hitems. split; intros self Hr Hnone.
  - apply (one_page_listing transport _ emit_images _ n self r data); auto.
    + intros g. by eapply emit_images_records.
    + by apply legacy_next_none.
  - apply (one_page_listing transport _ emit_images _ n self r data); auto.
    + intros g. by eapply emit_images_records.
    + by apply modern_next_none.
Qed.

(** X7. [get_deletedrevs_list] on an answer without cursor yields the
    revisions of every page in order, each with the title of its page
    written into it: the title entry of a yielded revision is the page
    title (an older title entry is replaced) and every other entry is the
    one of the revision. *)
Theorem deleted_revisions_carry_title {Server}
  (transport : Server -> request -> response * Server)
  namespace limit n r data query items pages :
  accepted r data ->
  getitem data "query" = Ok query ->
  getitem query "deletedrevs" = Ok (VList items) ->
  Forall2 (fun item page =>
             getitem item "title" = Ok (fst page) /\
             getitem item "revisions" = Ok (VList (map VDict (snd page))))
          items pages ->
  (forall self : MediaWikiAPI1_19.t,
     answers transport (server (session self)) r ->
     contains "query-continue" data = Ok false ->
     fst (consume (MediaWikiAPI1_19.get_deletedrevs_list transport namespace limit (S n))
            self)
     = (deleted_revisions pages, Exhausted)) /\
  (forall self : MediaWikiAPI1_31.t,
     answers transport (server (session self)) r ->
     contains "continue" data = Ok false ->
     fst (consume (MediaWikiAPI1_31.get_deletedrevs_list transport namespace limit (S n))
            self)
     = (deleted_revisions pages, Exhausted)) /\
  (forall title revision,
     getitem (titled title revision) "title" = Ok title /\
     (forall k, k <> "title" ->
                getitem (titled title revision) k = getitem (VDict revision) k)).
Proof.
  intros Hacc Hq Hd Hitems. split; [|split].
  - intros self Hr Hnone.
    apply (one_page_listing transport _ emit_deletedrevs _ n self r data); auto.
    + intros g. by eapply emit_deletedrevs_pages.
    + by apply legacy_next_none.
  - intros self Hr Hnone.
    apply (one_page_listing transport _ emit_deletedrevs _ n self r data); auto.
    + intros g. by eapply emit_deletedrevs_pages.
    + by apply modern_next_none.
  - by eapply (emit_deletedrevs_pages (C := unit) data query items pages
                 {| gen_self := tt; yielded := [] |}).
Qed.

(** ** A cursor that does not move *)

Section Stuck_cursor.
Context {Server C : Type} `{!Client Server C}.
Variable transport : Server -> request -> response * Server.
Variable params : gmap string value.
Variable emit : value -> M (Gen C) unit.
Variable next_continue : value -> result (option value).
Variables (r : response) (data : value) (items : list value)
  (cursor : list (string * value)).
Hypothesis same_answer : forall srv, answers transport srv r.
Hypothesis answer_accepted : accepted r data.
Hypothesis answer_items : forall g : Gen C,
  emit data g = (Ok tt, {| gen_self := gen_self g; yielded := yielded g ++ items |}).
Hypothesis answer_cursor : next_continue data = Ok (Some (VDict cursor)).

Lemma stuck_loop pulls : forall current (g : Gen C),
  exists g',
    paged_loop transport params emit next_continue pulls (VDict current) g
    = (Ok Suspended, g') /\
    yielded g' = yielded g ++ concat (replicate pulls items) /\
    length (sent (session g')) = length (sent (session g)) + pulls.
Proof.
  induction pulls as [|pulls IH]; intros current g.
  - exists g. simpl. rewrite app_nil_r. split; [done|]. split; [done|lia].
  - assert (transport (server (session g)) (page_request params g current)
            = (r, snd (transport (server (session g)) (page_request params g current))))
      as Ht.
    { rewrite <- (same_answer (server (session g)) (page_request params g current)).
      apply surjective_pairing. }
    rewrite paged_loop_step.
    rewrite (bind_ok _ _ _ _ _ (fetch_page_ok _ _ _ _ _ _ _ Ht answer_accepted)).
    rewrite (bind_ok _ _ _ _ _ (answer_items _)).
    rewrite (bind_lift_ok _ _ _ _ answer_cursor).
    destruct (IH cursor {| gen_self := gen_self (posted transport g (page_request params g current));
                           yielded := yielded (posted transport g (page_request params g current)) ++ items |})
      as (g' & Hrun & Hyield & Hlen).
    exists g'. split; [exact Hrun|]. split.
    + rewrite Hyield. simpl. by rewrite <- app_assoc.
    + rewrite Hlen.
      change (session {| gen_self := gen_self (posted transport g (page_request params g current));
                         yielded := _ |})
        with (session (posted transport g (page_request params g current))).
      rewrite sent_posted, length_app. simpl. lia.
Qed.
End Stuck_cursor.

(** X9. The loop has no bound of its own.  Against a platform that answers
    every request with the same page and the same cursor, [get_page_list]
    is still running after any number of pulls: it has sent one request
    per pull and yielded the page again each time. *)
Theorem repeated_cursor_never_ends {Server}
  (transport : Server -> request -> response * Server)
  namespace limit first_page mode pulls r data query items titles cursor :
  (forall srv, answers transport srv r) ->
  accepted r data ->
  getitem data "query" = Ok query ->
  getitem query "allpages" = Ok (VList items) ->
  Forall2 (fun item title => getitem item "title" = Ok title) items titles ->
  (forall self : MediaWikiAPI1_19.t,
     forall qc, getitem data "query-continue" = Ok qc ->
     getitem qc "allpages" = Ok (VDict cursor) ->
     let run := consume (MediaWikiAPI1_19.get_page_list transport namespace limit
                           first_page mode pulls) self in
     fst run = (concat (replicate pulls titles), StillRunning) /\
     length (issued self (snd run)) = pulls) /\
  (forall self : MediaWikiAPI1_31.t,
     getitem data "continue" = Ok (VDict cursor) ->
     let run := consume (MediaWikiAPI1_31.get_page_list transport namespace limit
                           first_page mode pulls) self in
     fst run = (concat (replicate pulls titles), StillRunning) /\
     length (issued self (snd run)) = pulls).
Proof.
  intros Hsame Hacc Hq Hl Htitles.
  assert (forall C (g : Gen C),
            emit_titles "allpages" data g
            = (Ok tt, {| gen_self := gen_self g; yielded := yielded g ++ titles |}))
    as Hemit.
  { intros C g. unfold emit_titles.
    rewrite (bind_lift_ok _ _ _ _ Hq), (bind_lift_ok _ _ _ _ Hl).
    rewrite (bind_lift_ok (iterate (VList items)) _ _ _ eq_refl).
    by apply yield_all_titles. }
  split.
  - intros self qc Hqc Hcursor run. subst run.
    unfold consume, MediaWikiAPI1_19.get_page_list. cbv zeta.
    edestruct (stuck_loop (Client0 := MediaWikiAPI1_19.client) transport)
      as (g' & Hrun & Hyield & Hlen);
      [exact Hsame | exact Hacc | apply Hemit
      | exact (legacy_next_present "allpages" _ _ _ Hqc Hcursor) |].
    rewrite Hrun. cbn [fst snd]. rewrite Hyield. split; [done|].
    unfold issued. rewrite length_drop.
    change (session (gen_self g')) with (session g'). rewrite Hlen. simpl. lia.
  - intros self Hcursor run. subst run.
    unfold consume, MediaWikiAPI1_31.get_page_list. cbv zeta.
    edestruct (stuck_loop (Client0 := MediaWikiAPI1_31.client) transport)
      as (g' & Hrun & Hyield & Hlen);
      [exact Hsame | exact Hacc | apply Hemit
      | exact (modern_next_present _ _ Hcursor) |].
    rewrite Hrun. cbn [fst snd]. rewrite Hyield. split; [done|].
    unfold issued. rewrite length_drop.
    change (session (gen_self g')) with (session g'). rewrite Hlen. simpl. lia.
Qed.

(** X8. [search_pages] of the modern client on an answer without cursor
    yields the titles of [query][search] in order after one request; the
    legacy [search_pages] raises [NotImplementedError] and sends nothing. *)
Theorem search_yields_result_titles {Server}
  (transport : Server -> request -> response * Server)
  search_request namespace limit n r data query items titles :
  accepted r data ->
  getitem data "query" = Ok query ->
  getitem query "search" = Ok (VList items) ->
  Forall2 (fun item title => getitem item "title" = Ok title) items titles ->
  contains "continue" data = Ok false ->
  (forall self : MediaWikiAPI1_31.t,
     answers transport (server (session self)) r ->
     let run := consume (MediaWikiAPI1_31.search_pages transport search_request
                           namespace limit (S n)) self in
     fst run = (titles, Exhausted) /\ length (issued self (snd run)) = 1) /\
  (forall (self : MediaWikiAPI1_19.t) pulls,
     consume (MediaWikiAPI1_19.search_pages (Server := Server) search_request
                namespace limit pulls) self
     = ([], Raised NotImplementedError, self)).
Proof.
  intros Hacc Hq Hl Htitles Hnone. split; [|done].
  intros self Hr.
  apply (one_page_listing transport _ (emit_titles "search") _ n self r data); auto.
  - intros g. unfold emit_titles.
    rewrite (bind_lift_ok _ _ _ _ Hq), (bind_lift_ok _ _ _ _ Hl).
    rewrite (bind_lift_ok (iterate (VList items)) _ _ _ eq_refl).
    by apply yield_all_titles.
  - by apply modern_next_none.
Qed.

(** ** Listing from a first page *)

Lemma leb_ltb_trans (f x y : string) :
  String.leb f x = true -> String.ltb x y = true -> String.leb f y = true.
Proof.
  intros Hfx Hxy. apply ltb_leb in Hxy.
  apply Is_true_true. apply Is_true_true in Hfx, Hxy.
  exact (transitivity (R := String.le) Hfx Hxy).
Qed.

Lemma from_is_suffix titles f :
  Wiki.ascending titles ->
  exists pre, titles = pre ++ Wiki.from titles (Some f).
Proof.
  unfold Wiki.ascending, Wiki.from.
  induction 1 as [|x l Hl IH Hx]; [by exists []|]. simpl.
  destruct (String.leb f x) eqn:Hfx.
  - exists []. simpl. f_equal.
    clear -Hx Hfx. induction Hx as [|y l Hy _ IH]; [done|]. simpl.
    by rewrite (leb_ltb_trans _ _ _ Hfx Hy), <- IH.
  - destruct IH as [pre Hpre]. exists (x :: pre). simpl. by f_equal.
Qed.

Section Listing_from.
Context {C : Type} `{!Client (list string) C}.
Variable transport : list string -> request -> response * list string.
Variable params : gmap string value.
Variable next_continue : value -> result (option value).
Variable continuation : list string -> list (string * value).
Variable cursor_of : string -> list (string * value).
Variables titles start : list string.
Variable limit : nat.
Implicit Types g : Gen C.

Hypothesis first_page_reply : forall g,
  transport titles (page_request params g [])
  = (Wiki.reply continuation start limit, titles).
Hypothesis next_page_reply : forall g t,
  transport titles (page_request params g (cursor_of t))
  = (Wiki.reply continuation (Wiki.from titles (Some t)) limit, titles).
Hypothesis next_of_body : forall listing,
  next_continue (Wiki.body continuation listing limit)
  = Ok (match drop limit listing with
        | [] => None
        | t :: _ => Some (VDict (cursor_of t))
        end).
Hypothesis body_without_error : forall listing,
  contains "error" (Wiki.body continuation listing limit) = Ok false.
Hypothesis titles_ascending : Wiki.ascending titles.
Hypothesis start_is_suffix : exists pre, titles = pre ++ start.
Hypothesis limit_positive : 1 <= limit.

Lemma reply_at_cursor_from cursor rest g :
  at_cursor_from titles start cursor_of cursor rest ->
  transport titles (page_request params g cursor)
  = (Wiki.reply continuation rest limit, titles).
Proof.
  intros [[-> ->] | (t & rest' & -> & -> & pre & Hpre)]; [apply first_page_reply|].
  rewrite next_page_reply. do 2 f_equal.
  revert titles_ascending. rewrite Hpre. apply from_cursor.
Qed.

Lemma listing_loop_from pulls : forall rest cursor g,
  server (session g) = titles ->
  at_cursor_from titles start cursor_of cursor rest ->
  Nat.max 1 (ceil_div (length rest) limit) <= pulls ->
  exists g',
    paged_loop transport params (emit_titles "allpages") next_continue pulls
      (VDict cursor) g = (Ok Finished, g') /\
    yielded g' = yielded g ++ map VStr rest /\
    length (sent (session g'))
    = length (sent (session g)) + Nat.max 1 (ceil_div (length rest) limit).
Proof.
  induction pulls as [|pulls IH]; intros rest cursor g Hsrv Hcur Hpulls; [lia|].
  pose proof (reply_at_cursor_from cursor rest g Hcur) as Ht. rewrite <- Hsrv in Ht at 1.
  assert (accepted (Wiki.reply continuation rest limit)
            (Wiki.body continuation rest limit)) as Hacc.
  { repeat split. apply body_without_error. }
  rewrite paged_loop_step.
  rewrite (bind_ok _ _ _ _ _ (fetch_page_ok _ _ _ _ _ _ _ Ht Hacc)).
  rewrite (bind_ok _ _ _ _ _ (emit_titles_body _ _ _ _)).
  rewrite (bind_lift_ok _ _ _ _ (next_of_body rest)).
  set (g2 := {| gen_self := gen_self (posted transport g _); yielded := _ |}).
  assert (sent (session g2) = sent (session g) ++ [page_request params g cursor]) as Hsent.
  { subst g2. apply (sent_posted transport). }
  destruct (drop limit rest) as [|t more] eqn:Hdrop.
  - apply drop_nil_inv in Hdrop.
    exists g2. split; [done|]. split.
    + subst g2. simpl. by rewrite take_ge.
    + rewrite Hsent, length_app, ceil_div_small by done. done.
  - assert (limit < length rest) as Hlong.
    { destruct (decide (limit < length rest)); [done|].
      rewrite drop_ge in Hdrop by lia. done. }
    destruct (IH (t :: more) (cursor_of t) g2) as (g' & Hloop & Hyield & Hlen).
    + change (server (session (posted transport g (page_request params g cursor)))
              = titles).
      unfold posted. by rewrite session_with_session, Ht.
    + right. exists t, more. split; [done|]. split; [done|].
      destruct Hcur as [[_ ->] | (_ & _ & _ & _ & pre & ->)].
      * destruct start_is_suffix as [pre ->].
        exists (pre ++ take limit start). by rewrite <- Hdrop, <- app_assoc, take_drop.
      * exists (pre ++ take limit rest). by rewrite <- Hdrop, <- app_assoc, take_drop.
    + rewrite <- Hdrop, length_drop.
      rewrite ceil_div_step in Hpulls by done. lia.
    + exists g'. split; [done|]. split.
      * rewrite Hyield. subst g2. cbn [yielded].
        by rewrite <- app_assoc, <- map_app, <- Hdrop, take_drop.
      * rewrite Hlen, Hsent, length_app, <- Hdrop, length_drop,
          (ceil_div_step (length rest)) by done.
        simpl. lia.
Qed.
End Listing_from.

Lemma legacy_first_page_from {C} `{!Client (list string) C} titles namespace limit mode f (g : C) :
  Wiki.legacy titles
    (page_request (<["apfrom" := VStr f]> (page_list_params namespace limit mode)) g [])
  = (Wiki.reply Wiki.legacy_continue (Wiki.from titles (Some f)) (Z.to_nat limit), titles).
Proof. reflexivity. Qed.

Lemma legacy_next_page_from {C} `{!Client (list string) C} titles namespace limit mode f (g : C) t :
  Wiki.legacy titles
    (page_request (<["apfrom" := VStr f]> (page_list_params namespace limit mode)) g
       (legacy_cursor t))
  = (Wiki.reply Wiki.legacy_continue (Wiki.from titles (Some t)) (Z.to_nat limit), titles).
Proof. reflexivity. Qed.

Lemma modern_first_page_from {C} `{!Client (list string) C} titles namespace limit mode f (g : C) :
  Wiki.modern titles
    (page_request (<["apfrom" := VStr f]> (page_list_params namespace limit mode)) g [])
  = (Wiki.reply Wiki.modern_continue (Wiki.from titles (Some f)) (Z.to_nat limit), titles).
Proof. reflexivity. Qed.

Lemma modern_next_page_from {C} `{!Client (list string) C} titles namespace limit mode f (g : C) t :
  Wiki.modern titles
    (page_request (<["apfrom" := VStr f]> (page_list_params namespace limit mode)) g
       (modern_cursor t))
  = (Wiki.reply Wiki.modern_continue (Wiki.from titles (Some t)) (Z.to_nat limit), titles).
Proof. reflexivity. Qed.

(** X10. [get_page_list] with a first page, against a wiki that serves its
    titles in strictly ascending order: the consumer receives exactly the
    titles from the first page on, in order, after
    [max 1 (ceil_div n limit)] requests for [n] such titles, on both
    clients.  The cursor of a later request takes the place of the first
    page. *)
Theorem listing_starts_at_first_page titles limit first_page pulls :
  Wiki.ascending titles ->
  (1 <= limit)%Z ->
  let listing := Wiki.from titles (Some first_page) in
  let requests := Nat.max 1 (ceil_div (length listing) (Z.to_nat limit)) in
  requests <= pulls ->
  (let run := consume (MediaWikiAPI1_19.get_page_list Wiki.legacy 0 limit
                         (Some first_page) "all" pulls)
                (MediaWikiAPI1_19.init "https://wiki" titles) in
   fst run = (map VStr listing, Exhausted) /\
   length (sent (session (snd run))) = requests) /\
  (let run := consume (MediaWikiAPI1_31.get_page_list Wiki.modern 0 limit
                         (Some first_page) "all" pulls)
                (MediaWikiAPI1_31.init "https://wiki" titles) in
   fst run = (map VStr listing, Exhausted) /\
   length (sent (session (snd run))) = requests).
Proof.
  intros Hasc Hlimit listing requests Hpulls.
  assert (1 <= Z.to_nat limit) as Hl by lia.
  pose proof (from_is_suffix titles first_page Hasc) as Hsuffix.
  split.
  - intros run. subst run.
    unfold consume, MediaWikiAPI1_19.get_page_list. cbv zeta. unfold with_optional.
    destruct (listing_loop_from (Client0 := MediaWikiAPI1_19.client) Wiki.legacy
                (<["apfrom" := VStr first_page]> (page_list_params 0 limit "all"))
                (MediaWikiAPI1_19.next_continue "allpages")
                Wiki.legacy_continue legacy_cursor titles listing (Z.to_nat limit)
                (fun g => legacy_first_page_from titles 0 limit "all" first_page g)
                (fun g t => legacy_next_page_from titles 0 limit "all" first_page g t)
                (fun l => legacy_next_of_body l (Z.to_nat limit))
                (fun l => legacy_body_without_error l (Z.to_nat limit))
                Hasc Hsuffix Hl pulls listing []
                {| gen_self := MediaWikiAPI1_19.init "https://wiki" titles;
                   yielded := [] |}
                ltac:(reflexivity) (or_introl (conj eq_refl eq_refl)) Hpulls)
      as (g' & Hloop & Hyield & Hlen).
    unfold page_list_params in Hloop. rewrite Hloop. cbn [fst snd].
    change (session (gen_self g')) with (session g').
    by rewrite Hyield, Hlen.
  - intros run. subst run.
    unfold consume, MediaWikiAPI1_31.get_page_list. cbv zeta. unfold with_optional.
    destruct (listing_loop_from (Client0 := MediaWikiAPI1_31.client) Wiki.modern
                (<["apfrom" := VStr first_page]> (page_list_params 0 limit "all"))
                MediaWikiAPI1_31.next_continue
                Wiki.modern_continue modern_cursor titles listing (Z.to_nat limit)
                (fun g => modern_first_page_from titles 0 limit "all" first_page g)
                (fun g t => modern_next_page_from titles 0 limit "all" first_page g t)
                (fun l => modern_next_of_body l (Z.to_nat limit))
                (fun l => modern_body_without_error l (Z.to_nat limit))
                Hasc Hsuffix Hl pulls listing []
                {| gen_self := MediaWikiAPI1_31.init "https://wiki" titles;
                   yielded := [] |}
                ltac:(reflexivity) (or_introl (conj eq_refl eq_refl)) Hpulls)
      as (g' & Hloop & Hyield & Hlen).
    unfold page_list_params in Hloop. rewrite Hloop. cbn [fst snd].
    change (session (gen_self g')) with (session g').
    by rewrite Hyield, Hlen.
Qed.

(** ** The token caches of the legacy client *)

Section Legacy_caches.
Context {Server : Type}.
Variable transport : Server -> request -> response * Server.
Import MediaWikiAPI1_19.
Implicit Types self : @MediaWikiAPI1_19.t Server.

Lemma edit_page_caches self page_name text summary :
  let self' := snd (edit_page transport page_name text summary self) in
  delete_tokens self' = delete_tokens self /\
  dom (edit_tokens self) ⊆ dom (edit_tokens self') /\
  (forall token, edit_tokens self !! page_name = Some token ->
                 edit_tokens self' = edit_tokens self).
Proof.
  intros self'. subst self'.
  destruct (edit_tokens self !! page_name) as [token|] eqn:Hc.
  - rewrite (edit_page_cached transport _ _ _ _ _ Hc). simpl. done.
  - destruct (edit_page_uncached transport self page_name text summary Hc)
      as [-> | [(tokens & -> & _) | (tokens & token & _ & _ & ->)]]; simpl.
    + done.
    + split; [done|]. split; [|done]. rewrite dom_union. set_solver.
    + split; [done|]. split; [|done]. rewrite dom_union. set_solver.
Qed.

Lemma delete_page_caches self page_name reason :
  let self' := snd (delete_page transport page_name reason self) in
  edit_tokens self' = edit_tokens self /\
  dom (delete_tokens self) ⊆ dom (delete_tokens self') /\
  (forall token, delete_tokens self !! page_name = Some token ->
                 delete_tokens self' = delete_tokens self).
Proof.
  intros self'. subst self'.
  destruct (delete_tokens self !! page_name) as [token|] eqn:Hc.
  - rewrite (delete_page_cached transport _ _ _ _ Hc). simpl. done.
  - destruct (delete_page_uncached transport self page_name reason Hc)
      as [-> | [(tokens & -> & _) | (tokens & token & _ & _ & ->)]]; simpl.
    + done.
    + split; [done|]. split; [|done]. rewrite dom_union. set_solver.
    + split; [done|]. split; [|done]. rewrite dom_union. set_solver.
Qed.

(** X11. The two token caches of the legacy client are kept apart and
    never lose a title: [edit_page] leaves the delete tokens as they are
    and keeps every title of the edit tokens, [delete_page] the other way
    round, and a call for a title that is cached changes no cache. *)
Theorem legacy_caches_kept_apart self page_name text summary reason :
  let edited := snd (edit_page transport page_name text summary self) in
  let deleted := snd (delete_page transport page_name reason self) in
  (delete_tokens edited = delete_tokens self /\
   dom (edit_tokens self) ⊆ dom (edit_tokens edited) /\
   (forall token, edit_tokens self !! page_name = Some token ->
                  edit_tokens edited = edit_tokens self)) /\
  (edit_tokens deleted = edit_tokens self /\
   dom (delete_tokens self) ⊆ dom (delete_tokens deleted) /\
   (forall token, delete_tokens self !! page_name = Some token ->
                  delete_tokens deleted = delete_tokens self)).
Proof. split; [apply edit_page_caches | apply delete_page_caches]. Qed.

Lemma edit_page_token_failure self page_name text summary e self' :
  edit_tokens self !! page_name = None ->
  get_tokens transport "edit" page_name self = (Raise e, self') ->
  edit_page transport page_name text summary self = (Raise e, self') /\
  issued self self' = [tokens_request (api_url self) "edit" page_name] /\
  edit_tokens self' = edit_tokens self /\ delete_tokens self' = delete_tokens self.
Proof.
  intros Hc Hget.
  pose proof (get_tokens_state transport _ _ _ _ _ Hget) as ->.
  split; [|split; [|done]].
  - unfold edit_page. cbv zeta. rewrite bind_gets, Hc.
    erewrite bind_raise; [reflexivity|].
    rewrite fetch_stage, Hget by (apply bool_decide_eq_false_2; by intros [? ?]).
    reflexivity.
  - apply issued_app. reflexivity.
Qed.

Lemma delete_page_token_failure self page_name reason e self' :
  delete_tokens self !! page_name = None ->
  get_tokens transport "delete" page_name self = (Raise e, self') ->
  delete_page transport page_name reason self = (Raise e, self') /\
  issued self self' = [tokens_request (api_url self) "delete" page_name] /\
  edit_tokens self' = edit_tokens self /\ delete_tokens self' = delete_tokens self.
Proof.
  intros Hc Hget.
  pose proof (get_tokens_state transport _ _ _ _ _ Hget) as ->.
  split; [|split; [|done]].
  - unfold delete_page. cbv zeta. rewrite bind_gets, Hc.
    erewrite bind_raise; [reflexivity|].
    rewrite fetch_stage, Hget by (apply bool_decide_eq_false_2; by intros [? ?]).
    reflexivity.
  - apply issued_app. reflexivity.
Qed.

(** X12. On the legacy client too the token comes first: when no token is
    cached for the title and [get_tokens] raises, [edit_page] and
    [delete_page] raise the same exception, the token query is the only
    request, and both caches are unchanged. *)
Theorem legacy_token_failure_sends_no_mutation self page_name text summary reason :
  (forall e self',
     edit_tokens self !! page_name = None ->
     get_tokens transport "edit" page_name self = (Raise e, self') ->
     edit_page transport page_name text summary self = (Raise e, self') /\
     issued self self' = [tokens_request (api_url self) "edit" page_name] /\
     edit_tokens self' = edit_tokens self /\ delete_tokens self' = delete_tokens self) /\
  (forall e self',
     delete_tokens self !! page_name = None ->
     get_tokens transport "delete" page_name self = (Raise e, self') ->
     delete_page transport page_name reason self = (Raise e, self') /\
     issued self self' = [tokens_request (api_url self) "delete" page_name] /\
     edit_tokens self' = edit_tokens self /\ delete_tokens self' = delete_tokens self).
Proof.
  split; intros e self'.
  - apply edit_page_token_failure.
  - apply delete_page_token_failure.
Qed.

Lemma get_tokens_warning self token_type titles r data warning :
  answers transport (server (session self)) r ->
  accepted r data ->
  getitem data "warning" = Ok warning ->
  get_tokens transport token_type titles self
  = (Raise (MediaWikiAPIError (Payload warning)),
     posted transport self (tokens_request (api_url self) token_type titles)).
Proof.
  intros Hr [[Hs Hj] He] Hw.
  unfold get_tokens, session_post_params. cbv zeta.
  fold (tokens_request (api_url self) token_type titles).
  erewrite bind_ok by (by apply send_answer).
  unfold check_status, response_json. rewrite Hs, Hj. simpl bool_decide. cbv iota.
  erewrite bind_ok by reflexivity.
  rewrite (bind_lift_ok _ _ _ _ eq_refl).
  erewrite bind_ok; cycle 1.
  { unfold check_error. by rewrite (bind_lift_ok _ _ _ _ He). }
  erewrite bind_raise; [reflexivity|].
  unfold check_warning.
  rewrite (bind_lift_ok _ _ _ _ (getitem_contains _ _ _ Hw)).
  by rewrite (bind_lift_ok _ _ _ _ Hw).
Qed.

(** X13. [get_tokens] treats a warning like an error: a token answer with
    a warning field and no error field makes the uncached [edit_page] and
    [delete_page] raise the API error with the warning, and the mutation
    request is not sent. *)
Theorem legacy_token_warning_blocks_mutation self page_name text summary reason
  r data warning :
  answers transport (server (session self)) r ->
  accepted r data ->
  getitem data "warning" = Ok warning ->
  (edit_tokens self !! page_name = None ->
   let run := edit_page transport page_name text summary self in
   fst run = Raise (MediaWikiAPIError (Payload warning)) /\
   issued self (snd run) = [tokens_request (api_url self) "edit" page_name]) /\
  (delete_tokens self !! page_name = None ->
   let run := delete_page transport page_name reason self in
   fst run = Raise (MediaWikiAPIError (Payload warning)) /\
   issued self (snd run) = [tokens_request (api_url self) "delete" page_name]).
Proof.
  intros Hr Hacc Hw.
  split; intros Hc run; subst run.
  - destruct (edit_page_token_failure self page_name text summary _ _ Hc
                (get_tokens_warning _ "edit" page_name _ _ _ Hr Hacc Hw))
      as (-> & Hissued & _). done.
  - destruct (delete_page_token_failure self page_name reason _ _ Hc
                (get_tokens_warning _ "delete" page_name _ _ _ Hr Hacc Hw))
      as (-> & Hissued & _). done.
Qed.

(** The pages of a token answer as title and token. *)
Lemma token_dict_pairs token_type pages pairs : forall acc,
  Forall2 (fun page_data pair =>
             getitem page_data "title" = Ok (VStr (fst pair)) /\
             getitem page_data (token_type +:+ "token") = Ok (snd pair))
          pages pairs ->
  token_dict token_type pages acc
  = Ok (list_to_map (reverse pairs) ∪ acc).
Proof.
  intros acc H. revert acc.
  induction H as [|page_data [title token] pages pairs [Ht Hk] _ IH]; intros acc; simpl.
  - by rewrite (left_id_L ∅ (∪)).
  - unfold token_entry. simpl in Ht, Hk. rewrite Ht, Hk. rewrite IH.
    f_equal. rewrite reverse_cons, list_to_map_app. simpl.
    rewrite <- (assoc_L (∪)). f_equal.
    rewrite insert_empty. by rewrite <- insert_union_singleton_l.
Qed.

Lemma get_tokens_pages self token_type titles r data query entries pairs :
  answers transport (server (session self)) r ->
  accepted r data ->
  contains "warning" data = Ok false ->
  getitem data "query" = Ok query ->
  getitem query "pages" = Ok (VDict entries) ->
  Forall2 (fun page_data pair =>
             getitem page_data "title" = Ok (VStr (fst pair)) /\
             getitem page_data (token_type +:+ "token") = Ok (snd pair))
          (map snd entries) pairs ->
  get_tokens transport token_type titles self
  = (Ok (list_to_map (reverse pairs)),
     posted transport self (tokens_request (api_url self) token_type titles)).
Proof.
  intros Hr [[Hs Hj] He] Hw Hq Hp Hpairs.
  unfold get_tokens, session_post_params. cbv zeta.
  fold (tokens_request (api_url self) token_type titles).
  erewrite bind_ok by (by apply send_answer).
  unfold check_status, response_json. rewrite Hs, Hj. simpl bool_decide. cbv iota.
  erewrite bind_ok by reflexivity.
  rewrite (bind_lift_ok _ _ _ _ eq_refl).
  erewrite bind_ok; cycle 1.
  { unfold check_error. by rewrite (bind_lift_ok _ _ _ _ He). }
  erewrite bind_ok; cycle 1.
  { unfold check_warning. by rewrite (bind_lift_ok _ _ _ _ Hw). }
  rewrite (bind_lift_ok _ _ _ _ Hq), (bind_lift_ok _ _ _ _ Hp).
  rewrite (bind_lift_ok (values (VDict entries)) _ _ _ eq_refl).
  unfold lift_result. rewrite (token_dict_pairs _ _ _ _ Hpairs).
  by rewrite (right_id_L ∅ (∪)).
Qed.

(** X14. [get_tokens] on an answer with several pages returns a dict with
    exactly the titles of the answer, each mapped to the token of the last
    page that carries the title. *)
Theorem get_tokens_maps_titles_to_tokens self token_type titles r data query
  entries pairs :
  answers transport (server (session self)) r ->
  accepted r data ->
  contains "warning" data = Ok false ->
  getitem data "query" = Ok query ->
  getitem query "pages" = Ok (VDict entries) ->
  Forall2 (fun page_data pair =>
             getitem page_data "title" = Ok (VStr (fst pair)) /\
             getitem page_data (token_type +:+ "token") = Ok (snd pair))
          (map snd entries) pairs ->
  exists tokens,
    fst (get_tokens transport token_type titles self) = Ok tokens /\
    dom tokens = list_to_set (map fst pairs) /\
    (forall before title token after,
       pairs = before ++ (title, token) :: after ->
       title ∉ map fst after ->
       tokens !! title = Some token).
Proof.
  intros Hr Hacc Hw Hq Hp Hpairs.
  exists (list_to_map (reverse pairs)).
  rewrite (get_tokens_pages _ _ _ _ _ _ _ _ Hr Hacc Hw Hq Hp Hpairs).
  split; [done|]. split.
  - rewrite dom_list_to_map_L. rewrite fmap_reverse.
    apply set_eq. intros x. rewrite !elem_of_list_to_set, elem_of_reverse. done.
  - intros before title token after -> Hlast.
    rewrite reverse_app, reverse_cons, <- app_assoc. simpl.
    rewrite list_to_map_app. apply lookup_union_Some_raw. right. split.
    + apply not_elem_of_list_to_map_1. by rewrite fmap_reverse, elem_of_reverse.
    + simpl. apply lookup_insert_eq.
Qed.

(** The platform names another title than the one asked for. *)
(** X15. The legacy token cache is keyed by the title the platform sends
    back.  When the token answer names another title than the one asked
    for, [edit_page] raises [KeyError] for the page name after the token
    query, sends no edit, stores the token under the other title, and
    the page name is still without token. *)
Theorem legacy_renamed_title_fails_lookup self page_name text summary r other token :
  edit_tokens self !! page_name = None ->
  other <> page_name ->
  answers transport (server (session self)) r ->
  tokens_reply "edit" other token r ->
  let run := edit_page transport page_name text summary self in
  fst run = Raise (KeyError page_name) /\
  issued self (snd run) = [tokens_request (api_url self) "edit" page_name] /\
  edit_tokens (snd run) = <[other := token]> (edit_tokens self) /\
  edit_tokens (snd run) !! page_name = None.
Proof.
  intros Hc Hne Hr (data & query & id & page_data & Hacc & Hw & Hq & Hp & Ht & Hk) run.
  subst run.
  assert (get_tokens transport "edit" page_name self
          = (Ok {[other := token]},
             posted transport self (tokens_request (api_url self) "edit" page_name)))
    as Hget.
  { rewrite (get_tokens_pages self "edit" page_name r data query [(id, page_data)]
               [(other, token)] Hr Hacc Hw Hq Hp); [|by repeat constructor].
    simpl. by rewrite insert_empty. }
  unfold edit_page. cbv zeta. rewrite bind_gets, Hc.
  erewrite bind_ok; cycle 1.
  { rewrite fetch_stage, Hget by (apply bool_decide_eq_false_2; by intros [? ?]).
    reflexivity. }
  assert (({[other := token]} ∪ edit_tokens self) !! page_name = None) as Hnone.
  { rewrite lookup_union_r by (by rewrite lookup_singleton_ne). done. }
  erewrite bind_raise; cycle 1.
  { unfold lift_result, cached. simpl edit_tokens. rewrite Hnone. reflexivity. }
  cbn [fst snd]. split; [done|]. split; [by apply issued_app|].
  simpl. split; [by rewrite insert_union_singleton_l | done].
Qed.
End Legacy_caches.

(** ** Answers checked for status and error *)

Section Checked_answers.
Context {Server : Type}.
Variable transport : Server -> request -> response * Server.

Lemma post_checked {C} `{!Client Server C} (self : C) data r :
  answers transport (server (session self)) r ->
  fst ((let* r := session_post transport data in
        check_status r >>
        let* data := lift_result (response_json r) in
        check_error data >> ret tt) self)
  = checked r.
Proof.
  intros Hr. unfold session_post. erewrite bind_ok by (by apply send_answer).
  unfold checked, check_status, check_error, response_json, lift_result, ret, raise, bind.
  destruct (bool_decide (status_code r = 200%Z)); [|done].
  destruct (json r) as [body|]; [|done].
  destruct (contains "error" body) as [[]|]; [|done..].
  by destruct (getitem body "error").
Qed.

(** X16. With a token at hand, the outcome of [edit_page] on either client
    is decided by the status and the decoded body of the answer alone.  A
    status other than 200 raises the status error before the body is
    decoded, and a body that is no JSON raises the decoding error.  A
    decoded body with an error entry raises the API error with its payload.
    A body on which ['error' in data] is false returns, whatever result it
    reports.  A body that is [null], a boolean or a number raises
    [TypeError] at that test, and so does a list or a string that holds
    ['error'], at the lookup. *)
Theorem edit_outcome_is_status_then_error r :
  (forall (self : MediaWikiAPI1_19.t) page_name text summary token,
     MediaWikiAPI1_19.edit_tokens self !! page_name = Some token ->
     answers transport (server (session self)) r ->
     fst (MediaWikiAPI1_19.edit_page transport page_name text summary self) = checked r) /\
  (forall (self : MediaWikiAPI1_31.t) page_name text summary,
     MediaWikiAPI1_31.csrf_token self <> VNone ->
     answers transport (server (session self)) r ->
     fst (MediaWikiAPI1_31.edit_page transport page_name text summary self) = checked r) /\
  (status_code r <> 200%Z ->
   checked r = Raise (MediaWikiAPIError
                        (Formatted "Status code is {}" (VInt (status_code r))))) /\
  (status_code r = 200%Z -> json r = None -> checked r = Raise JSONDecodeError) /\
  (forall data, decodes_to r data ->
     (forall error, getitem data "error" = Ok error ->
                    checked r = Raise (MediaWikiAPIError (Payload error))) /\
     (contains "error" data = Ok false -> checked r = Ok tt) /\
     (data = VNone \/ (exists b, data = VBool b) \/ (exists n, data = VInt n) ->
      checked r = Raise TypeError) /\
     ((forall entries, data <> VDict entries) ->
      contains "error" data = Ok true -> checked r = Raise TypeError)).
Proof.
  split; [|split; [|split; [|split]]].
  - intros self page_name text summary token Hc Hr.
    unfold MediaWikiAPI1_19.edit_page. cbv zeta. rewrite bind_gets, Hc.
    rewrite bool_decide_eq_true_2 by eauto.
    erewrite bind_ok by reflexivity.
    erewrite bind_ok; cycle 1.
    { unfold lift_result, MediaWikiAPI1_19.cached. rewrite Hc. reflexivity. }
    by apply post_checked.
  - intros self page_name text summary Hc Hr.
    unfold MediaWikiAPI1_31.edit_page.
    rewrite (bind_ok _ _ _ _ _ (ensure_csrf_token_cached transport _ Hc)).
    rewrite bind_gets. cbv zeta. by apply post_checked.
  - intros Hs. unfold checked. by rewrite bool_decide_eq_false_2.
  - intros Hs Hj. unfold checked. by rewrite Hs, Hj.
  - intros data [Hs Hj]. unfold checked. rewrite Hs, Hj. simpl.
    split; [|split; [|split]].
    + intros error He. by rewrite (getitem_contains _ _ _ He), He.
    + by intros ->.
    + by intros [-> | [[b ->] | [n ->]]].
    + intros Hshape ->. destruct data; try done. by destruct (Hshape entries).
Qed.

(** ** The modern login *)
Import MediaWikiAPI1_31.
Implicit Types self : @MediaWikiAPI1_31.t Server.

Lemma api_login_with_token self username password r1 srv1 token :
  transport (server (session self)) (token_request (api_url self) "login") = (r1, srv1) ->
  token_reply "login" token r1 ->
  api_login transport username password self
  = (let* r := session_post transport
                 (<["action" := VStr "login"]> (
                  <["format" := VStr "json"]> (
                  <["lgname" := VStr username]> (
                  <["lgpassword" := VStr password]> (
                  <["lgtoken" := token]> ∅))))) in
     check_status r >>
     let* data := lift_result (response_json r) in
     check_error data >> ret tt)
      (with_session
         {| server := srv1;
            sent := sent (session self) ++ [token_request (api_url self) "login"] |}
         self).
Proof.
  intros Ht Htoken. unfold api_login.
  by rewrite (bind_ok _ _ _ _ _ (get_token_ok transport _ _ _ _ _ Ht Htoken)).
Qed.

(** X17. The modern [api_login], once the platform sent a login token:
    it issues the token query and then one login request carrying that
    token, its outcome is decided by the status and the error field of the
    login answer alone (the login result is not read), and it leaves the
    CSRF token of the client alone. *)
Theorem modern_login_reads_no_result self username password r1 srv1 token r2 :
  transport (server (session self)) (token_request (api_url self) "login") = (r1, srv1) ->
  token_reply "login" token r1 ->
  answers transport srv1 r2 ->
  let run := api_login transport username password self in
  fst run = checked r2 /\
  issued self (snd run)
  = [token_request (api_url self) "login";
     modern_login_request (api_url self) username password token] /\
  csrf_token (snd run) = csrf_token self.
Proof.
  intros Ht Htoken Hr run. subst run.
  rewrite (api_login_with_token _ _ _ _ _ _ Ht Htoken).
  split; [by apply post_checked|].
  rewrite post_and_check. split; [|reflexivity].
  apply issued_app. unfold posted. simpl. by rewrite <- app_assoc.
Qed.

Lemma api_login_state self username password :
  csrf_token (snd (api_login transport username password self)) = csrf_token self.
Proof.
  unfold api_login. unfold bind at 1.
  destruct (get_token transport "login" self) as [[token|e] self1] eqn:Hget;
    pose proof (get_token_state transport _ _ _ _ Hget) as ->; [|done].
  cbv zeta. by rewrite post_and_check.
Qed.

Lemma get_page_state self title :
  snd (get_page transport title self)
  = posted transport self (raw_page_request (index_url self) title).
Proof.
  unfold get_page, posted, raw_page_request, send, check_status, ret, raise, bind.
  destruct (transport _ _) as [resp srv]; simpl.
  repeat case_match; simplify_eq; done.
Qed.

(** X18. A CSRF token of the modern client is never replaced: [edit_page]
    and [delete_page] keep a token that is set, and [api_login],
    [get_page] and [get_namespace_list] never touch it. *)
Theorem modern_token_is_never_replaced self :
  (forall c, csrf_token self <> VNone ->
             csrf_token (snd (modern_call transport c self)) = csrf_token self) /\
  (forall username password,
     csrf_token (snd (api_login transport username password self)) = csrf_token self) /\
  (forall title, csrf_token (snd (get_page transport title self)) = csrf_token self) /\
  (forall py_int,
     csrf_token (snd (get_namespace_list transport py_int self)) = csrf_token self).
Proof.
  split; [|split; [|split]].
  - intros c Hc. by rewrite (modern_call_with_token transport self c Hc).
  - intros. apply api_login_state.
  - intros. by rewrite get_page_state.
  - intros. unfold get_namespace_list. by rewrite namespace_list_state.
Qed.

(** X19. [get_page] of the modern client sends one GET to the index URL
    with [action=raw] and the title; it returns the text of the answer
    exactly when the status is 200 and raises the status error otherwise.
    The body is never decoded. *)
Theorem modern_get_page_returns_text self title r :
  answers transport (server (session self)) r ->
  let run := get_page transport title self in
  fst run = (if bool_decide (status_code r = 200%Z) then Ok (text r)
             else Raise (MediaWikiAPIError
                           (Formatted "Status code is {}" (VInt (status_code r))))) /\
  issued self (snd run) = [raw_page_request (index_url self) title].
Proof.
  intros Hr run. subst run. split.
  - unfold get_page. cbv zeta.
    erewrite bind_ok by (by apply send_answer).
    unfold check_status, ret, raise, bind.
    by destruct (bool_decide (status_code r = 200%Z)).
  - rewrite get_page_state. apply issued_app. unfold posted.
    by rewrite session_with_session.
Qed.
End Checked_answers.

(** ** Failing login attempts *)

Section Legacy_login_failures.
Context {Server : Type}.
Variable transport : Server -> request -> response * Server.
Import MediaWikiAPI1_19.
Implicit Types self : @MediaWikiAPI1_19.t Server.

(** X20. A failing attempt ends the legacy login.  A first answer that
    fails the status, error or warning check raises that exception after
    one request; [NeedToken] without a token raises the lookup error
    without a second request; a second answer that fails the checks raises
    after exactly two requests.  The checks come in this order: status,
    error field, warning field. *)
Theorem legacy_login_failing_attempt self username password r1 srv1 :
  let request1 := legacy_login_request (api_url self) username password in
  let self1 := with_session
    {| server := srv1; sent := sent (session self) ++ [request1] |} self in
  transport (server (session self)) request1 = (r1, srv1) ->
  (forall e, login_checked r1 = Raise e ->
     api_login transport username password self = (Raise e, self1)) /\
  (forall data login e,
     login_checked r1 = Ok data ->
     getitem data "login" = Ok login ->
     getitem login "result" = Ok (VStr "NeedToken") ->
     getitem login "token" = Raise e ->
     api_login transport username password self = (Raise e, self1)) /\
  (forall data login token r2 srv2 e,
     login_checked r1 = Ok data ->
     getitem data "login" = Ok login ->
     getitem login "result" = Ok (VStr "NeedToken") ->
     getitem login "token" = Ok token ->
     let request2 := legacy_login_retry (api_url self) username password token in
     transport srv1 request2 = (r2, srv2) ->
     login_checked r2 = Raise e ->
     api_login transport username password self
     = (Raise e,
        with_session
          {| server := srv2; sent := sent (session self) ++ [request1; request2] |}
          self)) /\
  (status_code r1 <> 200%Z ->
   login_checked r1
   = Raise (MediaWikiAPIError (Formatted "Status code is {}" (VInt (status_code r1))))) /\
  (forall data, decodes_to r1 data ->
     (forall error, getitem data "error" = Ok error ->
        login_checked r1 = Raise (MediaWikiAPIError (Payload error))) /\
     (forall warning, contains "error" data = Ok false ->
        getitem data "warning" = Ok warning ->
        login_checked r1 = Raise (MediaWikiAPIError (Payload warning)))).
Proof.
  intros request1 self1 Ht1.
  split; [|split; [|split; [|split]]].
  - intros e He. unfold api_login. cbv zeta.
    rewrite (login_attempt_checked transport _ _ _ _ _ Ht1), He. reflexivity.
  - intros data login e Hd Hl Hres Htok. unfold api_login. cbv zeta.
    rewrite (login_attempt_checked transport _ _ _ _ _ Ht1), Hd.
    assert (login_result data = Ok (VStr "NeedToken")) as Hr.
    { unfold login_result. by rewrite Hl. }
    rewrite (bind_lift_ok _ _ _ _ Hr).
    change (is_str "Success" (VStr "NeedToken")) with false. cbv iota.
    rewrite (bind_lift_ok _ _ _ _ Hr).
    change (is_str "NeedToken" (VStr "NeedToken")) with true. cbv iota beta delta [negb].
    rewrite (bind_lift_ok _ _ _ _ Hl).
    by rewrite (bind_lift_raise _ _ _ _ Htok).
  - intros data login token r2 srv2 e Hd Hl Hres Htok request2 Ht2 He.
    unfold api_login. cbv zeta.
    rewrite (login_attempt_checked transport _ _ _ _ _ Ht1), Hd.
    assert (login_result data = Ok (VStr "NeedToken")) as Hr.
    { unfold login_result. by rewrite Hl. }
    rewrite (bind_lift_ok _ _ _ _ Hr).
    change (is_str "Success" (VStr "NeedToken")) with false. cbv iota.
    rewrite (bind_lift_ok _ _ _ _ Hr).
    change (is_str "NeedToken" (VStr "NeedToken")) with true. cbv iota beta delta [negb].
    rewrite (bind_lift_ok _ _ _ _ Hl), (bind_lift_ok _ _ _ _ Htok).
    erewrite (login_attempt_checked transport) by exact Ht2. rewrite He.
    simpl. unfold request1, legacy_login_request. by rewrite <- app_assoc.
  - intros Hs. unfold login_checked. by rewrite bool_decide_eq_false_2.
  - intros data [Hs Hj]. unfold login_checked. rewrite Hs, Hj. simpl. split.
    + intros error He. by rewrite (getitem_contains _ _ _ He), He.
    + intros warning -> Hw. by rewrite (getitem_contains _ _ _ Hw), Hw.
Qed.
End Legacy_login_failures.

(** ** The further properties on examples *)

Lemma scripted_answers r rest : answers scripted (r :: rest) r.
Proof. intros req. reflexivity. Qed.

Lemma ok_json_accepted data :
  contains "error" data = Ok false -> accepted (ok_json data) data.
Proof. intros H. repeat split. exact H. Qed.

(** Five namespaces, two of them virtual. *)
Lemma namespace_ids_never_negative_witness :
  let self := MediaWikiAPI1_31.init "https://wiki" [ok_json namespaces_body] in
  let run := MediaWikiAPI1_31.get_namespace_list scripted (decimal ValueError) self in
  fst run = Ok [0; 1; 14]%Z /\
  Forall (Z.le 0) [0; 1; 14]%Z /\
  issued self (snd run) = [siteinfo_request "https://wiki/api.php"].
Proof.
  intros self run.
  destruct (namespace_ids_never_negative scripted (decimal ValueError)) as [_ Hmodern].
  destruct (Hmodern self (snd run) [0; 1; 14]%Z ltac:(vm_compute; reflexivity))
    as [Hpositive Hissued].
  split; [reflexivity|]. split; [exact Hpositive | exact Hissued].
Defined.

Lemma namespace_list_keeps_order_witness :
  fst (MediaWikiAPI1_19.get_namespace_list scripted (decimal ValueError)
         (MediaWikiAPI1_19.init "https://wiki" [ok_json namespaces_body]))
  = Ok [0; 1; 14]%Z.
Proof.
  assert (Forall2 (fun k n => decimal ValueError k = Ok n)
            ["-2"; "-1"; "0"; "1"; "14"] [-2; -1; 0; 1; 14]%Z) as Hparsed
    by (repeat constructor).
  destruct (namespace_list_keeps_order scripted (decimal ValueError)
              (ok_json namespaces_body) namespaces_body _ _ _
              (ok_json_accepted namespaces_body eq_refl) eq_refl eq_refl Hparsed) as [Hlegacy _].
  exact (Hlegacy (MediaWikiAPI1_19.init "https://wiki" [ok_json namespaces_body])
           (scripted_answers _ _)).
Defined.

(** A key that is a name: the list is lost, also the 0 before it. *)
Lemma namespace_key_rejected_by_int_witness :
  fst (MediaWikiAPI1_31.get_namespace_list scripted (decimal ValueError)
         (MediaWikiAPI1_31.init "https://wiki" [ok_json named_namespaces_body]))
  = Raise ValueError.
Proof.
  destruct (namespace_key_rejected_by_int scripted (decimal ValueError)
              (ok_json named_namespaces_body) named_namespaces_body _
              [("0", VDict [])] "talk" (VDict []) [("-1", VDict [])] ValueError
              (ok_json_accepted named_namespaces_body eq_refl) eq_refl eq_refl
              ltac:(repeat constructor; by exists 0%Z) eq_refl) as [_ Hmodern].
  exact (Hmodern (MediaWikiAPI1_31.init "https://wiki" [ok_json named_namespaces_body])
           (scripted_answers _ _)).
Defined.

(** The second page is answered with status 503: A and B stay delivered. *)
Lemma failed_page_ends_listing_witness :
  let g : Gen MediaWikiAPI1_19.t :=
    {| gen_self := MediaWikiAPI1_19.init "https://wiki" [Response 503 "" None];
       yielded := [VStr "A"; VStr "B"] |} in
  let run := paged_loop scripted (page_list_params 0 2 "all") (emit_titles "allpages")
               (MediaWikiAPI1_19.next_continue "allpages") 1
               (VDict (legacy_cursor "C")) g in
  fst run = Raise (MediaWikiAPIError (Formatted "Status code is {}" (VInt 503))) /\
  yielded (snd run) = [VStr "A"; VStr "B"].
Proof.
  intros g run.
  destruct (failed_page_ends_listing (Client0 := MediaWikiAPI1_19.client) scripted
              (page_list_params 0 2 "all") (emit_titles "allpages")
              (MediaWikiAPI1_19.next_continue "allpages") 0 (legacy_cursor "C") g
              (Response 503 "" None) [] eq_refl) as (Hstatus & _ & Hyielded & _).
  unfold run. rewrite (Hstatus ltac:(discriminate)). split; [reflexivity | exact Hyielded].
Defined.

(** The second entry has no title: A is delivered, C is not. *)
Lemma entry_without_title_ends_listing_witness :
  let body := pages_body [VDict [("title", VStr "A")]; VDict [("ns", VInt 0)];
                          VDict [("title", VStr "C")]] [] in
  let g : Gen MediaWikiAPI1_31.t :=
    {| gen_self := MediaWikiAPI1_31.init "https://wiki" [ok_json body];
       yielded := [] |} in
  let run := paged_loop scripted (page_list_params 0 5 "all") (emit_titles "allpages")
               MediaWikiAPI1_31.next_continue 1 (VDict []) g in
  fst run = Raise (KeyError "title") /\ yielded (snd run) = [VStr "A"].
Proof.
  intros body g run.
  pose proof (entry_without_title_ends_listing (Client0 := MediaWikiAPI1_31.client)
                scripted (page_list_params 0 5 "all") MediaWikiAPI1_31.next_continue
                "allpages" 0 [] g (ok_json body) [] body _
                [VDict [("title", VStr "A")]] [VStr "A"] (VDict [("ns", VInt 0)])
                [VDict [("title", VStr "C")]] (KeyError "title")
                eq_refl (ok_json_accepted body eq_refl) eq_refl eq_refl
                ltac:(repeat constructor) eq_refl) as Hrun.
  unfold run. rewrite Hrun. split; reflexivity.
Defined.

Lemma image_list_yields_title_and_url_witness :
  fst (consume (MediaWikiAPI1_19.get_image_list scripted 10 1)
         (MediaWikiAPI1_19.init "https://wiki" [ok_json images_body]))
  = ([VDict [("title", VStr "File:A.png"); ("url", VStr "https://wiki/images/A.png")];
      VDict [("title", VStr "File:B.png"); ("url", VStr "https://wiki/images/B.png")]],
     Exhausted).
Proof.
  destruct (image_list_yields_title_and_url scripted 10 0 (ok_json images_body)
              images_body _ _
              [(VStr "File:A.png", VStr "https://wiki/images/A.png");
               (VStr "File:B.png", VStr "https://wiki/images/B.png")]
              (ok_json_accepted images_body eq_refl) eq_refl eq_refl
              ltac:(repeat constructor)) as [Hlegacy _].
  exact (proj1 (Hlegacy (MediaWikiAPI1_19.init "https://wiki" [ok_json images_body])
                  (scripted_answers _ _) eq_refl)).
Defined.

(** Two revisions of one page; the second had a title of its own. *)
Lemma deleted_revisions_carry_title_witness :
  fst (consume (MediaWikiAPI1_31.get_deletedrevs_list scripted 0 10 1)
         (MediaWikiAPI1_31.init "https://wiki" [ok_json deletedrevs_body]))
  = ([VDict [("revid", VInt 11); ("user", VStr "Ann"); ("comment", VStr "first");
             ("title", VStr "Old page")];
      VDict [("revid", VInt 12); ("user", VStr "Bob"); ("title", VStr "Old page")]],
     Exhausted).
Proof.
  destruct (deleted_revisions_carry_title scripted 0 10 0 (ok_json deletedrevs_body)
              deletedrevs_body _ _
              [(VStr "Old page",
                [[("revid", VInt 11); ("user", VStr "Ann"); ("comment", VStr "first")];
                 [("revid", VInt 12); ("user", VStr "Bob"); ("title", VStr "stale")]])]
              (ok_json_accepted deletedrevs_body eq_refl) eq_refl eq_refl
              ltac:(repeat constructor)) as (_ & Hmodern & _).
  exact (Hmodern (MediaWikiAPI1_31.init "https://wiki" [ok_json deletedrevs_body])
           (scripted_answers _ _) eq_refl).
Defined.

Lemma search_yields_result_titles_witness :
  fst (consume (MediaWikiAPI1_31.search_pages scripted "proof" 0 10 1)
         (MediaWikiAPI1_31.init "https://wiki" [ok_json search_body]))
  = ([VStr "Rocq"; VStr "Proof"], Exhausted).
Proof.
  destruct (search_yields_result_titles scripted "proof" 0 10 0 (ok_json search_body)
              search_body _ _ [VStr "Rocq"; VStr "Proof"]
              (ok_json_accepted search_body eq_refl) eq_refl eq_refl
              ltac:(repeat constructor) eq_refl) as [Hmodern _].
  exact (proj1 (Hmodern (MediaWikiAPI1_31.init "https://wiki" [ok_json search_body])
                  (scripted_answers _ _))).
Defined.

(** The platform keeps sending the page of A and B with a cursor to A. *)
Lemma repeated_cursor_never_ends_witness :
  fst (consume (MediaWikiAPI1_31.get_page_list (always (ok_json stuck_body)) 0 2 None
                  "all" 3)
         (MediaWikiAPI1_31.init "https://wiki" tt))
  = ([VStr "A"; VStr "B"; VStr "A"; VStr "B"; VStr "A"; VStr "B"], StillRunning).
Proof.
  destruct (repeated_cursor_never_ends (always (ok_json stuck_body)) 0 2 None "all" 3
              (ok_json stuck_body) stuck_body _
              [VDict [("title", VStr "A")]; VDict [("title", VStr "B")]]
              [VStr "A"; VStr "B"]
              [("apcontinue", VStr "A"); ("continue", VStr "-||")]
              (fun srv req => eq_refl) (ok_json_accepted stuck_body eq_refl)
              eq_refl eq_refl ltac:(repeat constructor)) as [_ Hmodern].
  exact (proj1 (Hmodern (MediaWikiAPI1_31.init "https://wiki" tt) eq_refl)).
Defined.

(** From C on, in pages of two: C and D, then E. *)
Lemma listing_starts_at_first_page_witness :
  let observed := ([VStr "C"; VStr "D"; VStr "E"], Exhausted) in
  fst (consume (MediaWikiAPI1_19.get_page_list Wiki.legacy 0 2 (Some "C") "all" 2)
         (MediaWikiAPI1_19.init "https://wiki" ["A"; "B"; "C"; "D"; "E"])) = observed /\
  fst (consume (MediaWikiAPI1_31.get_page_list Wiki.modern 0 2 (Some "C") "all" 2)
         (MediaWikiAPI1_31.init "https://wiki" ["A"; "B"; "C"; "D"; "E"])) = observed.
Proof.
  intros observed.
  destruct (listing_starts_at_first_page ["A"; "B"; "C"; "D"; "E"] 2 "C" 2
              five_titles_ascending ltac:(lia) ltac:(vm_compute; lia))
    as [[Hlegacy _] [Hmodern _]].
  split; [exact Hlegacy | exact Hmodern].
Defined.

(** An edit fetches an edit token and leaves the delete tokens empty. *)
Lemma legacy_caches_kept_apart_witness :
  let self := MediaWikiAPI1_19.init "https://wiki" tt in
  let edited := snd (MediaWikiAPI1_19.edit_page token_desk "A" "text" None self) in
  MediaWikiAPI1_19.delete_tokens edited = ∅ /\
  MediaWikiAPI1_19.edit_tokens edited !! "A" = Some (VStr "token-of-A").
Proof.
  intros self edited.
  destruct (legacy_caches_kept_apart token_desk self "A" "text" None None)
    as [[Hdelete _] _].
  split; [exact Hdelete | reflexivity].
Defined.

(** The platform is down when the token is asked for. *)
Lemma legacy_token_failure_sends_no_mutation_witness :
  let self := MediaWikiAPI1_19.init "https://wiki" [] in
  let run := MediaWikiAPI1_19.delete_page scripted "A" None self in
  fst run = Raise (MediaWikiAPIError (Formatted "Status code is {}" (VInt 500))) /\
  issued self (snd run) = [tokens_request "https://wiki/api.php" "delete" "A"].
Proof.
  intros self run.
  destruct (legacy_token_failure_sends_no_mutation scripted self "A" "text" None None)
    as [_ Hdelete].
  destruct (Hdelete (MediaWikiAPIError (Formatted "Status code is {}" (VInt 500)))
              (snd (MediaWikiAPI1_19.get_tokens scripted "delete" "A" self))
              eq_refl eq_refl) as (Hrun & Hissued & _).
  unfold run. rewrite Hrun. split; [reflexivity | exact Hissued].
Defined.

Lemma legacy_token_warning_blocks_mutation_witness :
  let self := MediaWikiAPI1_19.init "https://wiki" [ok_json warned_tokens_body] in
  let run := MediaWikiAPI1_19.edit_page scripted "A" "text" None self in
  fst run = Raise (MediaWikiAPIError (Payload login_warning)) /\
  issued self (snd run) = [tokens_request "https://wiki/api.php" "edit" "A"].
Proof.
  intros self run.
  destruct (legacy_token_warning_blocks_mutation scripted self "A" "text" None None
              (ok_json warned_tokens_body) warned_tokens_body login_warning
              (scripted_answers _ _) (ok_json_accepted warned_tokens_body eq_refl)
              eq_refl) as [Hedit _].
  exact (Hedit eq_refl).
Defined.

(** One answer with the tokens of A and of B. *)
Lemma get_tokens_maps_titles_to_tokens_witness :
  let self := MediaWikiAPI1_19.init "https://wiki" [ok_json two_tokens_body] in
  exists tokens,
    fst (MediaWikiAPI1_19.get_tokens scripted "edit" "A|B" self) = Ok tokens /\
    tokens !! "A" = Some (VStr "aaa+") /\ tokens !! "B" = Some (VStr "bbb+").
Proof.
  intros self.
  destruct (get_tokens_maps_titles_to_tokens scripted self "edit" "A|B"
              (ok_json two_tokens_body) two_tokens_body _
              [("7", VDict [("title", VStr "A"); ("edittoken", VStr "aaa+")]);
               ("9", VDict [("title", VStr "B"); ("edittoken", VStr "bbb+")])]
              [("A", VStr "aaa+"); ("B", VStr "bbb+")]
              (scripted_answers _ _) (ok_json_accepted two_tokens_body eq_refl)
              eq_refl eq_refl eq_refl ltac:(repeat constructor))
    as (tokens & Hrun & _ & Hlookup).
  exists tokens. split; [exact Hrun|]. split.
  - apply (Hlookup [] "A" (VStr "aaa+") [("B", VStr "bbb+")] eq_refl).
    simpl. intros H. apply list_elem_of_singleton in H. discriminate H.
  - apply (Hlookup [("A", VStr "aaa+")] "B" (VStr "bbb+") [] eq_refl).
    simpl. apply not_elem_of_nil.
Defined.

(** Asked for Main_Page, the platform answers for Main Page. *)
Lemma legacy_renamed_title_fails_lookup_witness :
  let self := MediaWikiAPI1_19.init "https://wiki" [ok_json renamed_token_body] in
  let run := MediaWikiAPI1_19.edit_page scripted "Main_Page" "text" None self in
  fst run = Raise (KeyError "Main_Page") /\
  MediaWikiAPI1_19.edit_tokens (snd run) !! "Main Page" = Some (VStr "aaa+") /\
  MediaWikiAPI1_19.edit_tokens (snd run) !! "Main_Page" = None.
Proof.
  intros self run.
  assert (tokens_reply "edit" "Main Page" (VStr "aaa+") (ok_json renamed_token_body))
    as Hreply.
  { exists renamed_token_body. do 3 eexists. repeat split; reflexivity. }
  destruct (legacy_renamed_title_fails_lookup scripted self "Main_Page" "text" None
              (ok_json renamed_token_body) "Main Page" (VStr "aaa+")
              eq_refl ltac:(discriminate) (scripted_answers _ _) Hreply)
    as (Hrun & _ & Hcache & Hnone).
  split; [exact Hrun|]. split; [|exact Hnone].
  unfold run. rewrite Hcache. apply lookup_insert_eq.
Defined.

(** The platform reports that the edit failed, without an error field. *)
Lemma edit_outcome_is_status_then_error_witness :
  let self := MediaWikiAPI1_31.set_csrf_token (VStr "5f3a+")
                (MediaWikiAPI1_31.init "https://wiki" [ok_json edit_failure_body]) in
  fst (MediaWikiAPI1_31.edit_page scripted "A" "text" None self) = Ok tt.
Proof.
  intros self.
  destruct (edit_outcome_is_status_then_error scripted (ok_json edit_failure_body))
    as (_ & Hmodern & _ & _ & Hbody).
  rewrite (Hmodern self "A" "text" None ltac:(discriminate) (scripted_answers _ _)).
  destruct (Hbody edit_failure_body (conj eq_refl eq_refl)) as (_ & Hok & _).
  exact (Hok eq_refl).
Defined.

(** The platform reports a failed login, without an error field. *)
Lemma modern_login_reads_no_result_witness :
  let self := MediaWikiAPI1_31.init "https://wiki"
                [ok_json login_token_body; ok_json (login_body "Failed")] in
  let run := MediaWikiAPI1_31.api_login scripted "bot" "secret" self in
  fst run = Ok tt /\
  issued self (snd run)
  = [token_request "https://wiki/api.php" "login";
     modern_login_request "https://wiki/api.php" "bot" "secret" (VStr "9c1e+")].
Proof.
  intros self run.
  assert (token_reply "login" (VStr "9c1e+") (ok_json login_token_body)) as Hreply.
  { do 3 eexists. repeat split; reflexivity. }
  destruct (modern_login_reads_no_result scripted self "bot" "secret"
              (ok_json login_token_body) [ok_json (login_body "Failed")]
              (VStr "9c1e+") (ok_json (login_body "Failed"))
              eq_refl Hreply (scripted_answers _ _)) as (Hrun & Hissued & _).
  split; [exact Hrun | exact Hissued].
Defined.

Lemma modern_token_is_never_replaced_witness :
  let self := MediaWikiAPI1_31.set_csrf_token (VStr "5f3a+")
                (MediaWikiAPI1_31.init "https://wiki" []) in
  MediaWikiAPI1_31.csrf_token
    (snd (modern_call scripted (DeletePage "A" None) self)) = VStr "5f3a+".
Proof.
  intros self.
  destruct (modern_token_is_never_replaced scripted self) as [Hcall _].
  exact (Hcall (DeletePage "A" None) ltac:(discriminate)).
Defined.

Lemma modern_get_page_returns_text_witness :
  let self := MediaWikiAPI1_31.init "https://wiki"
                [Response 200 "== Heading ==" None] in
  let run := MediaWikiAPI1_31.get_page scripted "A" self in
  fst run = Ok "== Heading ==" /\
  issued self (snd run) = [raw_page_request "https://wiki/index.php" "A"].
Proof.
  intros self run.
  exact (modern_get_page_returns_text scripted self "A"
           (Response 200 "== Heading ==" None) (scripted_answers _ _)).
Defined.

(** The platform asks for a token without sending one. *)
Lemma legacy_login_failing_attempt_witness :
  let body := VDict [("login", VDict [("result", VStr "NeedToken")])] in
  let self := MediaWikiAPI1_19.init "https://wiki" [ok_json body] in
  let run := MediaWikiAPI1_19.api_login scripted "bot" "secret" self in
  fst run = Raise (KeyError "token") /\ length (sent (session (snd run))) = 1.
Proof.
  intros body self run.
  destruct (legacy_login_failing_attempt scripted self "bot" "secret"
              (ok_json body) [] eq_refl) as (_ & Hneed & _).
  unfold run.
  rewrite (Hneed body (VDict [("result", VStr "NeedToken")]) (KeyError "token")
             eq_refl eq_refl eq_refl eq_refl).
  split; reflexivity.
Defined.
